(** * Media intelligence dashboard: normalizer, aggregators, insight generator

    A shallow embedding of [streamlit_app.py] and of the cleaning and
    aggregation lines of [app.py], with the pandas and Python operations they
    call written out.

    Conventions of the embedding.
    - A Python [str] is the list of its code points, for code points below 256.
    - A number (int64 or float64) is an exact rational: no overflow and no
      rounding.  NaN is a value of its own.  pandas adds in int64, which
      wraps, and in float64, which rounds and overflows to inf: a property
      that depends on the value of a sum is stated for columns on which
      these sums are exact ([exact_sums]), and one that depends on a sum
      being finite for columns of bounded size ([finite_engagements]).
    - A Python exception is the [Raise] outcome of a computation.
    - A DataFrame is a list of column labels and a list of rows; the frame
      the program starts from is the one [pd.read_csv] made of the upload.
    - The date parser of pandas and the formatting built-ins of Python are
      parameters ([Builtins]); [Idealised] is one instance, used to run the
      program on examples.
    - Sorting is stable.  pandas does not promise an order among equal keys;
      no property below speaks of that order. *)

From Stdlib Require Import List String Ascii Bool Arith ZArith QArith Lia.
From Stdlib Require Import Permutation Sorted DecimalString Qabs.
Import ListNotations.

Local Close Scope Q_scope.
Local Open Scope string_scope.
Local Open Scope list_scope.

(** ** Python values, exceptions and string methods *)

Module Py.

Inductive exn : Set :=
| KeyError
| IndexError
| ValueError
| TypeError
| AttributeError.

Inductive result (A : Type) : Type :=
| Ok (a : A)
| Raise (e : exn).

Arguments Ok {A} a.
Arguments Raise {A} e.

Definition bind {A B : Type} (m : result A) (k : A -> result B) : result B :=
  match m with
  | Ok a => k a
  | Raise e => Raise e
  end.

Fixpoint mapM {A B : Type} (f : A -> result B) (l : list A) : result (list B) :=
  match l with
  | [] => Ok []
  | x :: r => bind (f x) (fun y => bind (mapM f r) (fun ys => Ok (y :: ys)))
  end.

(** A cell of a table: a missing number, a number, a text, a point in time
    (nanoseconds since the epoch) or a missing point in time. *)
Inductive value : Type :=
| NaN
| Num (q : Q)
| Str (s : string)
| Timestamp (t : Z)
| NaT.

(** [pd.isna]. *)
Definition isna (v : value) : bool :=
  match v with
  | NaN | NaT => true
  | _ => false
  end.

Definition notna (v : value) : bool := negb (isna v).

Definition is_num (v : value) : bool :=
  match v with
  | Num _ => true
  | _ => false
  end.

Definition is_time (v : value) : bool :=
  match v with
  | Timestamp _ | NaT => true
  | _ => false
  end.

(** Equality of two values as group keys; a missing value equals nothing. *)
Definition value_eqb (a b : value) : bool :=
  match a, b with
  | Num p, Num q => Qeq_bool p q
  | Str s, Str t => String.eqb s t
  | Timestamp s, Timestamp t => Z.eqb s t
  | _, _ => false
  end.

(** [str.isspace] on one code point below 256. *)
Definition isspace (c : ascii) : bool :=
  let n := nat_of_ascii c in
  (((9 <=? n) && (n <=? 13)) || ((28 <=? n) && (n <=? 32))
   || (n =? 133) || (n =? 160))%nat.

(** [str.lower] on one code point below 256: A-Z, and the accented capitals
    192-222 apart from the multiplication sign 215. *)
Definition lower_char (c : ascii) : ascii :=
  let n := nat_of_ascii c in
  if (((65 <=? n) && (n <=? 90))
      || ((192 <=? n) && (n <=? 222) && negb (n =? 215)))%nat
  then ascii_of_nat (n + 32)
  else c.

Fixpoint lower (s : string) : string :=
  match s with
  | EmptyString => EmptyString
  | String c r => String (lower_char c) (lower r)
  end.

Fixpoint lstrip (s : string) : string :=
  match s with
  | EmptyString => EmptyString
  | String c r => if isspace c then lstrip r else s
  end.

Fixpoint rstrip (s : string) : string :=
  match s with
  | EmptyString => EmptyString
  | String c r =>
      match rstrip r with
      | EmptyString => if isspace c then EmptyString else String c EmptyString
      | r' => String c r'
      end
  end.

(** [str.strip()]. *)
Definition strip (s : string) : string := rstrip (lstrip s).

(** [str.replace(old, new)] for a pattern [old] of one character. *)
Fixpoint replace (old : ascii) (new : string) (s : string) : string :=
  match s with
  | EmptyString => EmptyString
  | String c r =>
      if Ascii.eqb c old then new ++ replace old new r
      else String c (replace old new r)
  end.

(** [str(n)] of a Python int. *)
Definition str_of_int (z : Z) : string := NilZero.string_of_int (Z.to_int z).

(** Truncation toward zero, [int(x)] of a finite float. *)
Definition trunc (q : Q) : Z := Z.quot (Qnum q) (Zpos (Qden q)).

(** Python's [+] on two cells. *)
Definition add (a b : value) : result value :=
  match a, b with
  | Num p, Num q => Ok (Num (p + q)%Q)
  | Num _, NaN | NaN, Num _ | NaN, NaN => Ok NaN
  | Str s, Str t => Ok (Str (s ++ t))
  | _, _ => Raise TypeError
  end.

(** [v > 0]. *)
Definition gt_zero (v : value) : result bool :=
  match v with
  | Num q => Ok (negb (Qle_bool q 0%Q))
  | NaN => Ok false
  | _ => Raise TypeError
  end.

(** [a / b * 100] on two cells. *)
Definition percent_of (a b : value) : result value :=
  match a, b with
  | Num p, Num q => Ok (Num (p / q * 100)%Q)
  | Num _, NaN | NaN, Num _ | NaN, NaN => Ok NaN
  | _, _ => Raise TypeError
  end.

End Py.

Export Py.

Declare Scope result_scope.
Delimit Scope result_scope with result.
Notation "x <- m ;; k" := (bind m (fun x => k))
  (at level 61, m at next level, right associativity) : result_scope.
Local Open Scope result_scope.

(** ** The pandas operations the program calls *)

Module Pandas.

Record DataFrame : Type := {
  columns : list string;
  rows : list (list value)
}.

(** [label in df.columns]. *)
Definition contains (label : string) (cols : list string) : bool :=
  existsb (String.eqb label) cols.

Definition occurrences (label : string) (cols : list string) : nat :=
  List.length (filter (String.eqb label) cols).

(** The cell of a row under the first column called [label]. *)
Fixpoint row_lookup (label : string) (cols : list string) (row : list value)
  : value :=
  match cols, row with
  | c :: cs, v :: vs => if String.eqb c label then v else row_lookup label cs vs
  | _, _ => NaN
  end.

(** [row[label]] for a row taken out of a frame with the labels [cols].
    A missing label is a [KeyError].  With a repeated label pandas returns a
    selection of one more dimension, which none of the scalar uses in this
    program accepts; the embedding stops at the selection with [ValueError]. *)
Definition row_getitem (cols : list string) (row : list value) (label : string)
  : result value :=
  match occurrences label cols with
  | O => Raise KeyError
  | S O => Ok (row_lookup label cols row)
  | _ => Raise ValueError
  end.

(** [df[label]], under the same reading of repeated labels. *)
Definition getitem (df : DataFrame) (label : string) : result (list value) :=
  match occurrences label (columns df) with
  | O => Raise KeyError
  | S O => Ok (map (row_lookup label (columns df)) (rows df))
  | _ => Raise ValueError
  end.

(** [df.iloc[i]]. *)
Definition iloc (df : DataFrame) (i : nat) : result (list value) :=
  match nth_error (rows df) i with
  | Some r => Ok r
  | None => Raise IndexError
  end.

(** Apply [f] to the cells of every column called [label]. *)
Fixpoint map_cells (f : value -> value) (label : string)
  (cols : list string) (row : list value) : list value :=
  match cols, row with
  | c :: cs, v :: vs =>
      (if String.eqb c label then f v else v) :: map_cells f label cs vs
  | _, _ => row
  end.

Definition map_column (f : value -> value) (label : string) (df : DataFrame)
  : DataFrame :=
  {| columns := columns df;
     rows := map (map_cells f label (columns df)) (rows df) |}.

(** [fillna(0)] on one cell. *)
Definition fillna0 (v : value) : value := if isna v then Num 0 else v.

(** [a1 + a2 + ... + an], from the left. *)
Fixpoint add_all (acc : value) (vs : list value) : result value :=
  match vs with
  | [] => Ok acc
  | x :: r => a <- add acc x ;; add_all a r
  end.

Definition reduce_add (vs : list value) : result value :=
  match vs with
  | [] => Ok (Num 0)
  | v :: r => add_all v r
  end.

(** [Series.sum()]: missing cells count as 0; the sum of no cell is 0. *)
Definition Series_sum (vs : list value) : result value :=
  reduce_add (map fillna0 vs).

(** The sum of one group in [GroupBy.sum()]: missing cells are skipped. *)
Definition group_sum (vs : list value) : result value :=
  reduce_add (filter notna vs).

(** [Series.mean()]: over the cells that are present. *)
Definition Series_mean (vs : list value) : result value :=
  match filter notna vs with
  | [] => Ok NaN
  | xs =>
      s <- reduce_add xs ;;
      match s with
      | Num q => Ok (Num (q / inject_Z (Z.of_nat (List.length xs))))
      | _ => Raise TypeError
      end
  end.

(** One pass of [idxmax] / [idxmin]: the first position whose number beats
    every number before it; missing cells are skipped. *)
Fixpoint arg_scan (better : Q -> Q -> bool) (vs : list value) (i : nat)
  (best : option (nat * Q)) : result (option (nat * Q)) :=
  match vs with
  | [] => Ok best
  | Num q :: r =>
      arg_scan better r (S i)
        (match best with
         | None => Some (i, q)
         | Some (_, p) => if better q p then Some (i, q) else best
         end)
  | NaN :: r | NaT :: r => arg_scan better r (S i) best
  | _ :: _ => Raise TypeError
  end.

Definition arg_best (better : Q -> Q -> bool) (vs : list value) : result nat :=
  b <- arg_scan better vs 0 None ;;
  match b with
  | Some (i, _) => Ok i
  | None => Raise ValueError
  end.

(** [Series.idxmax()] and [Series.idxmin()] on a frame with a range index. *)
Definition idxmax : list value -> result nat :=
  arg_best (fun q p => negb (Qle_bool q p)).

Definition idxmin : list value -> result nat :=
  arg_best (fun q p => negb (Qle_bool p q)).

(** A stable insertion sort: [before x y] says that [x] may stand in front of
    a later [y]. *)
Section Sort.
Context {A : Type} (before : A -> A -> bool).

Fixpoint insert (x : A) (l : list A) : list A :=
  match l with
  | [] => [x]
  | y :: r => if before x y then x :: l else y :: insert x r
  end.

Fixpoint sort (l : list A) : list A :=
  match l with
  | [] => []
  | x :: r => insert x (sort r)
  end.
End Sort.

(** The order of group keys: numbers, then points in time, then texts. *)
Definition rank (v : value) : nat :=
  match v with
  | Num _ => 0
  | Timestamp _ => 1
  | Str _ => 2
  | NaN | NaT => 3
  end.

Definition value_leb (a b : value) : bool :=
  match a, b with
  | Num p, Num q => Qle_bool p q
  | Timestamp s, Timestamp t => Z.leb s t
  | Str s, Str t => String.leb s t
  | _, _ => Nat.leb (rank a) (rank b)
  end.

(** Descending order with the missing values last. *)
Definition desc_before (a b : value) : bool :=
  if isna b then true
  else if isna a then false
  else value_leb b a.

(** Values that [<] can compare with each other: all of one kind. *)
Definition same_kind (vs : list value) : bool :=
  match vs with
  | [] => true
  | v :: r => forallb (fun x => Nat.eqb (rank x) (rank v)) r
  end.

(** [Series.sort_values(ascending=False)] on a series given as
    (index, value) pairs. *)
Definition sort_values_desc (s : list (value * value))
  : result (list (value * value)) :=
  if same_kind (filter notna (map snd s))
  then Ok (sort (fun x y => desc_before (snd x) (snd y)) s)
  else Raise TypeError.

(** Grouping cells by key, in the order the keys are first seen; a missing
    key belongs to no group. *)
Fixpoint group_insert (k v : value) (acc : list (value * list value))
  : list (value * list value) :=
  match acc with
  | [] => [(k, [v])]
  | (k', vs) :: r =>
      if value_eqb k' k then (k', vs ++ [v]) :: r
      else (k', vs) :: group_insert k v r
  end.

Definition group_step (acc : list (value * list value)) (kv : value * value)
  : list (value * list value) :=
  if isna (fst kv) then acc else group_insert (fst kv) (snd kv) acc.

Definition group_keys (keys vals : list value) : list (value * list value) :=
  fold_left group_step (combine keys vals) [].

(** The number of cells under each key. *)
Definition count_keys (s : list value) : list (value * nat) :=
  map (fun g => (fst g, List.length (snd g))) (group_keys s s).

(** [Series.value_counts()]: missing cells are dropped, the most frequent
    key comes first. *)
Definition value_counts (s : list value) : list (value * nat) :=
  sort (fun x y => Nat.leb (snd y) (snd x)) (count_keys s).

(** [df.groupby(key)[val].sum()]: rows with a missing key are dropped, the
    groups come in ascending order of the key. *)
Definition groupby_sum (keys vals : list value) : result (list (value * value)) :=
  mapM (fun g => s <- group_sum (snd g) ;; Ok (fst g, s))
       (sort (fun x y => value_leb (fst x) (fst y)) (group_keys keys vals)).

(** [reset_index()] of a series with the index called [k] and the values
    called [v]. *)
Definition reset_index (k v : string) (s : list (value * value)) : DataFrame :=
  {| columns := [k; v]; rows := map (fun p => [fst p; snd p]) s |}.

(** [head(n)]. *)
Definition head {A : Type} (n : nat) (l : list A) : list A := firstn n l.

End Pandas.

Export Pandas.

(** ** Library functions taken as parameters

    The date parser behind [pd.to_datetime] and the formatting built-ins of
    Python are not part of the program.  The embedding is parametric in
    them; [BuiltinsSpec] says what the proofs use of them. *)

Class Builtins : Type := {
  (** what [pd.to_datetime] reads in one cell, when it can read it *)
  parse_datetime : value -> option Z;
  (** [format(v, '')], which is [str(v)] *)
  py_str : value -> string;
  (** [format(v, '.1f')] *)
  format_1f : value -> result string;
  (** [format(v, ',.0f')] *)
  format_comma_0f : value -> result string;
  (** [int(v)] *)
  py_int : value -> result Z;
  (** [v.strftime('%Y-%m-%d')] *)
  strftime_ymd : value -> result string
}.

Class BuiltinsSpec (B : Builtins) : Prop := {
  py_str_text : forall s, py_str (Str s) = s;
  format_1f_num : forall q, exists s, format_1f (Num q) = Ok s;
  format_comma_0f_num : forall q, exists s, format_comma_0f (Num q) = Ok s;
  py_int_num : forall q, py_int (Num q) = Ok (trunc q);
  strftime_ymd_time : forall t, exists s, strftime_ymd (Timestamp t) = Ok s
}.

(** An f-string, as the list of its pieces. *)
Definition fstr (parts : list string) : string := String.concat "" parts.

(** One cell under [pd.to_datetime(..., errors='coerce')]. *)
Definition to_datetime_coerce {B : Builtins} (v : value) : value :=
  match parse_datetime v with
  | Some t => Timestamp t
  | None => NaT
  end.

(** ** streamlit_app.py *)

Module StreamlitApp.

(** What the script shows on the page, in order. *)
Inductive figure : Type :=
| px_pie (data : DataFrame) (names values title : string)
| px_line (data : DataFrame) (x y title : string)
| px_bar (data : DataFrame) (x y title : string).

Inductive event : Type :=
| st_sidebar_success (body : string)
| st_error (body : string)
| st_info (body : string)
| st_header (body : string)
| st_subheader (body : string)
| st_markdown (body : string)
| st_plotly_chart (fig : figure).

(** How a run of the script ends: at its last line, at [st.stop()], or with
    an exception nobody catches. *)
Inductive outcome (A : Type) : Type :=
| Done (a : A)
| Stop
| Fail (e : exn).

Arguments Done {A} a.
Arguments Stop {A}.
Arguments Fail {A} e.

Definition script (A : Type) : Type := (list event * outcome A)%type.

Definition ret {A : Type} (a : A) : script A := ([], Done a).

Definition seq {A C : Type} (m : script A) (k : A -> script C) : script C :=
  match m with
  | (ev, Done a) => let (ev', o) := k a in (ev ++ ev', o)
  | (ev, Stop) => (ev, Stop)
  | (ev, Fail e) => (ev, Fail e)
  end.

Definition emit (e : event) : script unit := ([e], Done tt).

Definition st_stop {A : Type} : script A := ([], Stop).

Definition lift {A : Type} (r : result A) : script A :=
  match r with
  | Ok a => ([], Done a)
  | Raise e => ([], Fail e)
  end.

Fixpoint for_each {A : Type} (f : A -> script unit) (l : list A) : script unit :=
  match l with
  | [] => ret tt
  | x :: r => seq (f x) (fun _ => for_each f r)
  end.

Declare Scope script_scope.
Delimit Scope script_scope with script.
Notation "x <~ m ;; k" := (seq m (fun x => k))
  (at level 61, m at next level, right associativity) : script_scope.
Notation "m ;;; k" := (seq m (fun _ => k))
  (at level 61, right associativity) : script_scope.

Definition required : list string :=
  ["date"; "platform"; "sentiment"; "location"; "engagements"; "media_type"].

Definition chart_kinds : list string :=
  ["pie_sentiment"; "line_engagement"; "bar_platform"; "pie_media_type";
   "bar_location"].

Definition expected_format : string :=
  "
        **Expected CSV Format:**
        Your CSV file should have the following columns:
        - `Date` (e.g., 'YYYY-MM-DD')
        - `Platform` (e.g., 'Facebook', 'Twitter', 'Instagram')
        - `Sentiment` (e.g., 'Positive', 'Negative', 'Neutral')
        - `Location` (e.g., 'New York', 'London')
        - `Engagements` (numeric)
        - `Media Type` (e.g., 'Image', 'Video', 'Text')
    ".

(** The cells of the column [label] all satisfy [p]. *)
Definition column_ok (p : value -> bool) (label : string) (df : DataFrame)
  : bool :=
  forallb (fun row => p (row_lookup label (columns df) row)) (rows df).

(** A Dataset: each required column is there once, the dates are points in
    time or missing, the engagements are numbers. *)
Definition is_dataset (df : DataFrame) : bool :=
  forallb (fun col => Nat.eqb (occurrences col (columns df)) 1) required
  && column_ok is_time "date" df
  && column_ok is_num "engagements" df.

Definition schema_message : string :=
  "Error: The uploaded CSV must contain the columns: 'Date', 'Platform', 'Sentiment', 'Location', 'Engagements', 'Media Type'. Please check your file.".

Section Program.
Context {B : Builtins}.

(** [.str.strip().str.lower().str.replace(' ', '_').str.replace('.', '')]
    on one column label.  A pattern of one character is taken literally by
    [str.replace], so the last call removes the periods. *)
Definition normalize_label (s : string) : string :=
  replace "."%char "" (replace " "%char "_" (lower (strip s))).

(** [clean_data(df)].  With two columns called [date], [df['date']] is a
    frame and [pd.to_datetime] refuses to assemble dates from it. *)
Definition clean_data (df : DataFrame) : result DataFrame :=
  let df := {| columns := map normalize_label (columns df);
               rows := rows df |} in
  df <- (if contains "date" (columns df)
         then match occurrences "date" (columns df) with
              | 1%nat => Ok (map_column to_datetime_coerce "date" df)
              | _ => Raise ValueError
              end
         else Ok df) ;;
  let df := if contains "engagements" (columns df)
            then map_column fillna0 "engagements" df
            else df in
  Ok df.

(** [data[data[label] == v]]. *)
Definition select_eq (data : DataFrame) (label : string) (v : value)
  : result DataFrame :=
  _ <- getitem data label ;;
  Ok {| columns := columns data;
        rows := filter (fun r => value_eqb (row_lookup label (columns data) r) v)
                       (rows data) |}.

(** [(data[data['sentiment'] == name]['count'].sum() / total * 100)
     if total > 0 else 0]. *)
Definition sentiment_percent (data : DataFrame) (total : value) (name : string)
  : result value :=
  positive <- gt_zero total ;;
  if (positive : bool) then
    selected <- select_eq data "sentiment" (Str name) ;;
    count <- getitem selected "count" ;;
    s <- Series_sum count ;;
    percent_of s total
  else Ok (Num 0).

(** [data.loc[i]] on a frame with a range index. *)
Definition loc (data : DataFrame) (i : nat) : result (list value) :=
  match nth_error (rows data) i with
  | Some r => Ok r
  | None => Raise KeyError
  end.

Definition insights_pie_sentiment (data : DataFrame) : result (list string) :=
  count <- getitem data "count" ;;
  total_sentiment <- Series_sum count ;;
  positive_percent <- sentiment_percent data total_sentiment "Positive" ;;
  negative_percent <- sentiment_percent data total_sentiment "Negative" ;;
  neutral_percent <- sentiment_percent data total_sentiment "Neutral" ;;
  top <- iloc data 0 ;;
  top_sentiment <- row_getitem (columns data) top "sentiment" ;;
  top' <- iloc data 0 ;;
  top_percentage <- row_getitem (columns data) top' "percentage" ;;
  p1 <- format_1f top_percentage ;;
  let i1 := fstr ["1. A majority of the sentiment is **";
                  py_str top_sentiment; "** ("; p1; "%)."] in
  p2 <- format_1f positive_percent ;;
  let i2 := fstr ["2. Approximately **"; p2;
                  "%** of the mentions are positive, indicating a generally favorable perception."] in
  p3 <- format_1f negative_percent ;;
  let i3 := fstr ["3. Negative sentiment accounts for **"; p3;
                  "%**, which might indicate areas for improvement or concerns."] in
  Ok [i1; i2; i3].

Definition insights_line_engagement (data : DataFrame) : result (list string) :=
  engagements <- getitem data "engagements" ;;
  imax <- idxmax engagements ;;
  peak_date <- loc data imax ;;
  engagements <- getitem data "engagements" ;;
  imin <- idxmin engagements ;;
  min_date <- loc data imin ;;
  engagements <- getitem data "engagements" ;;
  total_engagements <- Series_sum engagements ;;
  engagements <- getitem data "engagements" ;;
  avg_engagements <- Series_mean engagements ;;
  d1 <- row_getitem (columns data) peak_date "date" ;;
  s1 <- strftime_ymd d1 ;;
  e1 <- row_getitem (columns data) peak_date "engagements" ;;
  n1 <- py_int e1 ;;
  let i1 := fstr ["1. Peak engagement occurred on **"; s1; "** with **";
                  str_of_int n1; "** engagements."] in
  d2 <- row_getitem (columns data) min_date "date" ;;
  s2 <- strftime_ymd d2 ;;
  e2 <- row_getitem (columns data) min_date "engagements" ;;
  n2 <- py_int e2 ;;
  let i2 := fstr ["2. The lowest engagement was observed on **"; s2;
                  "** with **"; str_of_int n2; "** engagements."] in
  a <- format_comma_0f avg_engagements ;;
  let i3 := fstr ["3. The average daily engagement over the period is approximately **";
                  a; "**."] in
  Ok [i1; i2; i3].

Definition insights_bar_platform (data : DataFrame) : result (list string) :=
  top_platform <- iloc data 0 ;;
  p1 <- row_getitem (columns data) top_platform "platform" ;;
  e1 <- row_getitem (columns data) top_platform "engagements" ;;
  n1 <- py_int e1 ;;
  let i1 := fstr ["1. **"; py_str p1;
                  "** is the dominant platform, contributing **";
                  str_of_int n1; "** engagements."] in
  second <-
    (if (1 <? List.length (rows data))%nat then
       second_platform <- iloc data 1 ;;
       p2 <- row_getitem (columns data) second_platform "platform" ;;
       e2 <- row_getitem (columns data) second_platform "engagements" ;;
       n2 <- py_int e2 ;;
       Ok [fstr ["2. **"; py_str p2;
                 "** is the second most engaging platform with **";
                 str_of_int n2;
                 "** engagements, significantly less than the top platform."]]
     else Ok []) ;;
  engagements <- getitem data "engagements" ;;
  total_engagements <- Series_sum engagements ;;
  n3 <- py_int total_engagements ;;
  let i3 := fstr ["3. These platforms collectively generated **";
                  str_of_int n3;
                  "** engagements, highlighting their importance in the campaign's reach."] in
  Ok ([i1] ++ second ++ [i3]).

Definition insights_pie_media_type (data : DataFrame) : result (list string) :=
  top_media_type <- iloc data 0 ;;
  m1 <- row_getitem (columns data) top_media_type "media_type" ;;
  c1 <- row_getitem (columns data) top_media_type "percentage" ;;
  p1 <- format_1f c1 ;;
  let i1 := fstr ["1. **"; py_str m1;
                  "** is the most prevalent media type, accounting for **";
                  p1; "%** of the content."] in
  second <-
    (if (1 <? List.length (rows data))%nat then
       second_media_type <- iloc data 1 ;;
       m2 <- row_getitem (columns data) second_media_type "media_type" ;;
       c2 <- row_getitem (columns data) second_media_type "percentage" ;;
       p2 <- format_1f c2 ;;
       Ok [fstr ["2. **"; py_str m2;
                 "** is the second most used media type, making up **";
                 p2; "%** of the content."]]
     else Ok []) ;;
  m3 <- row_getitem (columns data) top_media_type "media_type" ;;
  let i3 := fstr ["3. The mix of media types indicates a diverse content strategy, with a strong reliance on **";
                  py_str m3; "**."] in
  Ok ([i1] ++ second ++ [i3]).

Definition insights_bar_location (data : DataFrame) : result (list string) :=
  top_location <- iloc data 0 ;;
  l1 <- row_getitem (columns data) top_location "location" ;;
  e1 <- row_getitem (columns data) top_location "engagements" ;;
  n1 <- py_int e1 ;;
  let i1 := fstr ["1. **"; py_str l1;
                  "** is the top location for engagements, with **";
                  str_of_int n1; "** engagements."] in
  second <-
    (if (1 <? List.length (rows data))%nat then
       second_location <- iloc data 1 ;;
       l2 <- row_getitem (columns data) second_location "location" ;;
       e2 <- row_getitem (columns data) second_location "engagements" ;;
       n2 <- py_int e2 ;;
       Ok [fstr ["2. **"; py_str l2; "** follows with **"; str_of_int n2;
                 "** engagements, suggesting a strong presence in these two regions."]]
     else Ok []) ;;
  let i3 := "3. The top 5 locations collectively represent a significant portion of the total campaign reach and engagement." in
  Ok ([i1] ++ second ++ [i3]).

(** [generate_insights(chart_title, data, chart_type)]. *)
Definition generate_insights (chart_title : string) (data : DataFrame)
  (chart_type : string) : result (list string) :=
  if chart_type =? "pie_sentiment" then insights_pie_sentiment data
  else if chart_type =? "line_engagement" then insights_line_engagement data
  else if chart_type =? "bar_platform" then insights_bar_platform data
  else if chart_type =? "pie_media_type" then insights_pie_media_type data
  else if chart_type =? "bar_location" then insights_bar_location data
  else Ok [].

(** [df[label] = vals] for a new label. *)
Definition assign (df : DataFrame) (label : string) (vals : list value)
  : DataFrame :=
  {| columns := columns df ++ [label];
     rows := map (fun rv => fst rv ++ [snd rv]) (combine (rows df) vals) |}.

(** [df[label].value_counts().reset_index()], its columns renamed to
    [label] and [count], with the [percentage] column added. *)
Definition count_frame (label : string) (df : DataFrame) : result DataFrame :=
  s <- getitem df label ;;
  let counts :=
    reset_index label "count"
      (map (fun p => (fst p, Num (inject_Z (Z.of_nat (snd p)))))
           (value_counts s)) in
  count <- getitem counts "count" ;;
  total <- Series_sum count ;;
  percentage <- mapM (fun c => percent_of c total) count ;;
  Ok (assign counts "percentage" percentage).

Definition sentiment_counts (df : DataFrame) : result DataFrame :=
  count_frame "sentiment" df.

Definition media_type_counts (df : DataFrame) : result DataFrame :=
  count_frame "media_type" df.

Definition df_engagements_daily (df : DataFrame) : result DataFrame :=
  date <- getitem df "date" ;;
  engagements <- getitem df "engagements" ;;
  s <- groupby_sum date engagements ;;
  Ok (reset_index "date" "engagements" s).

Definition platform_engagements (df : DataFrame) : result DataFrame :=
  platform <- getitem df "platform" ;;
  engagements <- getitem df "engagements" ;;
  s <- groupby_sum platform engagements ;;
  s <- sort_values_desc s ;;
  Ok (reset_index "platform" "engagements" s).

Definition location_engagements (df : DataFrame) : result DataFrame :=
  location <- getitem df "location" ;;
  engagements <- getitem df "engagements" ;;
  s <- groupby_sum location engagements ;;
  s <- sort_values_desc s ;;
  Ok (reset_index "location" "engagements" (head 5 s)).

Local Open Scope script_scope.

Definition show_insights (chart_title : string) (data : DataFrame)
  (chart_type : string) : script unit :=
  emit (st_markdown "---") ;;;
  emit (st_subheader "Insights:") ;;;
  insights <~ lift (generate_insights chart_title data chart_type) ;;
  for_each (fun insight => emit (st_markdown (fstr ["- "; insight]))) insights ;;;
  emit (st_markdown "---").

(** The column check of the script: every required label is among the
    columns. *)
Definition has_required (df : DataFrame) : bool :=
  forallb (fun col => contains col (columns df)) required.

(** The script from the upload on; [uploaded_file] is the frame that
    [pd.read_csv] made of the upload, if there is an upload. *)
Definition main (uploaded_file : option DataFrame) : script unit :=
  match uploaded_file with
  | Some df =>
      emit (st_sidebar_success "File uploaded successfully!") ;;;
      df <~ lift (clean_data df) ;;
      (if negb (has_required df)
       then emit (st_error schema_message) ;;; st_stop
       else ret tt) ;;;
      emit (st_header "1. Sentiment Breakdown") ;;;
      sentiment_counts <~ lift (sentiment_counts df) ;;
      emit (st_plotly_chart
              (px_pie sentiment_counts "sentiment" "count" "Sentiment Breakdown")) ;;;
      show_insights "Sentiment Breakdown" sentiment_counts "pie_sentiment" ;;;
      emit (st_header "2. Engagement Trend Over Time") ;;;
      df_engagements_daily <~ lift (df_engagements_daily df) ;;
      emit (st_plotly_chart
              (px_line df_engagements_daily "date" "engagements"
                       "Daily Engagement Trend")) ;;;
      show_insights "Engagement Trend Over Time" df_engagements_daily
                    "line_engagement" ;;;
      emit (st_header "3. Engagements by Platform") ;;;
      platform_engagements <~ lift (platform_engagements df) ;;
      emit (st_plotly_chart
              (px_bar platform_engagements "platform" "engagements"
                      "Total Engagements by Platform")) ;;;
      show_insights "Engagements by Platform" platform_engagements
                    "bar_platform" ;;;
      emit (st_header "4. Media Type Mix") ;;;
      media_type_counts <~ lift (media_type_counts df) ;;
      emit (st_plotly_chart
              (px_pie media_type_counts "media_type" "count" "Media Type Mix")) ;;;
      show_insights "Media Type Mix" media_type_counts "pie_media_type" ;;;
      emit (st_header "5. Top 5 Locations by Engagements") ;;;
      location_engagements <~ lift (location_engagements df) ;;
      emit (st_plotly_chart
              (px_bar location_engagements "location" "engagements"
                      "Top 5 Locations by Engagements")) ;;;
      show_insights "Top 5 Locations by Engagements" location_engagements
                    "bar_location"
  | None =>
      emit (st_info "Please upload a CSV file to get started.") ;;;
      emit (st_markdown expected_format)
  end.

End Program.

End StreamlitApp.

(** ** app.py: the cleaning lines and the top-locations table *)

Module App.

Section Program.
Context {B : Builtins}.

(** [.str.strip().str.lower().str.replace(' ', '_')] on one label. *)
Definition normalize_label (s : string) : string :=
  replace " "%char "_" (lower (strip s)).

(** Lines 25 to 27: the labels are renamed, [date] is parsed and the
    missing [engagements] are filled, without a test that the columns
    exist. *)
Definition data_cleaning (df : DataFrame) : result DataFrame :=
  let df := {| columns := map normalize_label (columns df);
               rows := rows df |} in
  _ <- getitem df "date" ;;
  let df := map_column to_datetime_coerce "date" df in
  _ <- getitem df "engagements" ;;
  Ok (map_column fillna0 "engagements" df).

(** [filtered_df['location'].value_counts().head(5).reset_index()], its
    columns renamed to [location] and [count]. *)
Definition top_locations (filtered_df : DataFrame) : result DataFrame :=
  location <- getitem filtered_df "location" ;;
  Ok (reset_index "location" "count"
        (map (fun p => (fst p, Num (inject_Z (Z.of_nat (snd p)))))
             (head 5 (value_counts location)))).

(** Equality of two cells inside [isin]: two missing values match. *)
Definition same (a b : value) : bool :=
  value_eqb a b || (isna a && isna b).

(** [cell in values], one element of [Series.isin(values)]. *)
Definition isin (values : list value) (v : value) : bool :=
  existsb (same v) values.

(** [df[df[label].isin(values)]]. *)
Definition select_isin (df : DataFrame) (label : string) (values : list value)
  : result DataFrame :=
  _ <- getitem df label ;;
  Ok {| columns := columns df;
        rows := filter (fun r => isin values (row_lookup label (columns df) r))
                       (rows df) |}.

(** [seq[i]] on a Python sequence. *)
Definition index {A : Type} (l : list A) (i : nat) : result A :=
  match nth_error l i with
  | Some x => Ok x
  | None => Raise IndexError
  end.

(** [cell >= bound] and [cell <= bound] on one cell of a datetime column;
    a comparison with NaT is false. *)
Definition date_ge (bound : Z) (v : value) : result bool :=
  match v with
  | Timestamp t => Ok (bound <=? t)%Z
  | NaT => Ok false
  | _ => Raise TypeError
  end.

Definition date_le (bound : Z) (v : value) : result bool :=
  match v with
  | Timestamp t => Ok (t <=? bound)%Z
  | NaT => Ok false
  | _ => Raise TypeError
  end.

(** [a & b] on two boolean series. *)
Fixpoint mask_and (a b : list bool) : list bool :=
  match a, b with
  | x :: a', y :: b' => (x && y) :: mask_and a' b'
  | _, _ => []
  end.

(** [df[mask]] for a boolean series [mask]. *)
Definition select_mask (df : DataFrame) (mask : list bool) : DataFrame :=
  {| columns := columns df;
     rows := map fst (filter snd (combine (rows df) mask)) |}.

(** The truth value of a Python list. *)
Definition truthy {A : Type} (l : list A) : bool :=
  match l with
  | [] => false
  | _ :: _ => true
  end.

(** Lines 36 to 45: the four selections and the date range are applied in
    turn.  The selections are what the user picked in the multiselect
    widgets; [date_range] holds the dates picked in the date input, as the
    timestamps [pd.to_datetime] makes of them. *)
Definition filtered_df (df : DataFrame)
  (platform_filter sentiment_filter media_filter location_filter : list value)
  (date_range : list Z) : result DataFrame :=
  let filtered_df := df in
  filtered_df <- (if truthy platform_filter
                  then select_isin filtered_df "platform" platform_filter
                  else Ok filtered_df) ;;
  filtered_df <- (if truthy sentiment_filter
                  then select_isin filtered_df "sentiment" sentiment_filter
                  else Ok filtered_df) ;;
  filtered_df <- (if truthy media_filter
                  then select_isin filtered_df "media_type" media_filter
                  else Ok filtered_df) ;;
  filtered_df <- (if truthy location_filter
                  then select_isin filtered_df "location" location_filter
                  else Ok filtered_df) ;;
  date <- getitem filtered_df "date" ;;
  first <- index date_range 0 ;;
  after <- mapM (date_ge first) date ;;
  date <- getitem filtered_df "date" ;;
  last <- index date_range 1 ;;
  before <- mapM (date_le last) date ;;
  Ok (select_mask filtered_df (mask_and after before)).

(** Line 57, the table under the platform chart:
    [filtered_df.groupby('platform')['engagements'].sum().reset_index()]. *)
Definition fig3_data (filtered_df : DataFrame) : result DataFrame :=
  platform <- getitem filtered_df "platform" ;;
  engagements <- getitem filtered_df "engagements" ;;
  s <- groupby_sum platform engagements ;;
  Ok (reset_index "platform" "engagements" s).

End Program.

End App.

(** ** One instance of the library functions, to run the program

    Dates are read in the form YYYY-MM-DD; numbers are formatted from their
    exact value, ties to even. *)

Module Idealised.

Local Open Scope Z_scope.

Definition digit (c : ascii) : option Z :=
  let n := Z.of_nat (nat_of_ascii c) in
  if (48 <=? n) && (n <=? 57) then Some (n - 48) else None.

Fixpoint digits (s : string) (acc : Z) : option Z :=
  match s with
  | EmptyString => Some acc
  | String c r =>
      match digit c with
      | Some d => digits r (10 * acc + d)
      | None => None
      end
  end.

Definition number (s : string) : option Z :=
  match s with
  | EmptyString => None
  | _ => digits s 0
  end.

(** Days since 1970-01-01 of a date of the proleptic Gregorian calendar. *)
Definition days_from_civil (y m d : Z) : Z :=
  let y := if m <=? 2 then y - 1 else y in
  let era := y / 400 in
  let yoe := y - era * 400 in
  let doy := (153 * (if 2 <? m then m - 3 else m + 9) + 2) / 5 + d - 1 in
  let doe := yoe * 365 + yoe / 4 - yoe / 100 + doy in
  era * 146097 + doe - 719468.

Definition civil_from_days (z : Z) : Z * Z * Z :=
  let z := z + 719468 in
  let era := z / 146097 in
  let doe := z - era * 146097 in
  let yoe := (doe - doe / 1460 + doe / 36524 - doe / 146096) / 365 in
  let doy := doe - (365 * yoe + yoe / 4 - yoe / 100) in
  let mp := (5 * doy + 2) / 153 in
  let d := doy - (153 * mp + 2) / 5 + 1 in
  let m := if mp <? 10 then mp + 3 else mp - 9 in
  let y := yoe + era * 400 in
  (if m <=? 2 then y + 1 else y, m, d).

Definition ns_per_day : Z := 86400 * 1000000000.

Definition parse_iso (s : string) : option Z :=
  if negb (Nat.eqb (String.length s) 10) then None
  else if negb (String.eqb (substring 4 1 s) "-" && String.eqb (substring 7 1 s) "-")
  then None
  else
    match number (substring 0 4 s), number (substring 5 2 s),
          number (substring 8 2 s) with
    | Some y, Some m, Some d =>
        let days := days_from_civil y m d in
        match civil_from_days days with
        | (y', m', d') =>
            if (y =? y') && (m =? m') && (d =? d')
            then Some (days * ns_per_day) else None
        end
    | _, _, _ => None
    end.

Definition pad (width : nat) (s : string) : string :=
  String.concat "" (repeat "0"%string (width - String.length s)) ++ s.

Definition ymd (t : Z) : string :=
  match civil_from_days (t / ns_per_day) with
  | (y, m, d) =>
      fstr [pad 4 (str_of_int y); "-"; pad 2 (str_of_int m); "-";
            pad 2 (str_of_int d)]
  end.

(** The nearest integer, ties to even. *)
Definition round_half_even (q : Q) : Z :=
  let n := Qnum q in
  let d := Zpos (Qden q) in
  let fl := n / d in
  match 2 * (n mod d) ?= d with
  | Lt => fl
  | Gt => fl + 1
  | Eq => if Z.even fl then fl else fl + 1
  end.

Definition sign (q : Q) : string :=
  if Qle_bool 0 q then "" else "-".

Definition fixed_1 (q : Q) : string :=
  let a := Z.abs (round_half_even (q * 10)%Q) in
  fstr [sign q; str_of_int (a / 10); "."; str_of_int (a mod 10)].

Fixpoint grouped (fuel : nat) (a : Z) : string :=
  match fuel with
  | O => str_of_int a
  | S f =>
      if a <? 1000 then str_of_int a
      else fstr [grouped f (a / 1000); ","; pad 3 (str_of_int (a mod 1000))]
  end.

Definition comma_0 (q : Q) : string :=
  let a := Z.abs (round_half_even q) in
  fstr [sign q; grouped (Z.to_nat (Z.log2 (a + 1))) a].

#[export] Instance builtins : Builtins := {|
  parse_datetime v :=
    match v with
    | Str s => parse_iso s
    | Timestamp t => Some t
    | Num q => Some (trunc q)
    | _ => None
    end;
  py_str v :=
    match v with
    | Str s => s
    | Num q => if (Zpos (Qden (Qred q)) =? 1) then str_of_int (Qnum (Qred q))
               else fixed_1 q
    | Timestamp t => ymd t
    | NaN => "nan"
    | NaT => "NaT"
    end;
  format_1f v :=
    match v with
    | Num q => Ok (fixed_1 q)
    | NaN => Ok "nan"%string
    | Str _ => Raise ValueError
    | _ => Raise TypeError
    end;
  format_comma_0f v :=
    match v with
    | Num q => Ok (comma_0 q)
    | NaN => Ok "nan"%string
    | Str _ => Raise ValueError
    | _ => Raise TypeError
    end;
  py_int v :=
    match v with
    | Num q => Ok (trunc q)
    | Str s => match number s with
               | Some z => Ok z
               | None => Raise ValueError
               end
    | NaN => Raise ValueError
    | _ => Raise TypeError
    end;
  strftime_ymd v :=
    match v with
    | Timestamp t => Ok (ymd t)
    | NaT => Raise ValueError
    | _ => Raise AttributeError
    end
|}.

End Idealised.

(** ** The scenario of the specification *)

Module Scenario.

Import Idealised.

Definition raw : DataFrame := {|
  columns := ["Date"; "Platform"; "Sentiment"; "Location"; "Media Type";
              "Engagements"];
  rows :=
    [ [Str "2024-03-01"; Str "FB"; Str "Positive"; Str "Cairo"; Str "Image"; Num 10];
      [Str "2024-03-01"; Str "IG"; Str "Negative"; Str "Cairo"; Str "Video"; Num 5];
      [Str "2024-03-02"; Str "FB"; Str "Positive"; Str "Giza"; Str "Image"; Num 20] ]
|}.

(** The Dataset the Normalizer makes of it. *)
Definition cleaned : DataFrame := {|
  columns := ["date"; "platform"; "sentiment"; "location"; "media_type";
              "engagements"];
  rows :=
    [ [Timestamp 1709251200000000000; Str "FB"; Str "Positive"; Str "Cairo";
       Str "Image"; Num 10];
      [Timestamp 1709251200000000000; Str "IG"; Str "Negative"; Str "Cairo";
       Str "Video"; Num 5];
      [Timestamp 1709337600000000000; Str "FB"; Str "Positive"; Str "Giza";
       Str "Image"; Num 20] ]
|}.

(** The same Dataset after a filter that keeps no row. *)
Definition empty : DataFrame := {| columns := columns cleaned; rows := [] |}.

(** The Dataset after a filter that keeps the platform IG only. *)
Definition only_ig : DataFrame := {|
  columns := columns cleaned;
  rows := [ [Timestamp 1709251200000000000; Str "IG"; Str "Negative";
             Str "Cairo"; Str "Video"; Num 5] ]
|}.

(** An upload with a date that is no date, an engagements cell that is
    missing, one that is text, a sentiment that is missing and a column the
    program does not know. *)
Definition dirty : DataFrame := {|
  columns := [" DATE"; "Platform "; "sentiment"; "Location"; "Media Type";
              "Engagements"; "Author.Name"];
  rows :=
    [ [Str "not-a-date"; Str "FB"; Str "Positive"; Str "Cairo"; Str "Image";
       Str "10"; Str "Amal"];
      [Str "2024-03-01"; Str "IG"; NaN; Str "Cairo"; Str "Video"; NaN;
       Str "Badr"];
      [Str "2024-03-02"; Str "FB"; Str "Positive"; Str "Giza"; Str "Image";
       Str "abc"; NaN] ]
|}.

(** The Dataset with the sentiment of its second row missing. *)
Definition unlabelled : DataFrame := {|
  columns := columns cleaned;
  rows :=
    [ [Timestamp 1709251200000000000; Str "FB"; Str "Positive"; Str "Cairo";
       Str "Image"; Num 10];
      [Timestamp 1709251200000000000; NaN; NaN; Str "Cairo"; Str "Video";
       Num 5];
      [Timestamp 1709337600000000000; Str "FB"; Str "Positive"; Str "Giza";
       Str "Image"; Num 20] ]
|}.

(** An upload without a location column. *)
Definition no_location : DataFrame := {|
  columns := ["Date"; "Platform"; "Sentiment"; "Media Type"; "Engagements"];
  rows := [ [Str "2024-03-01"; Str "FB"; Str "Positive"; Str "Image"; Num 10] ]
|}.

End Scenario.

(** ** Vocabulary of the properties *)

(** A string of white space only. *)
Fixpoint all_space (s : string) : bool :=
  match s with
  | EmptyString => true
  | String c r => isspace c && all_space r
  end.

(** [s] is the header [h] in some casing, with white space around it. *)
Definition header_variant (h s : string) : Prop :=
  exists l m r : string,
    s = (l ++ m ++ r)%string /\ all_space l = true /\ all_space r = true
    /\ lower m = lower h.

(** The headers the upload is expected to have. *)
Definition headers : list string :=
  ["Date"; "Platform"; "Sentiment"; "Location"; "Engagements"; "Media Type"].

(** The canonical name of a header. *)
Definition canonical (h : string) : string :=
  replace " "%char "_" (lower h).

(** No character [c] is left in a string. *)
Fixpoint free_of (c : ascii) (s : string) : bool :=
  match s with
  | EmptyString => true
  | String d r => negb (Ascii.eqb d c) && free_of c r
  end.

(** The cells, in row order, of the rows whose key equals [k]. *)
Definition cells_where (k : value) (kvs : list (value * value)) : list value :=
  map snd (filter (fun kv => value_eqb (fst kv) k) kvs).

(** The rows whose key is present. *)
Definition keyed (kvs : list (value * value)) : list (value * value) :=
  filter (fun kv => notna (fst kv)) kvs.

(** [acc] is the grouping of the rows [pro]: every group holds the cells of
    its key and is not empty, no two groups have the same key, and every
    key that is present has its group. *)
Record grouped (acc : list (value * list value)) (pro : list (value * value))
  : Prop := {
  grouped_cells :
    forall g, In g acc -> snd g = cells_where (fst g) pro /\ snd g <> [];
  grouped_distinct :
    ForallOrdPairs (fun a b => value_eqb a b = false) (map fst acc);
  grouped_all :
    forall kv, In kv pro -> isna (fst kv) = false ->
    exists key, In key (map fst acc) /\ value_eqb key (fst kv) = true
}.

(** The number in a cell; 0 where there is none. *)
Definition qval (v : value) : Q :=
  match v with
  | Num q => q
  | _ => 0
  end.

(** The sum of the numbers in a list of cells. *)
Definition qsum (vs : list value) : Q :=
  fold_right (fun v a => (qval v + a)%Q) 0%Q vs.

(** The order in which [groupby] returns its groups. *)
Definition key_before (x y : value * list value) : bool :=
  value_leb (fst x) (fst y).

(** A count as a number. *)
Definition cnt (p : value * nat) : Q := inject_Z (Z.of_nat (snd p)).

(** The sum of the counts of a count series. *)
Definition total_count (vc : list (value * nat)) : nat :=
  fold_right (fun p a => snd p + a) 0 vc.

(** The rows of a count table with the total [T]. *)
Definition count_rows (T : Q) (vc : list (value * nat)) : list (list value) :=
  map (fun p => [fst p; Num (cnt p); Num (cnt p / T * 100)]) vc.

(** The percentage column of a count table adds up to 100 when the table
    has rows; without rows the column is empty, its sum is 0, and the
    percentages the insight generator computes from the table are 0. *)
Definition percentages_ok (t : DataFrame) : Prop :=
  (rows t <> [] ->
   exists q,
     (percentage <- getitem t "percentage" ;; Series_sum percentage) = Ok (Num q)
     /\ (q == 100)%Q)
  /\ (rows t = [] ->
      getitem t "percentage" = Ok []
      /\ (percentage <- getitem t "percentage" ;; Series_sum percentage)
         = Ok (Num 0)
      /\ forall name,
           (count <- getitem t "count" ;;
            total <- Series_sum count ;;
            StreamlitApp.sentiment_percent t total name) = Ok (Num 0)).

(** [t] is the count table of the column [label] of [df]: one row for each
    value that is present in the column, no value twice, the most frequent
    value first; a row carries the value, the number of cells that hold it
    and that number as a percentage of the number [T] of cells that are
    present. *)
Definition count_table (label : string) (df t : DataFrame) : Prop :=
  exists s vc T,
    getitem df label = Ok s
    /\ t = {| columns := [label; "count"; "percentage"];
              rows := count_rows T vc |}
    /\ (T == inject_Z (Z.of_nat (List.length (filter notna s))))%Q
    /\ StronglySorted (fun x y => snd y <= snd x) vc
    /\ ForallOrdPairs (fun a b => value_eqb a b = false) (map fst vc)
    /\ (forall k n, In (k, n) vc ->
          isna k = false
          /\ 1 <= n
          /\ n = List.length (filter (fun v => value_eqb v k) s))
    /\ (forall k, In k s -> isna k = false ->
          exists p, In p vc /\ value_eqb (fst p) k = true).

(** The date of a row lies in the range picked: it is a point in time
    between the two bounds. *)
Definition in_range (first last : Z) (v : value) : bool :=
  match v with
  | Timestamp t => (first <=? t)%Z && (t <=? last)%Z
  | _ => false
  end.

(** A row passes a selection when nothing is selected or its cell is among
    the selected values. *)
Definition passes (selection : list value) (v : value) : bool :=
  negb (App.truthy selection) || App.isin selection v.

(** The rows app.py keeps: they pass the four selections and their date lies
    in the range. *)
Definition kept (cols : list string)
  (platform_filter sentiment_filter media_filter location_filter : list value)
  (first last : Z) (row : list value) : bool :=
  passes platform_filter (row_lookup "platform" cols row)
  && passes sentiment_filter (row_lookup "sentiment" cols row)
  && passes media_filter (row_lookup "media_type" cols row)
  && passes location_filter (row_lookup "location" cols row)
  && in_range first last (row_lookup "date" cols row).

(** What is known of the best candidate of [idxmax] or [idxmin] after the
    cells [pre], for the order [le] in which the best is the largest. *)
Definition best_of (le : Q -> Q -> Prop) (pre : list value)
  (best : option (nat * Q)) : Prop :=
  match best with
  | None => pre = []
  | Some (j, q) =>
      nth_error pre j = Some (Num q)
      /\ forall k p, nth_error pre k = Some (Num p) ->
           le p q /\ (k < j -> ~ le q p)
  end.

(** The charts among the events of a run, in the order they are drawn, and
    the error notices among them. *)
Definition charts (ev : list StreamlitApp.event) : list StreamlitApp.figure :=
  flat_map (fun e => match e with
                     | StreamlitApp.st_plotly_chart fig => [fig]
                     | _ => []
                     end) ev.

Definition errors (ev : list StreamlitApp.event) : list string :=
  flat_map (fun e => match e with
                     | StreamlitApp.st_error body => [body]
                     | _ => []
                     end) ev.

(** What [show_insights] writes for the sentences [l]. *)
Definition insight_events (l : list string) : list StreamlitApp.event :=
  StreamlitApp.st_markdown "---" :: StreamlitApp.st_subheader "Insights:"
  :: map (fun insight => StreamlitApp.st_markdown (fstr ["- "; insight])) l
  ++ [StreamlitApp.st_markdown "---"].

(** Some cell of the column [label] is present. *)
Definition present (label : string) (df : DataFrame) : bool :=
  existsb notna (map (row_lookup label (columns df)) (rows df)).

(** The number of cells of a column that equal [v]. *)
Definition occurs (v : value) (s : list value) : nat :=
  List.length (filter (fun c => value_eqb c v) s).

(** An upload with two headers that are renamed to date, and without four of
    the required columns. *)
Definition two_dates : DataFrame := {|
  columns := ["Date"; "DATE"; "Engagements"];
  rows := [ [Str "2024-03-01"; Str "2024-03-02"; Num 10] ]
|}.

(** An upload with the header line of the scenario and no data line. *)
Definition header_only : DataFrame :=
  {| columns := columns Scenario.raw; rows := [] |}.

(** ** The numbers on which the arithmetic of pandas is exact *)

(** A whole number. *)
Definition is_whole (v : value) : bool :=
  match v with
  | Num q => (Z.rem (Qnum q) (Zpos (Qden q)) =? 0)%Z
  | _ => false
  end.

(** The absolute values of the numbers of a column, added up. *)
Definition magnitude_sum (vs : list value) : Q :=
  fold_right (fun v a => (Qabs (qval v) + a)%Q) 0%Q vs.

(** The cells are whole numbers whose absolute values add up to at most
    2^53.  Every sum of some of these cells is then a whole number of
    absolute value at most 2^53, which int64 and float64 both hold exactly:
    on such a column the sums pandas makes neither wrap nor round, in
    whatever order and with whatever compensation the additions are made,
    and [int()] of a sum is the sum. *)
Definition exact_sums (vs : list value) : bool :=
  forallb is_whole vs && Qle_bool (magnitude_sum vs) (inject_Z (2 ^ 53)).

Definition exact_engagements (df : DataFrame) : bool :=
  exact_sums (map (row_lookup "engagements" (columns df)) (rows df)).

(** The absolute values of the engagements add up to at most 2^1000: no sum
    of some of them overflows float64, so that every sum is a finite number
    and [int()] of it is defined. *)
Definition finite_engagements (df : DataFrame) : bool :=
  Qle_bool
    (magnitude_sum (map (row_lookup "engagements" (columns df)) (rows df)))
    (inject_Z (2 ^ 1000)).

(** * Properties *)

(** ** The insight generator on tables without rows and on unknown tags *)

Section InsightsOnEmpty.
Context {B : Builtins}.

Lemma getitem_no_rows (data : DataFrame) (label : string) (vs : list value) :
  rows data = [] -> getitem data label = Ok vs -> vs = [].
Proof.
  intros Hrows. unfold getitem. rewrite Hrows.
  destruct (occurrences label (columns data)) as [|[|n]]; simpl;
    intros H; now inversion H.
Qed.

Lemma iloc_no_rows (data : DataFrame) (i : nat) :
  rows data = [] -> iloc data i = Raise IndexError.
Proof.
  intros Hrows. unfold iloc. rewrite Hrows. now destruct i.
Qed.

Lemma sentiment_percent_zero (data : DataFrame) (name : string) :
  StreamlitApp.sentiment_percent data (Num 0) name = Ok (Num 0).
Proof. reflexivity. Qed.

(** C1, as amended: on a Summary Table without rows, generate_insights with
    any of the five chart-kind tags raises an exception; it returns no
    sentence set. *)
Theorem generate_insights_no_rows_raises
  (chart_title : string) (data : DataFrame) (chart_type : string) :
  rows data = [] ->
  In chart_type StreamlitApp.chart_kinds ->
  exists e, StreamlitApp.generate_insights chart_title data chart_type = Raise e.
Proof.
  intros Hrows Hkind. simpl in Hkind.
  destruct Hkind as [<-|[<-|[<-|[<-|[<-|[]]]]]];
    unfold StreamlitApp.generate_insights; simpl.
  - unfold StreamlitApp.insights_pie_sentiment.
    destruct (getitem data "count") as [count|e] eqn:E; [|simpl; eauto].
    apply (getitem_no_rows _ _ _ Hrows) in E. subst count. simpl.
    rewrite (iloc_no_rows _ _ Hrows). simpl. eauto.
  - unfold StreamlitApp.insights_line_engagement.
    destruct (getitem data "engagements") as [eng|e] eqn:E; [|simpl; eauto].
    apply (getitem_no_rows _ _ _ Hrows) in E. subst eng. simpl. eauto.
  - unfold StreamlitApp.insights_bar_platform.
    rewrite (iloc_no_rows _ _ Hrows). simpl. eauto.
  - unfold StreamlitApp.insights_pie_media_type.
    rewrite (iloc_no_rows _ _ Hrows). simpl. eauto.
  - unfold StreamlitApp.insights_bar_location.
    rewrite (iloc_no_rows _ _ Hrows). simpl. eauto.
Qed.

(** C10: for a chart-kind tag outside the five recognized ones,
    generate_insights returns the empty sentence sequence, whatever the
    table. *)
Theorem generate_insights_unknown_kind
  (chart_title : string) (data : DataFrame) (chart_type : string) :
  ~ In chart_type StreamlitApp.chart_kinds ->
  StreamlitApp.generate_insights chart_title data chart_type = Ok [].
Proof.
  intros Hnot. unfold StreamlitApp.generate_insights.
  repeat match goal with
  | |- context [String.eqb chart_type ?k] =>
      destruct (String.eqb_spec chart_type k) as [->|_];
      [exfalso; apply Hnot; simpl; tauto|]
  end.
  reflexivity.
Qed.

End InsightsOnEmpty.

(** ** Column labels *)

Section Labels.

Lemma isspace_lower_char (c : ascii) : isspace (lower_char c) = isspace c.
Proof. destruct c as [[] [] [] [] [] [] [] []]; reflexivity. Qed.

Lemma lower_char_idem (c : ascii) : lower_char (lower_char c) = lower_char c.
Proof. destruct c as [[] [] [] [] [] [] [] []]; reflexivity. Qed.

Lemma lower_app (s t : string) : lower (s ++ t) = (lower s ++ lower t)%string.
Proof. induction s as [|c s IH]; simpl; [reflexivity|now rewrite IH]. Qed.

Lemma all_space_lower (s : string) : all_space (lower s) = all_space s.
Proof.
  induction s as [|c s IH]; simpl; [reflexivity|].
  now rewrite isspace_lower_char, IH.
Qed.

Lemma lstrip_lower (s : string) : lstrip (lower s) = lower (lstrip s).
Proof.
  induction s as [|c s IH]; simpl; [reflexivity|].
  rewrite isspace_lower_char. now destruct (isspace c).
Qed.

Lemma rstrip_lower (s : string) : rstrip (lower s) = lower (rstrip s).
Proof.
  induction s as [|c s IH]; simpl; [reflexivity|].
  rewrite IH, isspace_lower_char.
  destruct (rstrip s); simpl; [now destruct (isspace c)|reflexivity].
Qed.

Lemma strip_lower (s : string) : strip (lower s) = lower (strip s).
Proof. unfold strip. now rewrite lstrip_lower, rstrip_lower. Qed.

Lemma lstrip_space_app (l s : string) :
  all_space l = true -> lstrip (l ++ s) = lstrip s.
Proof.
  induction l as [|c l IH]; simpl; [reflexivity|].
  intros H. apply andb_prop in H as [Hc Hl]. rewrite Hc. now apply IH.
Qed.

Lemma rstrip_all_space (r : string) : all_space r = true -> rstrip r = "".
Proof.
  induction r as [|c r IH]; simpl; [reflexivity|].
  intros H. apply andb_prop in H as [Hc Hr]. now rewrite (IH Hr), Hc.
Qed.

Lemma rstrip_app_space (s r : string) :
  all_space r = true -> rstrip (s ++ r) = rstrip s.
Proof.
  intros Hr. induction s as [|c s IH]; simpl.
  - now apply rstrip_all_space.
  - now rewrite IH.
Qed.

Lemma lstrip_fixed_app (s r : string) :
  s <> "" -> lstrip s = s -> lstrip (s ++ r) = (s ++ r)%string.
Proof.
  destruct s as [|c s]; [congruence|]. intros _. simpl.
  destruct (isspace c) eqn:E; [|reflexivity].
  intros H. exfalso.
  assert (Hlen : forall t, String.length (lstrip t) <= String.length t).
  { induction t as [|d t IH]; simpl; [lia|]. destruct (isspace d); simpl; lia. }
  specialize (Hlen s). rewrite H in Hlen. simpl in Hlen. lia.
Qed.

(** Padding with white space is removed by [strip]. *)
Lemma strip_padded (l s r : string) :
  all_space l = true -> all_space r = true ->
  s <> "" -> lstrip s = s -> rstrip s = s ->
  strip (l ++ s ++ r) = s.
Proof.
  intros Hl Hr Hne Hls Hrs. unfold strip.
  rewrite (lstrip_space_app _ _ Hl), (lstrip_fixed_app _ _ Hne Hls).
  now rewrite (rstrip_app_space _ _ Hr).
Qed.

Lemma lower_strip_variant (h s : string) :
  In h headers -> header_variant h s -> lower (strip s) = lower h.
Proof.
  intros Hh (l & m & r & -> & Hl & Hr & Hm).
  rewrite <- strip_lower, !lower_app, Hm.
  apply strip_padded.
  - now rewrite all_space_lower.
  - now rewrite all_space_lower.
  - simpl in Hh. decompose [or] Hh; subst; try discriminate; contradiction.
  - simpl in Hh. decompose [or] Hh; subst; try reflexivity; contradiction.
  - simpl in Hh. decompose [or] Hh; subst; try reflexivity; contradiction.
Qed.

Lemma streamlit_label_of_variant (h s : string) :
  In h headers -> header_variant h s ->
  StreamlitApp.normalize_label s = canonical h.
Proof.
  intros Hh Hv. unfold StreamlitApp.normalize_label.
  rewrite (lower_strip_variant h s Hh Hv).
  simpl in Hh. decompose [or] Hh; subst; try reflexivity; contradiction.
Qed.

Lemma app_label_of_variant (h s : string) :
  In h headers -> header_variant h s -> App.normalize_label s = canonical h.
Proof.
  intros Hh Hv. unfold App.normalize_label.
  now rewrite (lower_strip_variant h s Hh Hv).
Qed.

Lemma labels_of_variants (f : string -> string) (hs cols : list string) :
  (forall h s, In h headers -> header_variant h s -> f s = canonical h) ->
  Forall (fun h => In h headers) hs ->
  Forall2 header_variant hs cols ->
  map f cols = map canonical hs.
Proof.
  intros Hf Hin Hv. induction Hv as [|h s hs cols Hhs _ IH]; [reflexivity|].
  inversion Hin; subst. simpl. f_equal; [now apply Hf|now apply IH].
Qed.

Lemma free_of_app (c : ascii) (s t : string) :
  free_of c (s ++ t) = free_of c s && free_of c t.
Proof.
  induction s as [|d s IH]; simpl; [reflexivity|].
  now rewrite IH, andb_assoc.
Qed.

Lemma free_of_replace (c : ascii) (new s : string) :
  free_of c new = true -> free_of c (replace c new s) = true.
Proof.
  intros Hnew. induction s as [|d s IH]; simpl; [reflexivity|].
  destruct (Ascii.eqb d c) eqn:E.
  - now rewrite free_of_app, Hnew, IH.
  - simpl. now rewrite E, IH.
Qed.

Lemma free_of_replace_other (c old : ascii) (new s : string) :
  free_of c new = true -> free_of c s = true ->
  free_of c (replace old new s) = true.
Proof.
  intros Hnew. induction s as [|d s IH]; simpl; [reflexivity|].
  intros H. apply andb_prop in H as [Hd Hs].
  destruct (Ascii.eqb d old).
  - now rewrite free_of_app, Hnew, IH.
  - simpl. now rewrite Hd, IH.
Qed.

Lemma lower_replace (old : ascii) (new s : string) :
  lower new = new ->
  lower (replace old new (lower s)) = replace old new (lower s).
Proof.
  intros Hnew. induction s as [|d s IH]; simpl; [reflexivity|].
  destruct (Ascii.eqb (lower_char d) old) eqn:E.
  - now rewrite lower_app, Hnew, IH.
  - simpl. now rewrite lower_char_idem, IH.
Qed.

End Labels.

(** ** The normalizer *)

Section Normalizer.
Context {B : Builtins}.

Lemma contains_In (label : string) (cols : list string) :
  contains label cols = true <-> In label cols.
Proof.
  unfold contains. rewrite existsb_exists. split.
  - intros (c & Hc & E). apply String.eqb_eq in E. now subst.
  - intros H. exists label. split; [assumption|apply String.eqb_refl].
Qed.

Lemma contains_occurrences (label : string) (cols : list string) :
  contains label cols = true <-> occurrences label cols <> 0.
Proof.
  unfold contains, occurrences. induction cols as [|c cols IH]; simpl.
  - split; [discriminate|congruence].
  - destruct (String.eqb label c); simpl; [split; [discriminate|reflexivity]|].
    exact IH.
Qed.

Lemma map_cells_absent (f : value -> value) (label : string)
  (cols : list string) (row : list value) :
  contains label cols = false -> map_cells f label cols row = row.
Proof.
  revert row. induction cols as [|c cols IH]; intros row H; simpl.
  - now destruct row.
  - destruct row as [|v row]; [reflexivity|].
    unfold contains in H. simpl in H. apply orb_false_elim in H as [Hc H].
    rewrite String.eqb_sym, Hc. f_equal. now apply IH.
Qed.

Lemma map_cells_length (f : value -> value) (label : string)
  (cols : list string) (row : list value) :
  List.length (map_cells f label cols row) = List.length row.
Proof.
  revert row. induction cols as [|c cols IH]; intros [|v row]; simpl;
    try reflexivity. now rewrite IH.
Qed.

Lemma map_cells_nth (f : value -> value) (label : string)
  (cols : list string) (row : list value) (j : nat) :
  nth_error (map_cells f label cols row) j =
  option_map
    (fun v => match nth_error cols j with
              | Some c => if String.eqb c label then f v else v
              | None => v
              end)
    (nth_error row j).
Proof.
  revert row j. induction cols as [|c cols IH]; intros row j; simpl.
  - destruct row; destruct j; simpl; try reflexivity.
    now destruct (nth_error row j).
  - destruct row as [|v row]; destruct j as [|j]; simpl; try reflexivity.
    apply IH.
Qed.

Lemma map_column_absent (f : value -> value) (label : string) (df : DataFrame) :
  contains label (columns df) = false -> map_column f label df = df.
Proof.
  intros H. destruct df as [cols rs]. unfold map_column. simpl in *. f_equal.
  rewrite <- (map_id rs) at 2. apply map_ext. intros row.
  now apply map_cells_absent.
Qed.

(** The frame [clean_data] returns, when it returns one. *)
Lemma clean_data_inv (raw df : DataFrame) :
  StreamlitApp.clean_data raw = Ok df ->
  let cols := map StreamlitApp.normalize_label (columns raw) in
  df = map_column fillna0 "engagements"
         (map_column to_datetime_coerce "date"
            {| columns := cols; rows := rows raw |}).
Proof.
  unfold StreamlitApp.clean_data. cbv zeta.
  set (cols := map StreamlitApp.normalize_label (columns raw)).
  set (df0 := {| columns := cols; rows := rows raw |}).
  assert (Hstep : forall d,
            (if contains "engagements" (columns d)
             then map_column fillna0 "engagements" d else d)
            = map_column fillna0 "engagements" d).
  { intros d. destruct (contains "engagements" (columns d)) eqn:He;
      [reflexivity|]. symmetry. now apply map_column_absent. }
  change (columns df0) with cols.
  destruct (contains "date" cols) eqn:Hd.
  - destruct (occurrences "date" cols) as [|[|n]]; try discriminate.
    unfold bind. intros H. injection H as <-.
    exact (Hstep (map_column to_datetime_coerce "date" df0)).
  - unfold bind. intros H. injection H as <-.
    rewrite (map_column_absent to_datetime_coerce "date" df0 Hd).
    exact (Hstep df0).
Qed.

(** [clean_data] returns a frame unless two columns are called [date]. *)
Lemma clean_data_returns (raw : DataFrame) :
  occurrences "date" (map StreamlitApp.normalize_label (columns raw)) <= 1 ->
  exists df, StreamlitApp.clean_data raw = Ok df.
Proof.
  intros Hocc. unfold StreamlitApp.clean_data. simpl.
  set (cols := map StreamlitApp.normalize_label (columns raw)) in *.
  destruct (contains "date" cols) eqn:Hd; simpl; [|eauto].
  apply contains_occurrences in Hd.
  destruct (occurrences "date" cols) as [|[|n]]; simpl; [congruence|eauto|lia].
Qed.

(** What [clean_data] makes of one cell: the cell in row [i] and column [j]
    of the result is the cell of the input under the function of its
    column. *)
Lemma clean_data_cells (raw df : DataFrame) :
  StreamlitApp.clean_data raw = Ok df ->
  columns df = map StreamlitApp.normalize_label (columns raw)
  /\ List.length (rows df) = List.length (rows raw)
  /\ forall i row, nth_error (rows raw) i = Some row ->
       exists row',
         nth_error (rows df) i = Some row'
         /\ List.length row' = List.length row
         /\ forall j v, nth_error row j = Some v ->
              nth_error row' j =
              Some (match nth_error (columns df) j with
                    | Some c =>
                        if String.eqb c "engagements" then fillna0 v
                        else if String.eqb c "date" then to_datetime_coerce v
                        else v
                    | None => v
                    end).
Proof.
  intros H. apply clean_data_inv in H. simpl in H. subst df.
  unfold map_column. simpl.
  set (cols := map StreamlitApp.normalize_label (columns raw)).
  split; [reflexivity|]. split; [now rewrite !length_map|].
  intros i row Hrow. eexists. split; [|split].
  - rewrite !nth_error_map, Hrow. reflexivity.
  - now rewrite !map_cells_length.
  - intros j v Hv. rewrite !map_cells_nth, Hv. simpl.
    destruct (nth_error cols j) as [c|]; [|reflexivity].
    destruct (String.eqb_spec c "date") as [->|Hd]; simpl; reflexivity.
Qed.

End Normalizer.

Section NormalizerClaims.
Context {B : Builtins}.

(** C3, as amended: the Normalizer renames every column by trimming white
    space, lower-casing and replacing spaces with underscores; periods are
    removed in streamlit_app.py and left in place in app.py (they are not
    replaced with underscores).  A label of streamlit_app.py then holds no
    space and no period and is in lower case.  For a valid input, whose
    headers are the six expected ones in any casing and with white space
    around them, both files yield the six canonical names. *)
Theorem normalizer_renames_columns (raw : DataFrame) :
  (forall df, StreamlitApp.clean_data raw = Ok df ->
     columns df = map StreamlitApp.normalize_label (columns raw))
  /\ (forall df, App.data_cleaning raw = Ok df ->
        columns df = map App.normalize_label (columns raw))
  /\ (forall s,
        StreamlitApp.normalize_label s
        = replace "."%char "" (App.normalize_label s)
        /\ free_of " " (StreamlitApp.normalize_label s) = true
        /\ free_of "." (StreamlitApp.normalize_label s) = true
        /\ lower (StreamlitApp.normalize_label s) = StreamlitApp.normalize_label s
        /\ free_of " " (App.normalize_label s) = true
        /\ lower (App.normalize_label s) = App.normalize_label s)
  /\ (forall hs,
        Forall (fun h => In h headers) hs ->
        Forall2 header_variant hs (columns raw) ->
        map StreamlitApp.normalize_label (columns raw) = map canonical hs
        /\ map App.normalize_label (columns raw) = map canonical hs)
  /\ map canonical headers = StreamlitApp.required.
Proof.
  split; [|split; [|split; [|split]]].
  - intros df H. now apply clean_data_cells in H.
  - unfold App.data_cleaning. intros df. cbv zeta.
    destruct (getitem _ "date"); simpl; [|discriminate].
    destruct (getitem _ "engagements"); simpl; [|discriminate].
    intros H. injection H as <-. reflexivity.
  - intros s. unfold StreamlitApp.normalize_label, App.normalize_label.
    repeat split.
    + apply free_of_replace_other; [reflexivity|].
      now apply free_of_replace.
    + now apply free_of_replace.
    + rewrite <- (lower_replace " " "_" (strip s)) by reflexivity.
      now apply lower_replace.
    + now apply free_of_replace.
    + now apply lower_replace.
  - intros hs Hin Hv. split.
    + now apply labels_of_variants; [apply streamlit_label_of_variant| |].
    + now apply labels_of_variants; [apply app_label_of_variant| |].
  - reflexivity.
Qed.

(** C5, as amended: every cell-level failure is absorbed and no row is
    dropped.  A date the parser cannot read becomes the null date NaT, a
    missing engagements value becomes 0, and an engagements value that is
    present is left as it is, also when it is text.  The Normalizer returns
    a frame whenever at most one column is called date. *)
Theorem clean_data_recovers_cells (raw : DataFrame) :
  (occurrences "date" (map StreamlitApp.normalize_label (columns raw)) <= 1 ->
   exists df, StreamlitApp.clean_data raw = Ok df)
  /\ forall df, StreamlitApp.clean_data raw = Ok df ->
       List.length (rows df) = List.length (rows raw)
       /\ forall i row, nth_error (rows raw) i = Some row ->
            exists row',
              nth_error (rows df) i = Some row'
              /\ List.length row' = List.length row
              /\ forall j v, nth_error row j = Some v ->
                   (nth_error (columns df) j = Some "date" ->
                    nth_error row' j =
                    Some (match parse_datetime v with
                          | Some t => Timestamp t
                          | None => NaT
                          end))
                   /\ (nth_error (columns df) j = Some "engagements" ->
                       nth_error row' j = Some (if isna v then Num 0 else v)).
Proof.
  split; [apply clean_data_returns|].
  intros df H. destruct (clean_data_cells raw df H) as (_ & Hlen & Hrows).
  split; [exact Hlen|].
  intros i row Hrow. destruct (Hrows i row Hrow) as (row' & H1 & H2 & H3).
  exists row'. split; [exact H1|]. split; [exact H2|].
  intros j v Hv. specialize (H3 j v Hv).
  split; intros Hc; rewrite Hc in H3; exact H3.
Qed.

(** C9: the Normalizer changes the values of the date and engagements
    columns only.  Every column of the input is a column of the output, at
    the same place and under its normalized label, and the cells of every
    column that is not called date or engagements, the unknown extra columns
    among them, are the cells of the input. *)
Theorem clean_data_frame (raw df : DataFrame) :
  StreamlitApp.clean_data raw = Ok df ->
  columns df = map StreamlitApp.normalize_label (columns raw)
  /\ List.length (rows df) = List.length (rows raw)
  /\ forall i row, nth_error (rows raw) i = Some row ->
       exists row',
         nth_error (rows df) i = Some row'
         /\ List.length row' = List.length row
         /\ forall j v, nth_error row j = Some v ->
              nth_error (columns df) j <> Some "date" ->
              nth_error (columns df) j <> Some "engagements" ->
              nth_error row' j = Some v.
Proof.
  intros H. destruct (clean_data_cells raw df H) as (Hcols & Hlen & Hrows).
  split; [exact Hcols|]. split; [exact Hlen|].
  intros i row Hrow. destruct (Hrows i row Hrow) as (row' & H1 & H2 & H3).
  exists row'. split; [exact H1|]. split; [exact H2|].
  intros j v Hv Hd He. rewrite (H3 j v Hv).
  destruct (nth_error (columns df) j) as [c|]; [|reflexivity].
  destruct (String.eqb_spec c "engagements") as [->|_]; [congruence|].
  destruct (String.eqb_spec c "date") as [->|_]; [congruence|reflexivity].
Qed.

(** The run of the script when [clean_data] returns a frame that lacks a
    required column. *)
Lemma schema_error_run (raw df : DataFrame) :
  StreamlitApp.clean_data raw = Ok df ->
  (exists col, In col StreamlitApp.required /\ ~ In col (columns df)) ->
  StreamlitApp.main (Some raw)
  = ([StreamlitApp.st_sidebar_success "File uploaded successfully!";
      StreamlitApp.st_error StreamlitApp.schema_message],
     StreamlitApp.Stop)
  /\ forall fig,
       ~ In (StreamlitApp.st_plotly_chart fig)
            (fst (StreamlitApp.main (Some raw))).
Proof.
  intros Hclean (col & Hreq & Hmiss).
  assert (Hcheck : StreamlitApp.has_required df = false).
  { destruct (StreamlitApp.has_required df) eqn:E; [|reflexivity].
    unfold StreamlitApp.has_required in E.
    rewrite forallb_forall in E. specialize (E col Hreq).
    now apply contains_In in E. }
  assert (Hmain : StreamlitApp.main (Some raw)
            = ([StreamlitApp.st_sidebar_success "File uploaded successfully!";
                StreamlitApp.st_error StreamlitApp.schema_message],
               StreamlitApp.Stop)).
  { unfold StreamlitApp.main. rewrite Hclean.
    unfold StreamlitApp.seq at 1. unfold StreamlitApp.emit at 1.
    unfold StreamlitApp.seq at 1. unfold StreamlitApp.lift at 1.
    rewrite Hcheck. reflexivity. }
  split; [exact Hmain|].
  intros fig. rewrite Hmain. simpl.
  intros [H|[H|[]]]; discriminate.
Qed.

(** With two columns renamed to date, [clean_data] raises on line 19. *)
Lemma clean_data_two_dates (raw : DataFrame) :
  2 <= occurrences "date" (map StreamlitApp.normalize_label (columns raw)) ->
  StreamlitApp.clean_data raw = Raise ValueError.
Proof.
  intros Hocc. unfold StreamlitApp.clean_data. cbn [columns].
  set (cols := map StreamlitApp.normalize_label (columns raw)) in *.
  assert (Hd : contains "date" cols = true)
    by (apply contains_occurrences; lia).
  rewrite Hd. destruct (occurrences "date" cols) as [|[|n]]; [lia|lia|].
  reflexivity.
Qed.


End NormalizerClaims.

(** ** Sorting *)

Section SortFacts.
Context {A : Type} (before : A -> A -> bool).

Lemma insert_perm (x : A) (l : list A) : Permutation (x :: l) (insert before x l).
Proof.
  induction l as [|y l IH]; simpl; [reflexivity|].
  destruct (before x y); [reflexivity|].
  rewrite perm_swap. now apply perm_skip.
Qed.

Lemma sort_perm (l : list A) : Permutation l (sort before l).
Proof.
  induction l as [|x l IH]; simpl; [reflexivity|].
  rewrite <- insert_perm. now apply perm_skip.
Qed.

Hypothesis before_total : forall x y, before x y = false -> before y x = true.

Lemma insert_sorted (x : A) (l : list A) :
  Sorted (fun a b => before a b = true) l ->
  Sorted (fun a b => before a b = true) (insert before x l).
Proof.
  induction l as [|y l IH]; simpl; intros Hs.
  - repeat constructor.
  - destruct (before x y) eqn:E.
    + constructor; [assumption|]. now constructor.
    + apply Sorted_inv in Hs as [Hs Hhd]. constructor; [now apply IH|].
      destruct l as [|z l]; simpl.
      * constructor. now apply before_total.
      * destruct (before x z); constructor;
          [now apply before_total|now apply HdRel_inv in Hhd].
Qed.

Lemma sort_sorted (l : list A) :
  Sorted (fun a b => before a b = true) (sort before l).
Proof.
  induction l as [|x l IH]; simpl; [constructor|now apply insert_sorted].
Qed.

End SortFacts.

Lemma Sorted_firstn {A : Type} (R : A -> A -> Prop) (n : nat) (l : list A) :
  Sorted R l -> Sorted R (firstn n l).
Proof.
  revert l. induction n as [|n IH]; intros l Hs; simpl; [constructor|].
  destruct l as [|x l]; [constructor|].
  apply Sorted_inv in Hs as [Hs Hhd]. constructor; [now apply IH|].
  destruct l as [|y l]; destruct n; simpl; constructor.
  now apply HdRel_inv in Hhd.
Qed.

Lemma Sorted_map {A C : Type} (f : A -> C) (R : C -> C -> Prop) (l : list A) :
  Sorted (fun x y => R (f x) (f y)) l -> Sorted R (map f l).
Proof.
  induction 1 as [|x l Hs IH Hhd]; simpl; constructor; [assumption|].
  destruct Hhd; simpl; now constructor.
Qed.

(** ** The order and the equality of cells *)

Lemma value_leb_total (a b : value) :
  value_leb a b = false -> value_leb b a = true.
Proof.
  destruct a, b; simpl; try discriminate; try reflexivity.
  - intros H. apply Qle_bool_iff. apply Qlt_le_weak. apply Qnot_le_lt.
    intros Hle. apply Qle_bool_iff in Hle. congruence.
  - intros H. destruct (String.leb_total s s0) as [E|E]; congruence.
  - intros H. apply Z.leb_le. apply Z.leb_gt in H. lia.
Qed.

Lemma desc_before_total (a b : value) :
  desc_before a b = false -> desc_before b a = true.
Proof.
  unfold desc_before. destruct (isna b) eqn:Eb; [discriminate|].
  destruct (isna a) eqn:Ea; [reflexivity|]. apply value_leb_total.
Qed.

Lemma desc_before_num (p q : Q) :
  desc_before (Num p) (Num q) = true <-> (q <= p)%Q.
Proof. unfold desc_before. simpl. apply Qle_bool_iff. Qed.

Lemma value_eqb_sym (a b : value) : value_eqb a b = value_eqb b a.
Proof.
  destruct a, b; simpl; try reflexivity.
  - apply Qeq_bool_comm.
  - apply String.eqb_sym.
  - apply Z.eqb_sym.
Qed.

Lemma value_eqb_refl (a : value) : isna a = false -> value_eqb a a = true.
Proof.
  destruct a; simpl; try discriminate; intros _.
  - apply Qeq_bool_refl.
  - apply String.eqb_refl.
  - apply Z.eqb_refl.
Qed.

Lemma value_eqb_trans (a b c : value) :
  value_eqb a b = true -> value_eqb b c = true -> value_eqb a c = true.
Proof.
  destruct a, b; simpl; try discriminate; destruct c; simpl; try discriminate.
  - apply Qeq_bool_trans.
  - intros H1 H2. apply String.eqb_eq in H1, H2. subst. apply String.eqb_refl.
  - intros H1 H2. apply Z.eqb_eq in H1, H2. subst. apply Z.eqb_refl.
Qed.

Lemma value_eqb_notna (a b : value) : value_eqb a b = true -> isna a = false.
Proof. destruct a, b; simpl; try discriminate; reflexivity. Qed.

(** ** Grouping *)

Lemma cells_where_snoc (k : value) (pro : list (value * value))
  (kv : value * value) :
  cells_where k (pro ++ [kv])
  = cells_where k pro ++ (if value_eqb (fst kv) k then [snd kv] else []).
Proof.
  unfold cells_where. rewrite filter_app, map_app. simpl.
  now destruct (value_eqb (fst kv) k).
Qed.

Lemma group_insert_cases (k v : value) (acc : list (value * list value)) :
  (exists l1 k' vs l2,
      acc = l1 ++ (k', vs) :: l2
      /\ value_eqb k' k = true
      /\ Forall (fun g => value_eqb (fst g) k = false) l1
      /\ group_insert k v acc = l1 ++ (k', vs ++ [v]) :: l2)
  \/ (Forall (fun g => value_eqb (fst g) k = false) acc
      /\ group_insert k v acc = acc ++ [(k, [v])]).
Proof.
  induction acc as [|[k' vs] acc IH]; simpl.
  - right. split; [constructor|reflexivity].
  - destruct (value_eqb k' k) eqn:E.
    + left. exists [], k', vs, acc.
      split; [reflexivity|]. split; [exact E|]. split; [constructor|reflexivity].
    + destruct IH as [(l1 & k2 & vs2 & l2 & -> & Hk & Hl1 & Hins)|[Hall Hins]].
      * left. exists ((k', vs) :: l1), k2, vs2, l2. rewrite Hins.
        split; [reflexivity|]. split; [exact Hk|].
        split; [now constructor|reflexivity].
      * right. rewrite Hins. split; [now constructor|reflexivity].
Qed.

Lemma ordpairs_after {A : Type} (R : A -> A -> Prop) (l1 l2 : list A) (x : A) :
  ForallOrdPairs R (l1 ++ x :: l2) -> Forall (R x) l2.
Proof.
  induction l1 as [|y l1 IH]; simpl; intros H; inversion H; subst; auto.
Qed.

Lemma ordpairs_snoc {A : Type} (R : A -> A -> Prop) (l : list A) (x : A) :
  ForallOrdPairs R l -> Forall (fun a => R a x) l -> ForallOrdPairs R (l ++ [x]).
Proof.
  induction 1 as [|a l Ha Hl IH]; simpl; intros Hx.
  - repeat constructor.
  - inversion Hx; subst. constructor; [|now apply IH].
    apply Forall_app. split; [assumption|now repeat constructor].
Qed.

Lemma filter_none {A : Type} (f : A -> bool) (l : list A) :
  (forall x, In x l -> f x = false) -> filter f l = [].
Proof.
  induction l as [|x l IH]; simpl; intros H; [reflexivity|].
  rewrite (H x (or_introl eq_refl)). apply IH. intros y Hy. apply H. now right.
Qed.

Lemma group_insert_grouped (k v : value) (acc : list (value * list value))
  (pro : list (value * value)) :
  grouped acc pro -> isna k = false ->
  grouped (group_insert k v acc) (pro ++ [(k, v)]).
Proof.
  intros [Hcells Hdist Hall] Hk.
  destruct (group_insert_cases k v acc)
    as [(l1 & k' & vs & l2 & -> & Hk' & Hl1 & ->)|[Hnone ->]].
  - assert (Hl2 : Forall (fun g => value_eqb (fst g) k = false) l2).
    { rewrite map_app in Hdist. simpl in Hdist.
      apply ordpairs_after in Hdist. rewrite Forall_map in Hdist.
      eapply Forall_impl; [|exact Hdist]. intros g Hg. simpl in Hg.
      destruct (value_eqb (fst g) k) eqn:E; [|reflexivity].
      rewrite value_eqb_sym in E.
      now rewrite (value_eqb_trans _ _ _ Hk' E) in Hg. }
    constructor.
    + intros g Hg. rewrite cells_where_snoc. simpl.
      apply in_app_or in Hg as [Hg|[<-|Hg]].
      * rewrite value_eqb_sym.
        rewrite (proj1 (Forall_forall _ _) Hl1 g Hg), app_nil_r.
        apply Hcells. apply in_or_app. now left.
      * simpl. rewrite value_eqb_sym, Hk'. split.
        -- f_equal. apply (Hcells (k', vs)). apply in_or_app. right. now left.
        -- now destruct vs.
      * rewrite value_eqb_sym.
        rewrite (proj1 (Forall_forall _ _) Hl2 g Hg), app_nil_r.
        apply Hcells. apply in_or_app. right. now right.
    + rewrite map_app in *. exact Hdist.
    + intros kv Hkv Hna. apply in_app_or in Hkv as [Hkv|[<-|[]]].
      * destruct (Hall kv Hkv Hna) as (key & Hin & E). exists key.
        split; [|exact E]. rewrite map_app in *. exact Hin.
      * exists k'. split; [|exact Hk'].
        rewrite map_app. apply in_or_app. right. now left.
  - assert (Hfresh : cells_where k pro = []).
    { unfold cells_where. rewrite filter_none; [reflexivity|].
      intros kv Hkv. destruct (value_eqb (fst kv) k) eqn:E; [|reflexivity].
      destruct (Hall kv Hkv (value_eqb_notna _ _ E)) as (key & Hin & E').
      apply in_map_iff in Hin as (g & <- & Hg).
      pose proof (proj1 (Forall_forall _ _) Hnone g Hg) as Hf. simpl in Hf.
      rewrite (value_eqb_trans _ _ _ E' E) in Hf. discriminate. }
    constructor.
    + intros g Hg. rewrite cells_where_snoc. simpl.
      apply in_app_or in Hg as [Hg|[<-|[]]].
      * rewrite value_eqb_sym.
        rewrite (proj1 (Forall_forall _ _) Hnone g Hg), app_nil_r.
        now apply Hcells.
      * simpl. rewrite (value_eqb_refl k Hk), Hfresh. split; [reflexivity|].
        discriminate.
    + rewrite map_app. simpl. apply ordpairs_snoc; [exact Hdist|].
      now rewrite Forall_map.
    + intros kv Hkv Hna. rewrite map_app. apply in_app_or in Hkv as [Hkv|[<-|[]]].
      * destruct (Hall kv Hkv Hna) as (key & Hin & E). exists key.
        split; [|exact E]. apply in_or_app. now left.
      * exists k. split; [|now apply value_eqb_refl].
        apply in_or_app. right. now left.
Qed.

Lemma grouped_skip (acc : list (value * list value))
  (pro : list (value * value)) (kv : value * value) :
  grouped acc pro -> isna (fst kv) = true -> grouped acc (pro ++ [kv]).
Proof.
  intros [Hcells Hdist Hall] Hna. constructor.
  - intros g Hg. rewrite cells_where_snoc.
    replace (value_eqb (fst kv) (fst g)) with false.
    + rewrite app_nil_r. now apply Hcells.
    + destruct (value_eqb (fst kv) (fst g)) eqn:E; [|reflexivity].
      apply value_eqb_notna in E. congruence.
  - exact Hdist.
  - intros kv' Hkv' Hna'. apply in_app_or in Hkv' as [Hkv'|[<-|[]]].
    + now apply Hall.
    + congruence.
Qed.

Lemma fold_group_step_grouped (l : list (value * value)) :
  forall acc pro, grouped acc pro ->
  grouped (fold_left group_step l acc) (pro ++ l).
Proof.
  induction l as [|kv l IH]; intros acc pro H; simpl.
  - now rewrite app_nil_r.
  - replace (pro ++ kv :: l) with ((pro ++ [kv]) ++ l)
      by now rewrite <- app_assoc.
    apply IH. unfold group_step. destruct (isna (fst kv)) eqn:E.
    + now apply grouped_skip.
    + destruct kv as [k v]. now apply group_insert_grouped.
Qed.

(** [group_keys] groups the rows by key. *)
Lemma group_keys_grouped (keys vals : list value) :
  grouped (group_keys keys vals) (combine keys vals).
Proof.
  unfold group_keys.
  apply (fold_group_step_grouped (combine keys vals) [] []).
  constructor; simpl; [intros g []|constructor|intros kv []].
Qed.

Lemma group_insert_concat (k v : value) (acc : list (value * list value)) :
  Permutation (List.concat (map snd (group_insert k v acc)))
              (List.concat (map snd acc) ++ [v]).
Proof.
  induction acc as [|[k' vs] acc IH]; simpl; [reflexivity|].
  destruct (value_eqb k' k); simpl.
  - rewrite <- !app_assoc. apply Permutation_app_head.
    apply Permutation_app_comm.
  - rewrite <- app_assoc. now apply Permutation_app_head.
Qed.

Lemma fold_group_step_concat (l : list (value * value)) :
  forall acc,
  Permutation (List.concat (map snd (fold_left group_step l acc)))
              (List.concat (map snd acc) ++ map snd (keyed l)).
Proof.
  induction l as [|kv l IH]; intros acc; simpl.
  - now rewrite app_nil_r.
  - rewrite IH. unfold group_step, notna.
    destruct (isna (fst kv)); simpl; [reflexivity|].
    rewrite group_insert_concat, <- app_assoc. reflexivity.
Qed.

(** No cell of a row with a key is lost or counted twice by [group_keys]. *)
Lemma group_keys_concat (keys vals : list value) :
  Permutation (List.concat (map snd (group_keys keys vals)))
              (map snd (keyed (combine keys vals))).
Proof. apply (fold_group_step_concat (combine keys vals) []). Qed.

(** ** Sums of numbers *)

Lemma qsum_app (l l' : list value) : (qsum (l ++ l') == qsum l + qsum l')%Q.
Proof.
  induction l as [|v l IH]; simpl; [ring|]. rewrite IH. ring.
Qed.

Lemma qsum_perm (l l' : list value) :
  Permutation l l' -> (qsum l == qsum l')%Q.
Proof.
  induction 1; simpl.
  - reflexivity.
  - now rewrite IHPermutation.
  - ring.
  - now rewrite IHPermutation1.
Qed.

Lemma concat_perm {A : Type} (l l' : list (list A)) :
  Permutation l l' -> Permutation (List.concat l) (List.concat l').
Proof.
  induction 1; simpl.
  - reflexivity.
  - now apply Permutation_app_head.
  - rewrite !app_assoc. apply Permutation_app_tail. apply Permutation_app_comm.
  - now transitivity (List.concat l').
Qed.

Lemma all_num_notna (vs : list value) :
  forallb is_num vs = true -> filter notna vs = vs /\ map fillna0 vs = vs.
Proof.
  induction vs as [|v vs IH]; simpl; [now split|].
  intros H. apply andb_prop in H as [Hv Hvs]. destruct (IH Hvs) as [IH1 IH2].
  destruct v; try discriminate. simpl. now rewrite IH1, IH2.
Qed.

Lemma add_all_num (vs : list value) :
  forall a, forallb is_num vs = true ->
  exists q, add_all (Num a) vs = Ok (Num q) /\ (q == a + qsum vs)%Q.
Proof.
  induction vs as [|v vs IH]; intros a H; simpl.
  - exists a. split; [reflexivity|ring].
  - simpl in H. apply andb_prop in H as [Hv Hvs].
    destruct v as [|p| | |]; try discriminate. simpl.
    destruct (IH (a + p)%Q Hvs) as (q & Hq & E). exists q. split; [exact Hq|].
    rewrite E. ring.
Qed.

Lemma reduce_add_num (vs : list value) :
  forallb is_num vs = true ->
  exists q, reduce_add vs = Ok (Num q) /\ (q == qsum vs)%Q.
Proof.
  destruct vs as [|v vs]; simpl; intros H.
  - exists 0%Q. split; reflexivity.
  - apply andb_prop in H as [Hv Hvs]. destruct v as [|p| | |]; try discriminate.
    exact (add_all_num vs p Hvs).
Qed.

Lemma Series_sum_num (vs : list value) :
  forallb is_num vs = true ->
  exists q, Series_sum vs = Ok (Num q) /\ (q == qsum vs)%Q.
Proof.
  intros H. unfold Series_sum. rewrite (proj2 (all_num_notna vs H)).
  now apply reduce_add_num.
Qed.

Lemma group_sum_num (vs : list value) :
  forallb is_num vs = true ->
  exists q, group_sum vs = Ok (Num q) /\ (q == qsum vs)%Q.
Proof.
  intros H. unfold group_sum. rewrite (proj1 (all_num_notna vs H)).
  now apply reduce_add_num.
Qed.

(** ** Results of [mapM] *)

Lemma mapM_inv {A C : Type} (f : A -> result C) (l : list A) :
  forall ys, mapM f l = Ok ys -> Forall2 (fun x y => f x = Ok y) l ys.
Proof.
  induction l as [|x l IH]; simpl; intros ys H.
  - injection H as <-. constructor.
  - destruct (f x) as [y|] eqn:E; simpl in H; [|discriminate].
    destruct (mapM f l) as [ys'|]; simpl in H; [|discriminate].
    injection H as <-. constructor; [assumption|now apply IH].
Qed.

Lemma mapM_ok {A C : Type} (f : A -> result C) (l : list A) :
  Forall (fun x => exists y, f x = Ok y) l -> exists ys, mapM f l = Ok ys.
Proof.
  induction 1 as [|x l (y & Hy) _ (ys & Hys)]; simpl; [eauto|].
  rewrite Hy, Hys. simpl. eauto.
Qed.

Lemma Forall2_in_r {A C : Type} (R : A -> C -> Prop) (l : list A) (l' : list C) :
  Forall2 R l l' -> forall y, In y l' -> exists x, In x l /\ R x y.
Proof.
  induction 1 as [|x y l l' HR _ IH]; intros z Hz; [destruct Hz|].
  destruct Hz as [<-|Hz].
  - exists x. split; [now left|assumption].
  - destruct (IH z Hz) as (x' & Hin & HR'). exists x'. split; [now right|assumption].
Qed.

(** ** [groupby(...).sum()] *)

Lemma groupby_sum_inv (keys vals : list value) (s : list (value * value)) :
  groupby_sum keys vals = Ok s ->
  Forall2 (fun g p => fst p = fst g /\ group_sum (snd g) = Ok (snd p))
          (sort key_before (group_keys keys vals)) s.
Proof.
  intros H. apply mapM_inv in H.
  eapply Forall2_impl; [|exact H]. intros g p Hgp. simpl in Hgp.
  destruct (group_sum (snd g)) as [v|]; simpl in Hgp; [|discriminate].
  injection Hgp as <-. now split.
Qed.

Lemma cells_where_in (k : value) (keys vals : list value) (x : value) :
  In x (cells_where k (combine keys vals)) -> In x vals.
Proof.
  unfold cells_where. intros H. apply in_map_iff in H as ([k' v] & <- & Hin).
  apply filter_In in Hin as [Hin _]. now apply in_combine_r in Hin.
Qed.

Lemma cells_where_key (k : value) (kvs : list (value * value)) :
  cells_where k kvs <> [] -> isna k = false.
Proof.
  unfold cells_where. destruct (filter _ kvs) as [|kv l] eqn:E;
    [simpl; congruence|].
  intros _. assert (Hin : In kv (filter (fun kv => value_eqb (fst kv) k) kvs))
    by (rewrite E; now left).
  apply filter_In in Hin as [_ Hk]. rewrite value_eqb_sym in Hk.
  now apply value_eqb_notna in Hk.
Qed.

(** Every row of the result of [groupby(...).sum()] carries a key that is
    present and the sum of the cells of the rows with that key. *)
Lemma groupby_sum_rows (keys vals : list value) (s : list (value * value)) :
  groupby_sum keys vals = Ok s ->
  forall p, In p s ->
    isna (fst p) = false
    /\ cells_where (fst p) (combine keys vals) <> []
    /\ group_sum (cells_where (fst p) (combine keys vals)) = Ok (snd p).
Proof.
  intros H p Hp. apply groupby_sum_inv in H.
  destruct (Forall2_in_r _ _ _ H p Hp) as (g & Hg & Hk & Hs).
  apply (Permutation_in _ (Permutation_sym (sort_perm key_before _))) in Hg.
  destruct (grouped_cells _ _ (group_keys_grouped keys vals) g Hg) as [Hc Hne].
  rewrite Hk, <- Hc. split; [|split; assumption].
  apply (cells_where_key _ (combine keys vals)). now rewrite <- Hc.
Qed.

(** On numbers [groupby(...).sum()] returns, every sum is a number, and the
    sums add up to the sum of the cells of the rows with a key. *)
Lemma groupby_sum_num (keys vals : list value) :
  forallb is_num vals = true ->
  exists s, groupby_sum keys vals = Ok s
    /\ forallb is_num (map snd s) = true
    /\ (qsum (map snd s) == qsum (map snd (keyed (combine keys vals))))%Q.
Proof.
  intros Hnum.
  assert (Hgroups : Forall (fun g => forallb is_num (snd g) = true)
                      (sort key_before (group_keys keys vals))).
  { apply Forall_forall. intros g Hg.
    apply (Permutation_in _ (Permutation_sym (sort_perm key_before _))) in Hg.
    destruct (grouped_cells _ _ (group_keys_grouped keys vals) g Hg) as [Hc _].
    apply forallb_forall. intros x Hx. rewrite Hc in Hx.
    apply cells_where_in in Hx.
    exact (proj1 (forallb_forall _ _) Hnum x Hx). }
  assert (Hsum : (qsum (List.concat (map snd (sort key_before (group_keys keys vals))))
                  == qsum (map snd (keyed (combine keys vals))))%Q).
  { apply qsum_perm. rewrite <- group_keys_concat.
    apply concat_perm, Permutation_map, Permutation_sym, sort_perm. }
  assert (Hgen : forall l,
            Forall (fun g : value * list value => forallb is_num (snd g) = true) l ->
            exists s,
              mapM (fun g => s <- group_sum (snd g) ;; Ok (fst g, s)) l = Ok s
              /\ forallb is_num (map snd s) = true
              /\ (qsum (map snd s) == qsum (List.concat (map snd l)))%Q).
  { induction 1 as [|g l Hg _ (s & Hs & Hn & Ht)]; simpl.
    - exists []. repeat split; reflexivity.
    - destruct (group_sum_num (snd g) Hg) as (q & Hq & Eq).
      rewrite Hq. simpl. rewrite Hs. simpl. eexists. split; [reflexivity|].
      simpl. split; [exact Hn|]. rewrite qsum_app, Ht, Eq. reflexivity. }
  destruct (Hgen _ Hgroups) as (s & Hs & Hn & Ht).
  exists s. split; [exact Hs|]. split; [exact Hn|].
  now rewrite Ht.
Qed.

(** ** Frames and their columns *)

Lemma getitem_once (df : DataFrame) (label : string) :
  occurrences label (columns df) = 1 ->
  getitem df label = Ok (map (row_lookup label (columns df)) (rows df)).
Proof. unfold getitem. now intros ->. Qed.

Lemma getitem_reset_index_val (k v : string) (s : list (value * value)) :
  String.eqb k v = false ->
  getitem (reset_index k v s) v = Ok (map snd s).
Proof.
  intros H. unfold getitem, reset_index, occurrences. simpl.
  rewrite (String.eqb_sym v k), H, String.eqb_refl. simpl. f_equal.
  rewrite map_map. apply map_ext. intros p. reflexivity.
Qed.

Lemma forallb_map {A C : Type} (p : C -> bool) (f : A -> C) (l : list A) :
  forallb p (map f l) = forallb (fun x => p (f x)) l.
Proof. induction l as [|x l IH]; simpl; [reflexivity|now rewrite IH]. Qed.

Lemma firstn_in {A : Type} (n : nat) (l : list A) (x : A) :
  In x (firstn n l) -> In x l.
Proof.
  revert l. induction n as [|n IH]; intros [|y l]; simpl; try tauto.
  intros [H|H]; [now left|right; now apply IH].
Qed.

Lemma is_dataset_inv (df : DataFrame) :
  StreamlitApp.is_dataset df = true ->
  (forall col, In col StreamlitApp.required ->
     getitem df col = Ok (map (row_lookup col (columns df)) (rows df)))
  /\ forallb is_time (map (row_lookup "date" (columns df)) (rows df)) = true
  /\ forallb is_num (map (row_lookup "engagements" (columns df)) (rows df)) = true.
Proof.
  unfold StreamlitApp.is_dataset, StreamlitApp.column_ok. intros H.
  apply andb_prop in H as [H Hnum]. apply andb_prop in H as [Hreq Htime].
  split; [|split]; [|now rewrite forallb_map..].
  intros col Hcol. apply getitem_once. apply Nat.eqb_eq.
  exact (proj1 (forallb_forall _ _) Hreq col Hcol).
Qed.

(** ** [sort_values(ascending=False)] *)

Lemma sort_values_desc_inv (s s' : list (value * value)) :
  sort_values_desc s = Ok s' ->
  Permutation s s'
  /\ Sorted (fun x y => desc_before (snd x) (snd y) = true) s'.
Proof.
  unfold sort_values_desc. destruct (same_kind _); [|discriminate].
  intros H. injection H as <-. split; [apply sort_perm|].
  apply (sort_sorted (fun x y => desc_before (snd x) (snd y))).
  intros x y. apply desc_before_total.
Qed.

Lemma sort_values_desc_num (s : list (value * value)) :
  forallb is_num (map snd s) = true -> exists s', sort_values_desc s = Ok s'.
Proof.
  intros H. unfold sort_values_desc.
  rewrite (proj1 (all_num_notna _ H)).
  assert (Hk : same_kind (map snd s) = true).
  { unfold same_kind. destruct (map snd s) as [|v l]; [reflexivity|].
    simpl in H. apply andb_prop in H as [Hv Hl].
    apply forallb_forall. intros x Hx.
    pose proof (proj1 (forallb_forall _ _) Hl x Hx) as Hn.
    destruct x, v; try discriminate. reflexivity. }
  rewrite Hk. eauto.
Qed.

Lemma Sorted_impl {A : Type} (R R' : A -> A -> Prop) (l : list A) :
  (forall x y, R x y -> R' x y) -> Sorted R l -> Sorted R' l.
Proof.
  intros HR. induction 1 as [|x l Hs IH Hhd]; constructor; [assumption|].
  destruct Hhd; constructor. now apply HR.
Qed.

Lemma Ok_inj {A : Type} (a b : A) : Ok a = Ok b -> a = b.
Proof. now intros [=]. Qed.

(** ** The top-locations tables *)


(** ** The count tables *)

Lemma qsum_counts (vc : list (value * nat)) :
  (qsum (map (fun p => Num (cnt p)) vc) == inject_Z (Z.of_nat (total_count vc)))%Q.
Proof.
  induction vc as [|p vc IH]; simpl; [reflexivity|].
  rewrite IH. unfold cnt. rewrite Nat2Z.inj_add, inject_Z_plus. reflexivity.
Qed.

Lemma qsum_percent (T : Q) (vc : list (value * nat)) :
  (qsum (map (fun p => Num (cnt p / T * 100)) vc)
   == qsum (map (fun p => Num (cnt p)) vc) / T * 100)%Q.
Proof.
  induction vc as [|p vc IH]; simpl.
  - unfold Qdiv. ring.
  - rewrite IH. unfold Qdiv. ring.
Qed.

Lemma total_count_perm (l l' : list (value * nat)) :
  Permutation l l' -> total_count l = total_count l'.
Proof. induction 1; simpl; lia. Qed.

Lemma total_count_groups (gs : list (value * list value)) :
  total_count (map (fun g => (fst g, List.length (snd g))) gs)
  = List.length (List.concat (map snd gs)).
Proof.
  induction gs as [|g gs IH]; simpl; [reflexivity|].
  now rewrite length_app, IH.
Qed.

Lemma keyed_self_length (s : list value) :
  List.length (keyed (combine s s)) = List.length (filter notna s).
Proof.
  unfold keyed. induction s as [|v s IH]; simpl; [reflexivity|].
  destruct (notna v); simpl; now rewrite IH.
Qed.

(** The counts of [value_counts] add up to the number of cells that are
    present. *)
Lemma value_counts_total (s : list value) :
  total_count (value_counts s) = List.length (filter notna s).
Proof.
  unfold value_counts, count_keys.
  rewrite <- (total_count_perm _ _ (sort_perm _ _)), total_count_groups.
  rewrite (Permutation_length (group_keys_concat s s)), length_map.
  apply keyed_self_length.
Qed.

Lemma value_counts_positive (s : list value) (p : value * nat) :
  In p (value_counts s) -> 1 <= snd p.
Proof.
  unfold value_counts, count_keys. intros H.
  apply (Permutation_in _ (Permutation_sym (sort_perm _ _))) in H.
  apply in_map_iff in H as (g & <- & Hg). simpl.
  destruct (grouped_cells _ _ (group_keys_grouped s s) g Hg) as [_ Hne].
  destruct (snd g); [congruence|simpl; lia].
Qed.

Lemma total_count_positive (vc : list (value * nat)) :
  vc <> [] -> (forall p, In p vc -> 1 <= snd p) -> 1 <= total_count vc.
Proof.
  destruct vc as [|p vc]; [congruence|]. intros _ H. simpl.
  specialize (H p (or_introl eq_refl)). lia.
Qed.

Lemma mapM_percent_of (T : Q) (vc : list (value * nat)) :
  mapM (fun c => percent_of c (Num T)) (map (fun p => Num (cnt p)) vc)
  = Ok (map (fun p => Num (cnt p / T * 100)) vc).
Proof.
  induction vc as [|p vc IH]; simpl; [reflexivity|]. now rewrite IH.
Qed.

Lemma all_num_counts (vc : list (value * nat)) :
  forallb is_num (map (fun p => Num (cnt p)) vc) = true.
Proof. induction vc; simpl; auto. Qed.

(** The table [count_frame] returns. *)
Lemma count_frame_inv (label : string) (df t : DataFrame) :
  String.eqb label "count" = false ->
  StreamlitApp.count_frame label df = Ok t ->
  exists s T,
    getitem df label = Ok s
    /\ (T == inject_Z (Z.of_nat (List.length (filter notna s))))%Q
    /\ t = {| columns := [label; "count"; "percentage"];
              rows := count_rows T (value_counts s) |}.
Proof.
  intros Hl. unfold StreamlitApp.count_frame.
  destruct (getitem df label) as [s|]; cbn [bind]; [|discriminate].
  rewrite (getitem_reset_index_val _ _ _ Hl). cbn [bind].
  rewrite map_map. cbn [snd].
  destruct (Series_sum_num _ (all_num_counts (value_counts s))) as (T & HT & ET).
  change (fun x : value * nat => Num (inject_Z (Z.of_nat (snd x))))
    with (fun p : value * nat => Num (cnt p)).
  rewrite HT. cbn [bind]. rewrite mapM_percent_of. cbn [bind].
  intros H. apply Ok_inj in H. subst t. exists s, T.
  split; [reflexivity|]. split.
  - now rewrite ET, qsum_counts, value_counts_total.
  - unfold StreamlitApp.assign, reset_index, count_rows. cbn [columns rows].
    f_equal. clear. induction (value_counts s) as [|p vc IH]; simpl;
      [reflexivity|]. now rewrite IH.
Qed.

Lemma count_table_columns (label : string) (T : Q) (vc : list (value * nat)) :
  String.eqb label "count" = false ->
  String.eqb label "percentage" = false ->
  let t := {| columns := [label; "count"; "percentage"];
              rows := count_rows T vc |} in
  getitem t label = Ok (map fst vc)
  /\ getitem t "count" = Ok (map (fun p => Num (cnt p)) vc)
  /\ getitem t "percentage" = Ok (map (fun p => Num (cnt p / T * 100)) vc).
Proof.
  intros Hc Hp. unfold getitem, occurrences, count_rows. cbn [columns rows].
  cbn [filter]. rewrite String.eqb_refl, Hc, Hp.
  rewrite (String.eqb_sym "count" label), (String.eqb_sym "percentage" label).
  rewrite Hc, Hp. cbn. rewrite !map_map. repeat split; f_equal;
    apply map_ext; intros p; cbn [row_lookup];
    rewrite ?String.eqb_refl, ?Hc, ?Hp; reflexivity.
Qed.

Lemma all_num_percent (T : Q) (vc : list (value * nat)) :
  forallb is_num (map (fun p => Num (cnt p / T * 100)) vc) = true.
Proof. induction vc; simpl; auto. Qed.

Lemma count_frame_percentages (label : string) (df t : DataFrame) :
  String.eqb label "count" = false ->
  String.eqb label "percentage" = false ->
  StreamlitApp.count_frame label df = Ok t ->
  percentages_ok t.
Proof.
  intros Hc Hp H.
  destruct (count_frame_inv label df t Hc H) as (s & T & _ & HT & ->).
  destruct (count_table_columns label T (value_counts s) Hc Hp)
    as (_ & Hcount & Hperc).
  unfold percentages_ok. rewrite Hperc, Hcount. cbn [bind rows]. split.
  - intros Hrows.
    assert (Hvc : value_counts s <> []).
    { intros E. apply Hrows. now rewrite E. }
    destruct (Series_sum_num _ (all_num_percent T (value_counts s)))
      as (q & Hq & Eq).
    exists q. split; [exact Hq|].
    rewrite Eq, qsum_percent, qsum_counts, value_counts_total, <- HT.
    assert (Hpos : 1 <= List.length (filter notna s)).
    { rewrite <- value_counts_total.
      apply total_count_positive; [exact Hvc|apply value_counts_positive]. }
    assert (HT0 : ~ (T == 0)%Q).
    { rewrite HT. intros E. unfold Qeq in E. simpl in E. lia. }
    field. exact HT0.
  - intros Hrows. unfold count_rows in Hrows.
    apply map_eq_nil in Hrows. rewrite Hrows. simpl. repeat split.
Qed.

(** C7: in exact arithmetic, the percentage fields of the sentiment-mix table
    and of the media-type-mix table add up to 100 when the table has rows.
    When it has none there is no percentage field, their sum is 0, and the
    percentages derived from the table are 0. *)
Theorem percentages_sum_to_100 (df : DataFrame) :
  (forall t, StreamlitApp.sentiment_counts df = Ok t -> percentages_ok t)
  /\ (forall t, StreamlitApp.media_type_counts df = Ok t -> percentages_ok t).
Proof.
  split; intros t H.
  - now apply (count_frame_percentages "sentiment" df t).
  - now apply (count_frame_percentages "media_type" df t).
Qed.

(** ** Conservation of totals *)

Lemma getitem_length (df : DataFrame) (label : string) (s : list value) :
  getitem df label = Ok s -> List.length s = List.length (rows df).
Proof.
  unfold getitem. destruct (occurrences label (columns df)) as [|[|n]];
    try discriminate.
  intros H. apply Ok_inj in H. subst s. apply length_map.
Qed.

Lemma filter_all {A : Type} (f : A -> bool) (l : list A) :
  forallb f l = true -> filter f l = l.
Proof.
  induction l as [|x l IH]; simpl; [reflexivity|].
  intros H. apply andb_prop in H as [Hx Hl]. now rewrite Hx, IH.
Qed.

Lemma keyed_all (keys vals : list value) :
  forallb notna keys = true ->
  List.length keys = List.length vals ->
  map snd (keyed (combine keys vals)) = vals.
Proof.
  unfold keyed. revert vals.
  induction keys as [|k keys IH]; intros [|v vals]; simpl; try discriminate;
    [reflexivity|].
  intros H Hlen. apply andb_prop in H as [Hk Hkeys]. rewrite Hk. simpl.
  f_equal. apply IH; [assumption|lia].
Qed.


(** ** The insight generator on tables with rows *)

Lemma arg_scan_num (better : Q -> Q -> bool) (vs : list value) :
  forall i best,
  forallb is_num vs = true ->
  (forall j q, best = Some (j, q) -> j < i) ->
  exists r, arg_scan better vs i best = Ok r
    /\ (forall j q, r = Some (j, q) -> j < i + List.length vs)
    /\ (r = None -> best = None /\ vs = []).
Proof.
  induction vs as [|v vs IH]; intros i best Hnum Hbest; simpl.
  - exists best. split; [reflexivity|]. split; [|now split].
    intros j q E. specialize (Hbest j q E). lia.
  - simpl in Hnum. apply andb_prop in Hnum as [Hv Hvs].
    destruct v as [|p| | |]; try discriminate.
    edestruct (IH (S i)) as (r & Hr & Hlt & Hnone); [exact Hvs| |].
    2: { exists r. split; [exact Hr|]. split.
         - intros j q E. specialize (Hlt j q E). lia.
         - intros E. destruct (Hnone E) as [Hb _].
           destruct best as [[j q]|]; [destruct (better p q)|]; discriminate. }
    intros j q E. destruct best as [[j' q']|].
    + destruct (better p q'); injection E as <- <-; [lia|].
      specialize (Hbest j' q' eq_refl). lia.
    + injection E as <- <-. lia.
Qed.

Lemma arg_best_num (better : Q -> Q -> bool) (vs : list value) :
  forallb is_num vs = true -> vs <> [] ->
  exists i, arg_best better vs = Ok i /\ i < List.length vs.
Proof.
  intros Hnum Hne. unfold arg_best.
  destruct (arg_scan_num better vs 0 None Hnum) as (r & Hr & Hlt & Hnone);
    [discriminate|].
  rewrite Hr. cbn [bind]. destruct r as [[i q]|].
  - exists i. split; [reflexivity|]. exact (Hlt i q eq_refl).
  - destruct (Hnone eq_refl) as [_ E]. congruence.
Qed.

Lemma Series_mean_num (vs : list value) :
  forallb is_num vs = true -> vs <> [] ->
  exists q, Series_mean vs = Ok (Num q).
Proof.
  intros Hnum Hne. unfold Series_mean.
  rewrite (proj1 (all_num_notna vs Hnum)).
  destruct (reduce_add_num vs Hnum) as (q & Hq & _).
  destruct vs as [|v vs]; [congruence|]. rewrite Hq. cbn [bind]. eauto.
Qed.

(** A table of sums: the frame [reset_index key "engagements" s] of a series
    of numbers. *)
Lemma sum_table_row (key : string) (s : list (value * value)) (i : nat)
  (p : value * value) :
  String.eqb key "engagements" = false ->
  nth_error s i = Some p ->
  let t := reset_index key "engagements" s in
  iloc t i = Ok [fst p; snd p]
  /\ StreamlitApp.loc t i = Ok [fst p; snd p]
  /\ row_getitem (columns t) [fst p; snd p] key = Ok (fst p)
  /\ row_getitem (columns t) [fst p; snd p] "engagements" = Ok (snd p).
Proof.
  intros Hk Hp. unfold iloc, StreamlitApp.loc, reset_index, row_getitem,
    occurrences. cbn [rows columns filter].
  rewrite nth_error_map, Hp. cbn [option_map].
  rewrite !String.eqb_refl, (String.eqb_sym "engagements" key), Hk.
  cbn. now rewrite String.eqb_refl, Hk.
Qed.

Lemma nth_error_lt {A : Type} (l : list A) (i : nat) :
  i < List.length l -> exists x, nth_error l i = Some x.
Proof.
  intros H. destruct (nth_error l i) as [x|] eqn:E; [eauto|].
  apply nth_error_None in E. lia.
Qed.

Lemma all_num_nth (s : list (value * value)) (i : nat) (p : value * value) :
  forallb is_num (map snd s) = true -> nth_error s i = Some p ->
  exists q, snd p = Num q.
Proof.
  intros Hn Hp. apply nth_error_In in Hp.
  pose proof (proj1 (forallb_forall _ _) Hn (snd p) (in_map snd _ _ Hp)) as H.
  destruct (snd p); try discriminate. eauto.
Qed.

Lemma count_table_row (label : string) (T : Q) (vc : list (value * nat))
  (i : nat) (p : value * nat) :
  String.eqb label "count" = false ->
  String.eqb label "percentage" = false ->
  nth_error vc i = Some p ->
  let t := {| columns := [label; "count"; "percentage"];
             rows := count_rows T vc |} in
  let row := [fst p; Num (cnt p); Num (cnt p / T * 100)] in
  iloc t i = Ok row
  /\ row_getitem (columns t) row label = Ok (fst p)
  /\ row_getitem (columns t) row "percentage" = Ok (Num (cnt p / T * 100)).
Proof.
  intros Hc Hp Hnth. unfold iloc, count_rows, row_getitem, occurrences.
  cbn [rows columns filter].
  rewrite nth_error_map, Hnth. cbn [option_map].
  rewrite !String.eqb_refl, (String.eqb_sym "percentage" label), Hc, Hp.
  cbn. now rewrite String.eqb_refl, Hp.
Qed.

Lemma filter_count_rows (T : Q) (vc : list (value * nat)) (v : value) :
  filter (fun r => value_eqb
                     (row_lookup "sentiment" ["sentiment"; "count"; "percentage"] r) v)
         (count_rows T vc)
  = count_rows T (filter (fun p => value_eqb (fst p) v) vc).
Proof.
  unfold count_rows. induction vc as [|p vc IH]; [reflexivity|].
  cbn [map filter]. rewrite IH.
  change (row_lookup "sentiment" ["sentiment"; "count"; "percentage"]
            [fst p; Num (cnt p); Num (cnt p / T * 100)]) with (fst p).
  now destruct (value_eqb (fst p) v).
Qed.

Lemma sentiment_percent_num (T total : Q) (vc : list (value * nat))
  (name : string) :
  exists q,
    StreamlitApp.sentiment_percent
      {| columns := ["sentiment"; "count"; "percentage"];
         rows := count_rows T vc |} (Num total) name = Ok (Num q).
Proof.
  unfold StreamlitApp.sentiment_percent. cbn [gt_zero bind].
  destruct (negb (Qle_bool total 0)); [|eauto].
  unfold StreamlitApp.select_eq.
  destruct (count_table_columns "sentiment" T vc eq_refl eq_refl) as (Hs & _ & _).
  rewrite Hs. cbn [bind columns rows]. rewrite filter_count_rows.
  destruct (count_table_columns "sentiment" T
              (filter (fun p => value_eqb (fst p) (Str name)) vc) eq_refl eq_refl)
    as (_ & Hc & _).
  rewrite Hc. cbn [bind].
  destruct (Series_sum_num _ (all_num_counts
              (filter (fun p => value_eqb (fst p) (Str name)) vc)))
    as (q & Hq & _).
  rewrite Hq. cbn [bind percent_of]. eauto.
Qed.

Section InsightsWithRows.
Context {B : Builtins} {S : BuiltinsSpec B}.

Lemma insights_pie_sentiment_ok (T : Q) (vc : list (value * nat)) :
  vc <> [] ->
  exists a b c,
    StreamlitApp.insights_pie_sentiment
      {| columns := ["sentiment"; "count"; "percentage"];
         rows := count_rows T vc |} = Ok [a; b; c].
Proof.
  intros Hne. destruct vc as [|p vc]; [congruence|].
  unfold StreamlitApp.insights_pie_sentiment.
  destruct (count_table_columns "sentiment" T (p :: vc) eq_refl eq_refl)
    as (_ & Hc & _).
  rewrite Hc. cbn [bind].
  destruct (Series_sum_num _ (all_num_counts (p :: vc))) as (total & Ht & _).
  rewrite Ht. cbn [bind].
  destruct (sentiment_percent_num T total (p :: vc) "Positive") as (pos & Hpos).
  destruct (sentiment_percent_num T total (p :: vc) "Negative") as (neg & Hneg).
  destruct (sentiment_percent_num T total (p :: vc) "Neutral") as (neu & Hneu).
  rewrite Hpos, Hneg, Hneu. cbn [bind].
  pose proof (count_table_row "sentiment" T (p :: vc) 0 p eq_refl eq_refl eq_refl)
    as Hrow. cbv zeta in Hrow. destruct Hrow as (Hi & Hk & Hp).
  rewrite Hi. cbn [bind]. rewrite Hk, Hp. cbn [bind].
  destruct (format_1f_num (cnt p / T * 100)) as (s1 & H1).
  destruct (format_1f_num pos) as (s2 & H2).
  destruct (format_1f_num neg) as (s3 & H3).
  rewrite H1, H2, H3. cbn [bind]. eauto.
Qed.

Lemma insights_pie_media_type_ok (T : Q) (vc : list (value * nat)) :
  vc <> [] ->
  exists l,
    StreamlitApp.insights_pie_media_type
      {| columns := ["media_type"; "count"; "percentage"];
         rows := count_rows T vc |} = Ok l
    /\ List.length l = if (1 <? List.length vc)%nat then 3 else 2.
Proof.
  intros Hne. destruct vc as [|p vc]; [congruence|].
  unfold StreamlitApp.insights_pie_media_type.
  pose proof (count_table_row "media_type" T (p :: vc) 0 p eq_refl eq_refl eq_refl)
    as Hrow. cbv zeta in Hrow. destruct Hrow as (Hi & Hk & Hp).
  rewrite Hi. cbn [bind]. rewrite Hk, Hp. cbn [bind].
  destruct (format_1f_num (cnt p / T * 100)) as (s1 & H1).
  rewrite H1. cbn [bind rows]. unfold count_rows. rewrite length_map.
  fold (count_rows T (p :: vc)).
  destruct vc as [|p' vc].
  - cbn [List.length Nat.ltb Nat.leb bind app]. eauto.
  - pose proof (count_table_row "media_type" T (p :: p' :: vc) 1 p'
                  eq_refl eq_refl eq_refl) as Hrow.
    cbv zeta in Hrow. destruct Hrow as (Hi' & Hk' & Hp').
    cbn [List.length Nat.ltb Nat.leb]. rewrite Hi'. cbn [bind].
    rewrite Hk', Hp'. cbn [bind].
    destruct (format_1f_num (cnt p' / T * 100)) as (s2 & H2).
    rewrite H2. cbn [bind app]. eauto.
Qed.

Lemma insights_bar_platform_ok (s : list (value * value)) :
  s <> [] -> forallb is_num (map snd s) = true ->
  exists l,
    StreamlitApp.insights_bar_platform (reset_index "platform" "engagements" s)
    = Ok l
    /\ List.length l = if (1 <? List.length s)%nat then 3 else 2.
Proof.
  intros Hne Hnum. destruct s as [|p s]; [congruence|].
  unfold StreamlitApp.insights_bar_platform.
  pose proof (sum_table_row "platform" (p :: s) 0 p eq_refl eq_refl) as Hrow.
  cbv zeta in Hrow. destruct Hrow as (Hi & _ & Hk & He).
  rewrite Hi. cbn [bind]. rewrite Hk, He. cbn [bind].
  destruct (all_num_nth (p :: s) 0 p Hnum eq_refl) as (q & Eq).
  rewrite Eq, py_int_num. cbn [bind].
  rewrite (getitem_reset_index_val "platform" "engagements" (p :: s) eq_refl).
  destruct (Series_sum_num _ Hnum) as (total & Ht & _).
  assert (Hlen : List.length (rows (reset_index "platform" "engagements" (p :: s)))
                 = List.length (p :: s)).
  { unfold reset_index. cbn [rows]. apply length_map. }
  rewrite Hlen. destruct s as [|p' s].
  - cbn [List.length Nat.ltb Nat.leb bind app]. rewrite Ht. cbn [bind].
    rewrite py_int_num. cbn [bind]. eauto.
  - pose proof (sum_table_row "platform" (p :: p' :: s) 1 p' eq_refl eq_refl)
      as Hrow. cbv zeta in Hrow. destruct Hrow as (Hi' & _ & Hk' & He').
    cbn [List.length Nat.ltb Nat.leb]. rewrite Hi'. cbn [bind].
    rewrite Hk', He'. cbn [bind].
    destruct (all_num_nth (p :: p' :: s) 1 p' Hnum eq_refl) as (q' & Eq').
    rewrite Eq', py_int_num. cbn [bind]. rewrite Ht. cbn [bind].
    rewrite py_int_num. cbn [bind app]. eauto.
Qed.

Lemma insights_bar_location_ok (s : list (value * value)) :
  s <> [] -> forallb is_num (map snd s) = true ->
  exists l,
    StreamlitApp.insights_bar_location (reset_index "location" "engagements" s)
    = Ok l
    /\ List.length l = if (1 <? List.length s)%nat then 3 else 2.
Proof.
  intros Hne Hnum. destruct s as [|p s]; [congruence|].
  unfold StreamlitApp.insights_bar_location.
  pose proof (sum_table_row "location" (p :: s) 0 p eq_refl eq_refl) as Hrow.
  cbv zeta in Hrow. destruct Hrow as (Hi & _ & Hk & He).
  rewrite Hi. cbn [bind]. rewrite Hk, He. cbn [bind].
  destruct (all_num_nth (p :: s) 0 p Hnum eq_refl) as (q & Eq).
  rewrite Eq, py_int_num. cbn [bind].
  assert (Hlen : List.length (rows (reset_index "location" "engagements" (p :: s)))
                 = List.length (p :: s)).
  { unfold reset_index. cbn [rows]. apply length_map. }
  rewrite Hlen. destruct s as [|p' s].
  - cbn [List.length Nat.ltb Nat.leb bind app]. eauto.
  - pose proof (sum_table_row "location" (p :: p' :: s) 1 p' eq_refl eq_refl)
      as Hrow. cbv zeta in Hrow. destruct Hrow as (Hi' & _ & Hk' & He').
    cbn [List.length Nat.ltb Nat.leb]. rewrite Hi'. cbn [bind].
    rewrite Hk', He'. cbn [bind].
    destruct (all_num_nth (p :: p' :: s) 1 p' Hnum eq_refl) as (q' & Eq').
    rewrite Eq', py_int_num. cbn [bind app]. eauto.
Qed.

Lemma insights_line_engagement_ok (s : list (value * value)) :
  s <> [] -> forallb is_num (map snd s) = true ->
  (forall p, In p s -> exists t, fst p = Timestamp t) ->
  exists a b c,
    StreamlitApp.insights_line_engagement (reset_index "date" "engagements" s)
    = Ok [a; b; c].
Proof.
  intros Hne Hnum Htime.
  assert (Hvs : map snd s <> []) by (destruct s; [congruence|discriminate]).
  unfold StreamlitApp.insights_line_engagement.
  rewrite (getitem_reset_index_val "date" "engagements" s eq_refl). cbn [bind].
  destruct (arg_best_num (fun q p => negb (Qle_bool q p)) _ Hnum Hvs)
    as (imax & Hmax & Hlt1).
  destruct (arg_best_num (fun q p => negb (Qle_bool p q)) _ Hnum Hvs)
    as (imin & Hmin & Hlt2).
  rewrite length_map in Hlt1, Hlt2.
  destruct (nth_error_lt s imax Hlt1) as (p1 & Hp1).
  destruct (nth_error_lt s imin Hlt2) as (p2 & Hp2).
  unfold idxmax, idxmin. rewrite Hmax, Hmin. cbn [bind].
  pose proof (sum_table_row "date" s imax p1 eq_refl Hp1) as Hrow1.
  pose proof (sum_table_row "date" s imin p2 eq_refl Hp2) as Hrow2.
  cbv zeta in Hrow1, Hrow2.
  destruct Hrow1 as (_ & Hl1 & Hk1 & He1). destruct Hrow2 as (_ & Hl2 & Hk2 & He2).
  rewrite Hl1, Hl2. cbn [bind].
  destruct (Series_sum_num _ Hnum) as (total & Ht & _).
  destruct (Series_mean_num _ Hnum Hvs) as (avg & Ha).
  rewrite Ht, Ha. cbn [bind]. rewrite Hk1, He1, Hk2, He2. cbn [bind].
  destruct (Htime p1 (nth_error_In _ _ Hp1)) as (t1 & E1).
  destruct (Htime p2 (nth_error_In _ _ Hp2)) as (t2 & E2).
  destruct (all_num_nth s imax p1 Hnum Hp1) as (q1 & Eq1).
  destruct (all_num_nth s imin p2 Hnum Hp2) as (q2 & Eq2).
  rewrite E1, E2, Eq1, Eq2.
  destruct (strftime_ymd_time t1) as (d1 & Hd1).
  destruct (strftime_ymd_time t2) as (d2 & Hd2).
  destruct (format_comma_0f_num avg) as (sa & Hsa).
  rewrite Hd1, Hd2, !py_int_num, Hsa. cbn [bind]. eauto.
Qed.

End InsightsWithRows.

Lemma groupby_sum_keys_time (keys vals : list value) (s : list (value * value)) :
  groupby_sum keys vals = Ok s ->
  forallb is_time keys = true ->
  forall p, In p s -> exists t, fst p = Timestamp t.
Proof.
  intros Hs Htime p Hp.
  destruct (groupby_sum_rows keys vals s Hs p Hp) as (_ & Hne & _).
  unfold cells_where in Hne.
  destruct (filter _ (combine keys vals)) as [|kv l] eqn:E; [now elim Hne|].
  assert (Hin : In kv (filter (fun kv => value_eqb (fst kv) (fst p))
                              (combine keys vals))) by (rewrite E; now left).
  apply filter_In in Hin as [Hin Hk]. destruct kv as [k v].
  apply in_combine_l in Hin. simpl in Hk.
  pose proof (proj1 (forallb_forall _ _) Htime k Hin) as Hkt.
  destruct (fst p); destruct k; try discriminate. eauto.
Qed.

Lemma dataset_groupby (df : DataFrame) (key : string) :
  StreamlitApp.is_dataset df = true ->
  In key StreamlitApp.required ->
  exists keys engagements s,
    getitem df key = Ok keys
    /\ getitem df "engagements" = Ok engagements
    /\ groupby_sum keys engagements = Ok s
    /\ forallb is_num (map snd s) = true.
Proof.
  intros Hds Hkey. destruct (is_dataset_inv df Hds) as (Hget & _ & Hnum).
  destruct (groupby_sum_num (map (row_lookup key (columns df)) (rows df)) _ Hnum)
    as (s & Hs & Hn & _).
  eexists _, _, s. split; [now apply Hget|].
  split; [apply Hget; simpl; tauto|]. now split.
Qed.

Lemma all_num_perm (l l' : list (value * value)) :
  Permutation l l' -> forallb is_num (map snd l) = true ->
  forallb is_num (map snd l') = true.
Proof.
  intros Hperm H. apply forallb_forall. intros x Hx.
  apply (Permutation_in _ (Permutation_sym (Permutation_map snd Hperm))) in Hx.
  exact (proj1 (forallb_forall _ _) H x Hx).
Qed.

Lemma all_num_firstn (n : nat) (l : list (value * value)) :
  forallb is_num (map snd l) = true ->
  forallb is_num (map snd (firstn n l)) = true.
Proof.
  intros H. apply forallb_forall. intros x Hx.
  apply in_map_iff in Hx as (p & <- & Hp). apply firstn_in in Hp.
  exact (proj1 (forallb_forall _ _) H _ (in_map snd _ _ Hp)).
Qed.

Lemma reset_index_rows (k v : string) (s : list (value * value)) :
  List.length (rows (reset_index k v s)) = List.length s
  /\ (rows (reset_index k v s) <> [] -> s <> []).
Proof.
  unfold reset_index. cbn [rows]. split; [apply length_map|].
  intros H E. apply H. now rewrite E.
Qed.

Section SentenceCounts.
Context {B : Builtins} {S : BuiltinsSpec B}.


End SentenceCounts.

(** ** The scenario, and inputs on which the program departs from the
    specification *)

Lemma idealised_spec : BuiltinsSpec Idealised.builtins.
Proof.
  constructor; simpl; eauto.
Qed.

Example scenario_cleaned :
  StreamlitApp.clean_data (B := Idealised.builtins) Scenario.raw
  = Ok Scenario.cleaned.
Proof. reflexivity. Qed.

Example scenario_is_dataset : StreamlitApp.is_dataset Scenario.cleaned = true.
Proof. reflexivity. Qed.

(** C1, witness of the amended statement: the sentiment table of a Dataset
    without rows. *)
Lemma generate_insights_no_rows_raises_witness :
  exists e,
    StreamlitApp.generate_insights (B := Idealised.builtins)
      "Sentiment Breakdown"
      {| columns := ["sentiment"; "count"; "percentage"]; rows := [] |}
      "pie_sentiment" = Raise e.
Proof.
  apply (generate_insights_no_rows_raises (B := Idealised.builtins)).
  - reflexivity.
  - simpl. auto.
Defined.

(** C1, counterexample: on the Dataset without rows every aggregator returns
    a table without rows, and generate_insights raises on each of them. *)
Lemma insights_of_empty_tables_raise :
  (t <- StreamlitApp.sentiment_counts Scenario.empty ;;
   StreamlitApp.generate_insights (B := Idealised.builtins)
     "Sentiment Breakdown" t "pie_sentiment") = Raise IndexError
  /\ (t <- StreamlitApp.df_engagements_daily Scenario.empty ;;
      StreamlitApp.generate_insights (B := Idealised.builtins)
        "Engagement Trend Over Time" t "line_engagement") = Raise ValueError
  /\ (t <- StreamlitApp.platform_engagements Scenario.empty ;;
      StreamlitApp.generate_insights (B := Idealised.builtins)
        "Engagements by Platform" t "bar_platform") = Raise IndexError
  /\ (t <- StreamlitApp.media_type_counts Scenario.empty ;;
      StreamlitApp.generate_insights (B := Idealised.builtins)
        "Media Type Mix" t "pie_media_type") = Raise IndexError
  /\ (t <- StreamlitApp.location_engagements Scenario.empty ;;
      StreamlitApp.generate_insights (B := Idealised.builtins)
        "Top 5 Locations by Engagements" t "bar_location") = Raise IndexError.
Proof. repeat split; reflexivity. Qed.



(** C3, witness: the headers of the scenario. *)
Lemma normalizer_renames_columns_witness :
  map StreamlitApp.normalize_label (columns Scenario.dirty)
  = ["date"; "platform"; "sentiment"; "location"; "media_type"; "engagements";
     "authorname"]
  /\ map StreamlitApp.normalize_label (columns Scenario.raw)
     = map canonical
         ["Date"; "Platform"; "Sentiment"; "Location"; "Media Type";
          "Engagements"].
Proof.
  split; [reflexivity|].
  apply (proj1 (proj2 (proj2 (proj2 (normalizer_renames_columns
                                        (B := Idealised.builtins)
                                        Scenario.raw))))).
  - repeat constructor; simpl; tauto.
  - repeat constructor;
      match goal with
      | |- header_variant ?h _ =>
          exists "", h, ""; repeat split; reflexivity
      end.
Defined.

(** C3, counterexample: a period in a header is removed by streamlit_app.py
    and kept by app.py; neither file makes an underscore of it. *)
Lemma period_is_not_replaced :
  StreamlitApp.normalize_label "Media.Type" = "mediatype"
  /\ App.normalize_label "Media.Type" = "media.type"
  /\ "mediatype" <> "media_type" /\ "media.type" <> "media_type".
Proof. repeat split; (reflexivity || discriminate). Qed.


(** C4, counterexample: an upload with the headers Date, DATE and
    Engagements lacks four of the required columns after renaming, and the
    run shows no schema error: it ends with the ValueError that line 19
    raises on the two date columns, before the columns are checked. *)
Lemma two_dates_raise_before_the_check :
  (exists col,
     In col StreamlitApp.required
     /\ ~ In col (map StreamlitApp.normalize_label (columns two_dates)))
  /\ StreamlitApp.clean_data (B := Idealised.builtins) two_dates
     = Raise ValueError
  /\ StreamlitApp.main (B := Idealised.builtins) (Some two_dates)
     = ([StreamlitApp.st_sidebar_success "File uploaded successfully!"],
        StreamlitApp.Fail ValueError)
  /\ errors (fst (StreamlitApp.main (B := Idealised.builtins) (Some two_dates)))
     = [].
Proof.
  split; [|repeat split; reflexivity].
  exists "platform". split; [simpl; tauto|].
  simpl. intros H. decompose [or] H; discriminate || assumption.
Qed.

(** C5, witness: the cells of the first row of the upload with unreadable
    cells. *)
Lemma clean_data_recovers_cells_witness :
  exists df,
    StreamlitApp.clean_data (B := Idealised.builtins) Scenario.dirty = Ok df
    /\ List.length (rows df) = 3.
Proof.
  destruct (proj1 (clean_data_recovers_cells (B := Idealised.builtins)
                     Scenario.dirty)) as (df & Hdf).
  - vm_compute. lia.
  - exists df. split; [exact Hdf|].
    exact (proj1 (proj2 (clean_data_recovers_cells (B := Idealised.builtins)
                           Scenario.dirty) df Hdf)).
Defined.

(** C5, counterexample: the engagements cell "abc" cannot be read as a
    number; the Normalizer leaves it as it is and does not make it 0. *)
Lemma text_engagements_stay_text :
  exists df,
    StreamlitApp.clean_data (B := Idealised.builtins) Scenario.dirty = Ok df
    /\ getitem df "engagements" = Ok [Str "10"; Num 0; Str "abc"]
    /\ Str "abc" <> Num 0.
Proof.
  eexists. split; [reflexivity|]. split; [reflexivity|discriminate].
Qed.



(** C7, witness: the sentiment table of the scenario. *)
Lemma percentages_sum_to_100_witness :
  percentages_ok
    {| columns := ["sentiment"; "count"; "percentage"];
       rows := [[Str "Positive"; Num 2; Num (200 # 3)];
                [Str "Negative"; Num 1; Num (100 # 3)]] |}.
Proof.
  apply (proj1 (percentages_sum_to_100 Scenario.cleaned)). reflexivity.
Defined.



(** C9, witness: the upload with an unknown column. *)
Lemma clean_data_frame_witness :
  exists df,
    StreamlitApp.clean_data (B := Idealised.builtins) Scenario.dirty = Ok df
    /\ columns df
       = map StreamlitApp.normalize_label (columns Scenario.dirty)
    /\ getitem df "authorname" = Ok [Str "Amal"; Str "Badr"; NaN].
Proof.
  eexists. split; [reflexivity|]. split; [|reflexivity].
  apply (clean_data_frame (B := Idealised.builtins) Scenario.dirty).
  reflexivity.
Defined.

(** C10, witness: a tag that is none of the five. *)
Lemma generate_insights_unknown_kind_witness :
  StreamlitApp.generate_insights (B := Idealised.builtins)
    "Sentiment Breakdown" Scenario.cleaned "scatter" = Ok [].
Proof.
  apply (generate_insights_unknown_kind (B := Idealised.builtins)).
  simpl. intros H. decompose [or] H; discriminate || assumption.
Defined.

(** ** From uploads to Datasets *)

Lemma row_lookup_map_cells (f : value -> value) (label : string)
  (cols : list string) (row : list value) :
  List.length row = List.length cols -> In label cols ->
  row_lookup label cols (map_cells f label cols row)
  = f (row_lookup label cols row).
Proof.
  revert row. induction cols as [|c cols IH]; intros [|v row] Hlen Hin;
    simpl in *; try discriminate; try contradiction.
  destruct (String.eqb_spec c label) as [->|Hne]; [reflexivity|].
  destruct Hin as [E|Hin]; [congruence|]. apply IH; [lia|assumption].
Qed.

Lemma row_lookup_map_cells_other (f : value -> value) (label other : string)
  (cols : list string) (row : list value) :
  label <> other ->
  row_lookup label cols (map_cells f other cols row) = row_lookup label cols row.
Proof.
  intros Hne. revert row.
  induction cols as [|c cols IH]; intros [|v row]; simpl; try reflexivity.
  destruct (String.eqb_spec c label) as [->|Hc]; [|apply IH].
  destruct (String.eqb_spec label other) as [E|_]; [congruence|reflexivity].
Qed.

(** The Normalizer makes a Dataset of an upload whose rows have one cell for
    each column, in which each required column is there once after renaming
    and the engagements cells are numbers or missing. *)
Lemma clean_data_dataset {B : Builtins} (raw df : DataFrame) :
  StreamlitApp.clean_data raw = Ok df ->
  (forall row, In row (rows raw) -> List.length row = List.length (columns raw)) ->
  (forall col, In col StreamlitApp.required -> occurrences col (columns df) = 1) ->
  (forall row, In row (rows raw) ->
     let v := row_lookup "engagements" (columns df) row in
     is_num v || isna v = true) ->
  StreamlitApp.is_dataset df = true.
Proof.
  intros H Hrect Hreq Hnum. apply clean_data_inv in H. cbv zeta in H. subst df.
  unfold map_column in *. cbn [columns rows] in *.
  set (cols := map StreamlitApp.normalize_label (columns raw)) in *.
  assert (Hin : forall col, In col StreamlitApp.required -> In col cols).
  { intros col Hcol. apply contains_In, contains_occurrences.
    rewrite (Hreq col Hcol). discriminate. }
  unfold StreamlitApp.is_dataset, StreamlitApp.column_ok. cbn [columns rows].
  apply andb_true_intro. split; [apply andb_true_intro; split|].
  - apply forallb_forall. intros col Hcol. apply Nat.eqb_eq. now apply Hreq.
  - rewrite !map_map. apply forallb_forall. intros row' Hrow'.
    apply in_map_iff in Hrow' as (row & <- & Hrow).
    rewrite row_lookup_map_cells_other by discriminate.
    rewrite row_lookup_map_cells.
    + unfold to_datetime_coerce. now destruct (parse_datetime _).
    + unfold cols. rewrite length_map. now apply Hrect.
    + apply Hin. simpl. tauto.
  - rewrite !map_map. apply forallb_forall. intros row' Hrow'.
    apply in_map_iff in Hrow' as (row & <- & Hrow).
    rewrite row_lookup_map_cells.
    + rewrite row_lookup_map_cells_other by discriminate.
      specialize (Hnum row Hrow). cbv zeta in Hnum.
      unfold fillna0. destruct (row_lookup "engagements" cols row);
        simpl in *; congruence.
    + rewrite map_cells_length. unfold cols. rewrite length_map. now apply Hrect.
    + apply Hin. simpl. tauto.
Qed.

(** * Further properties of the program *)

(** ** The keys of [groupby(...).sum()] *)

Lemma ordpairs_perm {A : Type} (R : A -> A -> Prop) (l l' : list A) :
  (forall x y, R x y -> R y x) ->
  Permutation l l' -> ForallOrdPairs R l -> ForallOrdPairs R l'.
Proof.
  intros Hsym. induction 1 as [|x l l' Hp IH|x y l|l l' l'' _ IH1 _ IH2];
    intros H.
  - constructor.
  - inversion H; subst. constructor; [|now apply IH].
    eapply Permutation_Forall; eassumption.
  - inversion H as [|? ? Hy Hl]; subst. inversion Hl as [|? ? Hx Hl']; subst.
    inversion Hy; subst. constructor; [|now constructor].
    constructor; [now apply Hsym|assumption].
  - auto.
Qed.

Lemma ordpairs_map {A C : Type} (f : A -> C) (R : C -> C -> Prop) (l : list A) :
  ForallOrdPairs R (map f l) <-> ForallOrdPairs (fun x y => R (f x) (f y)) l.
Proof.
  induction l as [|x l IH]; simpl; split; intros H; try constructor;
    inversion H; subst.
  - now rewrite Forall_map in *.
  - now apply IH.
  - now rewrite Forall_map.
  - now apply IH.
Qed.

Lemma Sorted_ordpairs {A : Type} (R D : A -> A -> Prop) (l : list A) :
  Sorted R l -> ForallOrdPairs D l -> Sorted (fun x y => R x y /\ D x y) l.
Proof.
  induction 1 as [|x l Hs IH Hhd]; intros H; [constructor|].
  inversion H as [|? ? Hx Hl]; subst. constructor; [now apply IH|].
  destruct Hhd; constructor. split; [assumption|]. now inversion Hx.
Qed.

Lemma in_combine_left {A C : Type} (l : list A) (l' : list C) (x : A) :
  List.length l = List.length l' -> In x l -> exists y, In (x, y) (combine l l').
Proof.
  revert l'. induction l as [|a l IH]; intros [|b l'] Hlen Hin;
    simpl in *; try discriminate; try contradiction.
  destruct Hin as [->|Hin]; [exists b; now left|].
  destruct (IH l' ltac:(lia) Hin) as (y & Hy). exists y. now right.
Qed.

Lemma Forall2_map_fst {A C : Type}
  (gs : list (value * A)) (s : list (value * C)) (R : A -> C -> Prop) :
  Forall2 (fun g p => fst p = fst g /\ R (snd g) (snd p)) gs s ->
  map fst s = map fst gs.
Proof.
  induction 1 as [|g p gs s [E _] _ IH]; simpl; [reflexivity|].
  now rewrite E, IH.
Qed.

(** The rows of [groupby(...).sum()] come in ascending order of the key, no
    two rows have the same key, and every key that is present has a row. *)
Lemma groupby_sum_keys (keys vals : list value) (s : list (value * value)) :
  groupby_sum keys vals = Ok s ->
  Sorted (fun a b => value_leb a b = true /\ value_eqb a b = false) (map fst s)
  /\ ForallOrdPairs (fun a b => value_eqb a b = false) (map fst s)
  /\ (List.length keys = List.length vals ->
      forall k, In k keys -> isna k = false ->
      exists p, In p s /\ value_eqb (fst p) k = true).
Proof.
  intros Hs. pose proof (groupby_sum_inv keys vals s Hs) as Hinv.
  pose proof (Forall2_map_fst _ _
                (fun vs v => group_sum vs = Ok v) Hinv) as Hfst.
  pose proof (group_keys_grouped keys vals) as [_ Hdist Hall].
  assert (Hperm : Permutation (map fst (group_keys keys vals)) (map fst s)).
  { rewrite Hfst. apply Permutation_map, sort_perm. }
  assert (Hd : ForallOrdPairs (fun a b => value_eqb a b = false) (map fst s)).
  { eapply ordpairs_perm; [|exact Hperm|exact Hdist].
    intros x y H. now rewrite value_eqb_sym. }
  split; [|split; [exact Hd|]].
  - apply Sorted_ordpairs; [|exact Hd]. rewrite Hfst. apply Sorted_map.
    apply (sort_sorted key_before). intros x y. apply value_leb_total.
  - intros Hlen k Hk Hna. destruct (in_combine_left keys vals k Hlen Hk) as (v & Hv).
    destruct (Hall (k, v) Hv Hna) as (key & Hkey & E).
    apply (Permutation_in _ Hperm) in Hkey.
    apply in_map_iff in Hkey as (p & <- & Hp). eauto.
Qed.

Lemma getitem_lengths (df : DataFrame) (a b : string) (xs ys : list value) :
  getitem df a = Ok xs -> getitem df b = Ok ys ->
  List.length xs = List.length ys.
Proof.
  intros Ha Hb. now rewrite (getitem_length _ _ _ Ha), (getitem_length _ _ _ Hb).
Qed.

Lemma Sorted_impl_Forall {A : Type} (P : A -> Prop) (R R' : A -> A -> Prop)
  (l : list A) :
  Forall P l -> (forall x y, P x -> P y -> R x y -> R' x y) ->
  Sorted R l -> Sorted R' l.
Proof.
  intros HP HR. induction 1 as [|x l Hs IH Hhd]; [constructor|].
  inversion HP; subst. constructor; [now apply IH|].
  destruct Hhd; constructor. inversion H2; subst. now apply HR.
Qed.

(** The table of a [groupby(key)['engagements'].sum()], before any sort by
    value: what its rows are. *)
Lemma groupby_table (df : DataFrame) (key : string)
  (keys vals : list value) (s : list (value * value)) :
  getitem df key = Ok keys -> getitem df "engagements" = Ok vals ->
  groupby_sum keys vals = Ok s ->
  Sorted (fun a b => value_leb a b = true /\ value_eqb a b = false) (map fst s)
  /\ (forall k v, In (k, v) s ->
        isna k = false
        /\ group_sum (cells_where k (combine keys vals)) = Ok v)
  /\ (forall k, In k keys -> isna k = false ->
        exists p, In p s /\ value_eqb (fst p) k = true).
Proof.
  intros Hk Hv Hs. destruct (groupby_sum_keys keys vals s Hs) as (Hsorted & _ & Hall).
  split; [exact Hsorted|]. split.
  - intros k v Hin. destruct (groupby_sum_rows keys vals s Hs (k, v) Hin)
      as (Hna & _ & Hsum). now split.
  - apply Hall. exact (getitem_lengths df key "engagements" keys vals Hk Hv).
Qed.

(** X1: The engagement-trend table of streamlit_app.py has one row for each date
    that is present, in ascending order of the date and with no date twice.
    Rows without a date (NaT) are in no row of the table.  When the
    engagements are whole numbers whose absolute values add up to at most
    2^53, where the additions of pandas are exact, the row carries the sum
    of the engagements of the rows of that date.  On a column of points in
    time the dates of the table are strictly increasing. *)
Lemma sums_when_exact (engagements keys : list value)
  (s : list (value * value)) :
  (forall k v, In (k, v) s ->
     isna k = false
     /\ group_sum (cells_where k (combine keys engagements)) = Ok v) ->
  forall k v, In (k, v) s ->
    isna k = false
    /\ (exact_sums engagements = true ->
        group_sum (cells_where k (combine keys engagements)) = Ok v).
Proof.
  intros H k v Hin. destruct (H k v Hin) as [H1 H2]. split; [exact H1|].
  intros _. exact H2.
Qed.




(** ** The rows that [head(5)] leaves out *)

Lemma StronglySorted_app {A : Type} (R : A -> A -> Prop) (l1 l2 : list A) :
  StronglySorted R (l1 ++ l2) ->
  forall x y, In x l1 -> In y l2 -> R x y.
Proof.
  induction l1 as [|a l1 IH]; simpl; intros H x y Hx Hy; [contradiction|].
  apply StronglySorted_inv in H as [Hs Ha]. destruct Hx as [<-|Hx].
  - apply (proj1 (Forall_forall _ _) Ha). apply in_or_app. now right.
  - now apply IH.
Qed.

Lemma sorted_sums_strongly (s : list (value * value)) :
  forallb is_num (map snd s) = true ->
  Sorted (fun x y => desc_before (snd x) (snd y) = true) s ->
  StronglySorted (fun x y => (qval (snd y) <= qval (snd x))%Q) s.
Proof.
  intros Hnum Hs. apply Sorted_StronglySorted.
  - intros x y z Hxy Hyz. eapply Qle_trans; eassumption.
  - eapply (Sorted_impl_Forall (fun p => is_num (snd p) = true)); [| |exact Hs].
    + apply Forall_forall. intros p Hp.
      exact (proj1 (forallb_forall _ _) Hnum _ (in_map snd _ _ Hp)).
    + intros x y Hx Hy H. cbv beta in H.
      destruct (snd x), (snd y); try discriminate.
      exact (proj1 (desc_before_num _ _) H).
Qed.


(** ** The count tables, row by row *)

Lemma cells_where_self (k : value) (s : list value) :
  List.length (cells_where k (combine s s))
  = List.length (filter (fun v => value_eqb v k) s).
Proof.
  unfold cells_where. rewrite length_map.
  induction s as [|v s IH]; simpl; [reflexivity|].
  destruct (value_eqb v k); simpl; now rewrite IH.
Qed.

Lemma value_counts_rows (s : list value) :
  StronglySorted (fun x y : value * nat => snd y <= snd x) (value_counts s)
  /\ ForallOrdPairs (fun a b => value_eqb a b = false)
                    (map fst (value_counts s))
  /\ (forall k n, In (k, n) (value_counts s) ->
        isna k = false
        /\ 1 <= n
        /\ n = List.length (filter (fun v => value_eqb v k) s))
  /\ (forall k, In k s -> isna k = false ->
        exists p, In p (value_counts s) /\ value_eqb (fst p) k = true).
Proof.
  pose proof (group_keys_grouped s s) as [Hcells Hdist Hall].
  assert (Hperm : Permutation (count_keys s) (value_counts s))
    by apply sort_perm.
  assert (Hfst : map fst (count_keys s) = map fst (group_keys s s)).
  { unfold count_keys. rewrite map_map. reflexivity. }
  split; [|split; [|split]].
  - apply Sorted_StronglySorted.
    + intros x y z Hxy Hyz. lia.
    + eapply Sorted_impl; [|apply (sort_sorted
                                     (fun x y : value * nat => Nat.leb (snd y) (snd x)))].
      * intros x y H. now apply Nat.leb_le.
      * intros x y H. apply Nat.leb_le. apply Nat.leb_gt in H. lia.
  - eapply ordpairs_perm; [|exact (Permutation_map fst Hperm)|].
    + intros x y H. now rewrite value_eqb_sym.
    + now rewrite Hfst.
  - intros k n Hin. apply (Permutation_in _ (Permutation_sym Hperm)) in Hin.
    unfold count_keys in Hin. apply in_map_iff in Hin as (g & Hg & Hin).
    injection Hg as <- <-. destruct (Hcells g Hin) as [Hc Hne].
    split; [|split].
    + apply (cells_where_key _ (combine s s)). now rewrite <- Hc.
    + destruct (snd g); [congruence|simpl; lia].
    + now rewrite Hc at 1; rewrite cells_where_self.
  - intros k Hk Hna.
    destruct (in_combine_left s s k eq_refl Hk) as (v & Hv).
    destruct (Hall (k, v) Hv Hna) as (key & Hkey & E).
    rewrite <- Hfst in Hkey. apply (Permutation_in _ (Permutation_map fst Hperm)) in Hkey.
    apply in_map_iff in Hkey as (p & <- & Hp). eauto.
Qed.

Lemma count_frame_table (label : string) (df t : DataFrame) :
  String.eqb label "count" = false ->
  StreamlitApp.count_frame label df = Ok t ->
  count_table label df t.
Proof.
  intros Hl H. destruct (count_frame_inv label df t Hl H) as (s & T & Hs & HT & ->).
  destruct (value_counts_rows s) as (H1 & H2 & H3 & H4).
  exists s, (value_counts s), T. repeat (split; [first [reflexivity|assumption]|]).
  exact H4.
Qed.

(** X5: The sentiment-mix and media-type-mix tables of streamlit_app.py have one
    row for each sentiment (media type) that is present, none twice, the
    most frequent first.  A row carries the number of rows of the Dataset
    with that value and this number as a percentage of the rows whose value
    is present; rows with a missing value are counted nowhere. *)
Theorem count_tables (df : DataFrame) :
  (forall t, StreamlitApp.sentiment_counts df = Ok t ->
     count_table "sentiment" df t)
  /\ (forall t, StreamlitApp.media_type_counts df = Ok t ->
        count_table "media_type" df t).
Proof.
  split; intros t H.
  - now apply (count_frame_table "sentiment").
  - now apply (count_frame_table "media_type").
Qed.

(** ** The filters of app.py *)

Lemma filter_filter {A : Type} (p q : A -> bool) (l : list A) :
  filter q (filter p l) = filter (fun x => p x && q x) l.
Proof.
  induction l as [|x l IH]; simpl; [reflexivity|].
  destruct (p x); simpl; [destruct (q x)|]; now rewrite IH.
Qed.

Lemma getitem_inv (df : DataFrame) (label : string) (s : list value) :
  getitem df label = Ok s ->
  occurrences label (columns df) = 1
  /\ s = map (row_lookup label (columns df)) (rows df).
Proof.
  unfold getitem. destruct (occurrences label (columns df)) as [|[|n]];
    try discriminate.
  intros H. apply Ok_inj in H. now split.
Qed.

(** One selection step: nothing happens when nothing is selected. *)
Lemma selection_step (d f : DataFrame) (label : string) (sel : list value) :
  (if App.truthy sel then App.select_isin d label sel else Ok d) = Ok f ->
  columns f = columns d
  /\ rows f = filter (fun r => passes sel (row_lookup label (columns d) r))
                     (rows d).
Proof.
  unfold passes. destruct (App.truthy sel); simpl.
  - unfold App.select_isin. destruct (getitem d label); cbn [bind];
      [|discriminate].
    intros H. apply Ok_inj in H. subst f. now split.
  - intros H. apply Ok_inj in H. subst f. split; [reflexivity|].
    symmetry. apply filter_all. now apply forallb_forall.
Qed.

Lemma selection_step_ok (d : DataFrame) (label : string) (sel : list value) :
  occurrences label (columns d) = 1 ->
  exists f, (if App.truthy sel then App.select_isin d label sel else Ok d) = Ok f.
Proof.
  intros H. destruct (App.truthy sel); [|eauto].
  unfold App.select_isin. rewrite (getitem_once d label H). cbn [bind]. eauto.
Qed.

Lemma mask_rows (first last : Z) (h : list value -> value)
  (rs : list (list value)) :
  forall after before,
  mapM (App.date_ge first) (map h rs) = Ok after ->
  mapM (App.date_le last) (map h rs) = Ok before ->
  map fst (filter snd (combine rs (App.mask_and after before)))
  = filter (fun r => in_range first last (h r)) rs.
Proof.
  induction rs as [|r rs IH]; intros after before Ha Hb; [reflexivity|].
  simpl in Ha, Hb.
  destruct (App.date_ge first (h r)) as [a|] eqn:Ea; simpl in Ha; [|discriminate].
  destruct (mapM (App.date_ge first) (map h rs)) as [after'|]; simpl in Ha;
    [|discriminate].
  destruct (App.date_le last (h r)) as [b|] eqn:Eb; simpl in Hb; [|discriminate].
  destruct (mapM (App.date_le last) (map h rs)) as [before'|]; simpl in Hb;
    [|discriminate].
  apply Ok_inj in Ha, Hb. subst after before. simpl.
  assert (E : a && b = in_range first last (h r)).
  { destruct (h r); try discriminate; simpl in *;
      apply Ok_inj in Ea, Eb; subst; reflexivity. }
  rewrite <- E, <- (IH after' before' eq_refl eq_refl).
  now destruct (a && b).
Qed.

Lemma index_inv {A : Type} (l : list A) (i : nat) (x : A) :
  App.index l i = Ok x -> nth_error l i = Some x.
Proof.
  unfold App.index. destruct (nth_error l i); [|discriminate].
  intros H. now apply Ok_inj in H; subst.
Qed.

(** X6: The filters of app.py keep the columns and keep exactly the rows that
    pass the four selections (an empty selection lets every row pass) and
    whose date is a point in time inside the range picked, in their order.
    A row whose date is NaT is therefore never kept. *)
Theorem app_filters_keep (df f : DataFrame)
  (platform_filter sentiment_filter media_filter location_filter : list value)
  (date_range : list Z) :
  App.filtered_df df platform_filter sentiment_filter media_filter
                  location_filter date_range = Ok f ->
  exists first last,
    nth_error date_range 0 = Some first
    /\ nth_error date_range 1 = Some last
    /\ columns f = columns df
    /\ rows f = filter (kept (columns df) platform_filter sentiment_filter
                             media_filter location_filter first last)
                       (rows df)
    /\ forall row, In row (rows f) ->
         exists t, row_lookup "date" (columns f) row = Timestamp t
                   /\ (first <= t <= last)%Z.
Proof.
  unfold App.filtered_df. cbv zeta.
  destruct (if App.truthy platform_filter then _ else _) as [d1|] eqn:H1;
    cbn [bind]; [|discriminate].
  destruct (if App.truthy sentiment_filter then _ else _) as [d2|] eqn:H2;
    cbn [bind]; [|discriminate].
  destruct (if App.truthy media_filter then _ else _) as [d3|] eqn:H3;
    cbn [bind]; [|discriminate].
  destruct (if App.truthy location_filter then _ else _) as [d4|] eqn:H4;
    cbn [bind]; [|discriminate].
  apply selection_step in H1 as [C1 R1]. apply selection_step in H2 as [C2 R2].
  apply selection_step in H3 as [C3 R3]. apply selection_step in H4 as [C4 R4].
  destruct (getitem d4 "date") as [date|] eqn:Hd; cbn [bind]; [|discriminate].
  destruct (App.index date_range 0) as [first|] eqn:Hf; cbn [bind];
    [|discriminate].
  destruct (mapM (App.date_ge first) date) as [after|] eqn:Ha; cbn [bind];
    [|discriminate].
  destruct (App.index date_range 1) as [last|] eqn:Hl; cbn [bind];
    [|discriminate].
  destruct (mapM (App.date_le last) date) as [before|] eqn:Hb; cbn [bind];
    [|discriminate].
  intros H. apply Ok_inj in H. subst f.
  apply getitem_inv in Hd as [_ ->].
  assert (Hcols : columns d4 = columns df) by congruence.
  assert (Hrows : rows (App.select_mask d4 (App.mask_and after before))
                  = filter (kept (columns df) platform_filter sentiment_filter
                                 media_filter location_filter first last)
                           (rows df)).
  { unfold App.select_mask. cbn [rows].
    rewrite (mask_rows first last _ _ after before Ha Hb).
    rewrite R4, R3, R2, R1, !filter_filter.
    rewrite C3, C2, C1, Hcols. apply filter_ext. intros x. unfold kept.
    now rewrite !andb_assoc. }
  exists first, last. split; [now apply index_inv|]. split; [now apply index_inv|].
  split; [exact Hcols|]. split; [exact Hrows|].
  intros row Hin. rewrite Hrows in Hin. apply filter_In in Hin as [_ Hk].
  unfold kept in Hk. apply andb_prop in Hk as [_ Hr].
  unfold App.select_mask. cbn [columns]. rewrite Hcols.
  unfold in_range in Hr.
  destruct (row_lookup "date" (columns df) row); try discriminate.
  exists t. split; [reflexivity|].
  apply andb_prop in Hr as [Ha' Hb']. apply Z.leb_le in Ha', Hb'. lia.
Qed.

Lemma forallb_incl {A : Type} (p : A -> bool) (l l' : list A) :
  incl l l' -> forallb p l' = true -> forallb p l = true.
Proof.
  intros Hincl H. apply forallb_forall. intros x Hx.
  exact (proj1 (forallb_forall _ _) H x (Hincl x Hx)).
Qed.

(** A frame with the columns of a Dataset and some of its rows is a
    Dataset. *)
Lemma is_dataset_sub (df d : DataFrame) :
  StreamlitApp.is_dataset df = true ->
  columns d = columns df -> incl (rows d) (rows df) ->
  StreamlitApp.is_dataset d = true.
Proof.
  unfold StreamlitApp.is_dataset, StreamlitApp.column_ok.
  intros H Hcols Hrows. rewrite Hcols.
  apply andb_prop in H as [H Hnum]. apply andb_prop in H as [Hreq Htime].
  rewrite Hreq, (forallb_incl _ _ _ Hrows Htime), (forallb_incl _ _ _ Hrows Hnum).
  reflexivity.
Qed.

Lemma mapM_dates_ok (x : Z) (l : list value) :
  forallb is_time l = true ->
  (exists m, mapM (App.date_ge x) l = Ok m)
  /\ (exists m, mapM (App.date_le x) l = Ok m).
Proof.
  intros H. split; apply mapM_ok; apply Forall_forall; intros v Hv;
    pose proof (proj1 (forallb_forall _ _) H v Hv) as Ht;
    destruct v; try discriminate; simpl; eauto.
Qed.

Lemma dataset_selection (df d : DataFrame) (label : string) (sel : list value) :
  StreamlitApp.is_dataset df = true ->
  In label StreamlitApp.required ->
  columns d = columns df -> incl (rows d) (rows df) ->
  exists f,
    (if App.truthy sel then App.select_isin d label sel else Ok d) = Ok f
    /\ columns f = columns df /\ incl (rows f) (rows df).
Proof.
  intros Hds Hlabel Hcols Hrows.
  destruct (is_dataset_inv df Hds) as (Hget & _ & _).
  destruct (getitem_inv df label _ (Hget label Hlabel)) as [Hocc _].
  rewrite <- Hcols in Hocc.
  destruct (selection_step_ok d label sel Hocc) as (f & Hf).
  exists f. split; [exact Hf|]. apply selection_step in Hf as [C R].
  split; [congruence|]. rewrite R. intros r Hr.
  apply filter_In in Hr as [Hr _]. now apply Hrows.
Qed.

(** X7: On a Dataset the filters of app.py fail with IndexError when fewer than
    two dates are in the range picked, as happens while the user has picked
    the first date only; with two dates they return a frame, and this frame
    is a Dataset again. *)
Theorem app_filters_on_dataset (df : DataFrame)
  (platform_filter sentiment_filter media_filter location_filter : list value)
  (date_range : list Z) :
  StreamlitApp.is_dataset df = true ->
  (List.length date_range < 2 ->
   App.filtered_df df platform_filter sentiment_filter media_filter
                   location_filter date_range = Raise IndexError)
  /\ (2 <= List.length date_range ->
      exists f,
        App.filtered_df df platform_filter sentiment_filter media_filter
                        location_filter date_range = Ok f
        /\ StreamlitApp.is_dataset f = true).
Proof.
  intros Hds.
  destruct (dataset_selection df df "platform" platform_filter Hds)
    as (d1 & H1 & C1 & R1); [simpl; tauto|reflexivity|apply incl_refl|].
  destruct (dataset_selection df d1 "sentiment" sentiment_filter Hds)
    as (d2 & H2 & C2 & R2); [simpl; tauto|assumption..|].
  destruct (dataset_selection df d2 "media_type" media_filter Hds)
    as (d3 & H3 & C3 & R3); [simpl; tauto|assumption..|].
  destruct (dataset_selection df d3 "location" location_filter Hds)
    as (d4 & H4 & C4 & R4); [simpl; tauto|assumption..|].
  pose proof (is_dataset_sub df d4 Hds C4 R4) as Hds4.
  destruct (is_dataset_inv d4 Hds4) as (Hget & Htime & _).
  pose proof (Hget "date" ltac:(simpl; tauto)) as Hdate.
  unfold App.filtered_df. cbv zeta. rewrite H1. cbn [bind]. rewrite H2.
  cbn [bind]. rewrite H3. cbn [bind]. rewrite H4. cbn [bind]. rewrite Hdate.
  cbn [bind].
  destruct date_range as [|first [|last rest]]; simpl List.length.
  - split; [reflexivity|lia].
  - destruct (proj1 (mapM_dates_ok first _ Htime)) as (after & Ha).
    unfold App.index at 1. cbn [nth_error bind]. rewrite Ha. cbn [bind].
    split; [reflexivity|lia].
  - destruct (proj1 (mapM_dates_ok first _ Htime)) as (after & Ha).
    destruct (proj2 (mapM_dates_ok last _ Htime)) as (before & Hb).
    unfold App.index. cbn [nth_error bind]. rewrite Ha. cbn [bind].
    rewrite Hb. cbn [bind]. split; [lia|]. intros _. eexists. split; [reflexivity|].
    apply (is_dataset_sub df); [exact Hds|exact C4|].
    unfold App.select_mask. cbn [rows]. intros r Hr.
    apply in_map_iff in Hr as ([r' b] & <- & Hr). apply filter_In in Hr as [Hr _].
    apply in_combine_l in Hr. now apply R4.
Qed.

(** ** [idxmax], [idxmin] and the sentences of the trend template *)

Section ArgBest.
Variable better : Q -> Q -> bool.
Variable le : Q -> Q -> Prop.
Hypothesis better_spec : forall q p, better q p = false <-> le q p.
Hypothesis le_total : forall p q, le p q \/ le q p.
Hypothesis le_trans : forall p q r, le p q -> le q r -> le p r.

Lemma best_of_step (pre : list value) (best : option (nat * Q)) (p' : Q) :
  best_of le pre best ->
  best_of le (pre ++ [Num p'])
    (match best with
     | None => Some (List.length pre, p')
     | Some (_, q) => if better p' q then Some (List.length pre, p') else best
     end).
Proof.
  assert (Hlast : nth_error (pre ++ [Num p']) (List.length pre) = Some (Num p')).
  { rewrite nth_error_app2 by lia. now rewrite Nat.sub_diag. }
  assert (Hnth : forall k v, nth_error (pre ++ [Num p']) k = Some v ->
            (k < List.length pre /\ nth_error pre k = Some v)
            \/ (k = List.length pre /\ v = Num p')).
  { intros k v H. destruct (Nat.lt_ge_cases k (List.length pre)) as [Hk|Hk].
    - left. split; [exact Hk|]. now rewrite nth_error_app1 in H.
    - right. rewrite nth_error_app2 in H by lia.
      destruct (k - List.length pre) as [|n] eqn:E; simpl in H.
      + split; [lia|congruence].
      + now destruct n. }
  assert (Hrefl : forall p, le p p) by (intros p; destruct (le_total p p); auto).
  destruct best as [[j q]|]; simpl.
  - intros [Hj Hall].
    assert (Hjlt : j < List.length pre) by (apply nth_error_Some; congruence).
    destruct (better p' q) eqn:E.
    + assert (Hn : ~ le p' q).
      { intros H. apply better_spec in H. congruence. }
      split; [exact Hlast|].
      intros k p Hk. destruct (Hnth k _ Hk) as [[Hlt Hk']|[-> Hv]].
      * destruct (Hall k p Hk') as [Hle _].
        assert (Hq : le q p') by (destruct (le_total q p'); tauto).
        split; [eauto|]. intros _ H. apply Hn. eauto.
      * injection Hv as ->. split; [apply Hrefl|lia].
    + apply better_spec in E.
      split; [now rewrite nth_error_app1|].
      intros k p Hk. destruct (Hnth k _ Hk) as [[Hlt Hk']|[-> Hv]].
      * now apply Hall.
      * injection Hv as ->. split; [exact E|lia].
  - intros ->. simpl. split; [reflexivity|].
    intros k p Hk. destruct k as [|k]; simpl in Hk.
    + injection Hk as ->. split; [apply Hrefl|lia].
    + now destruct k.
Qed.

Lemma arg_scan_best (vs : list value) :
  forall pre best r,
  forallb is_num vs = true ->
  best_of le pre best ->
  arg_scan better vs (List.length pre) best = Ok r ->
  best_of le (pre ++ vs) r.
Proof.
  induction vs as [|v vs IH]; intros pre best r Hnum Hbest Hr; simpl in Hr.
  - apply Ok_inj in Hr. subst r. now rewrite app_nil_r.
  - simpl in Hnum. apply andb_prop in Hnum as [Hv Hvs].
    destruct v as [|p'| | |]; try discriminate.
    replace (pre ++ Num p' :: vs) with ((pre ++ [Num p']) ++ vs)
      by now rewrite <- app_assoc.
    apply (IH _ _ r Hvs (best_of_step pre best p' Hbest)).
    rewrite length_app, Nat.add_1_r. exact Hr.
Qed.

(** The position [arg_best] returns holds a number that no number of the
    series beats, and it is the first such position. *)
Lemma arg_best_spec (vs : list value) (i : nat) :
  forallb is_num vs = true ->
  arg_best better vs = Ok i ->
  exists q, nth_error vs i = Some (Num q)
    /\ forall k p, nth_error vs k = Some (Num p) ->
         le p q /\ (k < i -> ~ le q p).
Proof.
  intros Hnum. unfold arg_best.
  destruct (arg_scan better vs 0 None) as [r|] eqn:Hr; cbn [bind]; [|discriminate].
  pose proof (arg_scan_best vs [] None r Hnum eq_refl Hr) as Hbest.
  destruct r as [[j q]|]; [|discriminate].
  intros H. apply Ok_inj in H. subst j. exists q. exact Hbest.
Qed.

End ArgBest.

Lemma Series_mean_val (vs : list value) :
  forallb is_num vs = true -> vs <> [] ->
  exists q, Series_mean vs = Ok (Num q)
    /\ (q == qsum vs / inject_Z (Z.of_nat (List.length vs)))%Q.
Proof.
  intros Hnum Hne. unfold Series_mean.
  rewrite (proj1 (all_num_notna vs Hnum)).
  destruct (reduce_add_num vs Hnum) as (q & Hq & Hsum).
  destruct vs as [|v vs]; [congruence|]. rewrite Hq. cbn [bind].
  eexists. split; [reflexivity|]. now rewrite Hsum.
Qed.

Lemma idxmax_spec (vs : list value) (i : nat) :
  forallb is_num vs = true -> idxmax vs = Ok i ->
  exists q, nth_error vs i = Some (Num q)
    /\ forall k p, nth_error vs k = Some (Num p) ->
         (p <= q)%Q /\ (k < i -> (p < q)%Q).
Proof.
  intros Hnum Hi.
  destruct (arg_best_spec (fun q p => negb (Qle_bool q p)) Qle) with (vs := vs) (i := i)
    as (q & Hq & Hall); try assumption.
  - intros q p. rewrite negb_false_iff. apply Qle_bool_iff.
  - intros p q. destruct (Qlt_le_dec p q) as [H|H]; [left; now apply Qlt_le_weak|now right].
  - intros p q r. apply Qle_trans.
  - exists q. split; [exact Hq|]. intros k p Hk. destruct (Hall k p Hk) as [H1 H2].
    split; [exact H1|]. intros Hlt. apply Qnot_le_lt. now apply H2.
Qed.

Lemma idxmin_spec (vs : list value) (i : nat) :
  forallb is_num vs = true -> idxmin vs = Ok i ->
  exists q, nth_error vs i = Some (Num q)
    /\ forall k p, nth_error vs k = Some (Num p) ->
         (q <= p)%Q /\ (k < i -> (q < p)%Q).
Proof.
  intros Hnum Hi.
  destruct (arg_best_spec (fun q p => negb (Qle_bool p q)) (fun a b => Qle b a))
    with (vs := vs) (i := i) as (q & Hq & Hall); try assumption.
  - intros q p. rewrite negb_false_iff. apply Qle_bool_iff.
  - intros p q. destruct (Qlt_le_dec p q) as [H|H]; [right; now apply Qlt_le_weak|now left].
  - intros p q r H1 H2. now apply Qle_trans with q.
  - exists q. split; [exact Hq|]. intros k p Hk. destruct (Hall k p Hk) as [H1 H2].
    split; [exact H1|]. intros Hlt. apply Qnot_le_lt. now apply H2.
Qed.

Section TrendSentences.
Context {B : Builtins} {S : BuiltinsSpec B}.


End TrendSentences.

(** ** The script as a whole *)

Lemma seq_ret {A C : Type} (a : A) (k : A -> StreamlitApp.script C) :
  StreamlitApp.seq (StreamlitApp.ret a) k = k a.
Proof. unfold StreamlitApp.seq, StreamlitApp.ret. now destruct (k a). Qed.

Lemma runs_emit {C : Type} (e : StreamlitApp.event) (k : StreamlitApp.script C)
  (ev : list StreamlitApp.event) (o : StreamlitApp.outcome C) :
  k = (ev, o) ->
  StreamlitApp.seq (StreamlitApp.emit e) (fun _ => k) = (e :: ev, o).
Proof. intros ->. reflexivity. Qed.

Lemma runs_lift {A C : Type} (r : result A) (k : A -> StreamlitApp.script C)
  (a : A) (ev : list StreamlitApp.event) (o : StreamlitApp.outcome C) :
  r = Ok a -> k a = (ev, o) ->
  StreamlitApp.seq (StreamlitApp.lift r) k = (ev, o).
Proof. intros -> H. simpl. now rewrite H. Qed.

Lemma runs_lift_raise {A C : Type} (r : result A)
  (k : A -> StreamlitApp.script C) (e : exn) :
  r = Raise e ->
  StreamlitApp.seq (StreamlitApp.lift r) k = ([], StreamlitApp.Fail e).
Proof. intros ->. reflexivity. Qed.

Lemma for_each_emit {A : Type} (f : A -> StreamlitApp.event) (l : list A) :
  StreamlitApp.for_each (fun x => StreamlitApp.emit (f x)) l
  = (map f l, StreamlitApp.Done tt).
Proof.
  induction l as [|x l IH]; simpl; [reflexivity|]. now rewrite IH.
Qed.

Lemma charts_app (a b : list StreamlitApp.event) :
  charts (a ++ b) = charts a ++ charts b.
Proof. apply flat_map_app. Qed.

Lemma errors_app (a b : list StreamlitApp.event) :
  errors (a ++ b) = errors a ++ errors b.
Proof. apply flat_map_app. Qed.

Lemma insight_events_quiet (l : list string) :
  charts (insight_events l) = [] /\ errors (insight_events l) = [].
Proof.
  unfold insight_events, charts, errors. cbn [flat_map app].
  rewrite !flat_map_app. cbn [flat_map app].
  split; induction l as [|x l IH]; simpl; auto.
Qed.

Section Script.
Context {B : Builtins}.

Lemma show_insights_ok (chart_title : string) (data : DataFrame)
  (chart_type : string) (l : list string) :
  StreamlitApp.generate_insights chart_title data chart_type = Ok l ->
  StreamlitApp.show_insights chart_title data chart_type
  = (insight_events l, StreamlitApp.Done tt).
Proof.
  intros H. unfold StreamlitApp.show_insights.
  apply runs_emit, runs_emit. eapply runs_lift; [exact H|].
  cbv beta. rewrite for_each_emit. reflexivity.
Qed.

Lemma show_insights_raise (chart_title : string) (data : DataFrame)
  (chart_type : string) (e : exn) :
  StreamlitApp.generate_insights chart_title data chart_type = Raise e ->
  StreamlitApp.show_insights chart_title data chart_type
  = ([StreamlitApp.st_markdown "---"; StreamlitApp.st_subheader "Insights:"],
     StreamlitApp.Fail e).
Proof.
  intros H. unfold StreamlitApp.show_insights.
  apply runs_emit, runs_emit. now apply runs_lift_raise.
Qed.

Lemma runs_show {C : Type} (chart_title : string) (data : DataFrame)
  (chart_type : string) (l : list string) (k : StreamlitApp.script C)
  (ev : list StreamlitApp.event) (o : StreamlitApp.outcome C) :
  StreamlitApp.generate_insights chart_title data chart_type = Ok l ->
  k = (ev, o) ->
  StreamlitApp.seq (StreamlitApp.show_insights chart_title data chart_type)
                   (fun _ => k)
  = (insight_events l ++ ev, o).
Proof.
  intros H ->. rewrite (show_insights_ok _ _ _ l H). reflexivity.
Qed.

End Script.

Lemma is_dataset_has_required (df : DataFrame) :
  StreamlitApp.is_dataset df = true -> StreamlitApp.has_required df = true.
Proof.
  unfold StreamlitApp.is_dataset, StreamlitApp.has_required. intros H.
  apply andb_prop in H as [H _]. apply andb_prop in H as [H _].
  rewrite forallb_forall in H |- *. intros col Hcol.
  apply contains_occurrences. specialize (H col Hcol).
  apply Nat.eqb_eq in H. lia.
Qed.

Lemma count_frame_ok (label : string) (df : DataFrame) (s : list value) :
  String.eqb label "count" = false ->
  getitem df label = Ok s ->
  exists T,
    StreamlitApp.count_frame label df
    = Ok {| columns := [label; "count"; "percentage"];
            rows := count_rows T (value_counts s) |}
    /\ (T == inject_Z (Z.of_nat (List.length (filter notna s))))%Q.
Proof.
  intros Hl Hs. unfold StreamlitApp.count_frame. rewrite Hs. cbn [bind].
  rewrite (getitem_reset_index_val _ _ _ Hl). cbn [bind].
  rewrite map_map. cbn [snd].
  destruct (Series_sum_num _ (all_num_counts (value_counts s))) as (T & HT & ET).
  change (fun x : value * nat => Num (inject_Z (Z.of_nat (snd x))))
    with (fun p : value * nat => Num (cnt p)).
  rewrite HT. cbn [bind]. rewrite mapM_percent_of. cbn [bind].
  exists T. split; [|now rewrite ET, qsum_counts, value_counts_total].
  f_equal.
  unfold StreamlitApp.assign, reset_index, count_rows. cbn [columns rows].
  f_equal. clear. induction (value_counts s) as [|p vc IH]; simpl;
    [reflexivity|]. now rewrite IH.
Qed.

Lemma existsb_notna (s : list value) :
  existsb notna s = true -> exists k, In k s /\ isna k = false.
Proof.
  intros H. apply existsb_exists in H as (k & Hk & E). exists k.
  split; [exact Hk|]. unfold notna in E. now apply negb_true_iff in E.
Qed.

Lemma value_counts_present (s : list value) :
  existsb notna s = true -> value_counts s <> [].
Proof.
  intros H. destruct (existsb_notna s H) as (k & Hk & E).
  destruct (value_counts_rows s) as (_ & _ & _ & Hall).
  destruct (Hall k Hk E) as (p & Hp & _). intros E'. now rewrite E' in Hp.
Qed.

Lemma value_counts_absent (s : list value) :
  existsb notna s = false -> value_counts s = [].
Proof.
  intros H. destruct (value_counts s) as [|[k n] vc] eqn:E; [reflexivity|].
  destruct (value_counts_rows s) as (_ & _ & Hin & _).
  destruct (Hin k n) as (Hk & Hn & Hlen); [rewrite E; now left|].
  destruct (filter (fun v => value_eqb v k) s) as [|v l] eqn:Ef;
    [simpl in Hlen; lia|].
  assert (Hv : In v (filter (fun v => value_eqb v k) s)) by (rewrite Ef; now left).
  apply filter_In in Hv as [Hv Hvk].
  assert (Hnv : notna v = true).
  { unfold notna. destruct v, k; simpl in *; congruence. }
  assert (existsb notna s = true) by (apply existsb_exists; eauto).
  congruence.
Qed.

Lemma groupby_present (df : DataFrame) (key : string)
  (keys vals : list value) (s : list (value * value)) :
  getitem df key = Ok keys -> getitem df "engagements" = Ok vals ->
  groupby_sum keys vals = Ok s ->
  existsb notna keys = true -> s <> [].
Proof.
  intros Hk Hv Hs H. destruct (existsb_notna keys H) as (k & Hin & E).
  destruct (groupby_table df key keys vals s Hk Hv Hs) as (_ & _ & Hall).
  destruct (Hall k Hin E) as (p & Hp & _). intros E'. now rewrite E' in Hp.
Qed.

Section Run.
Context {B : Builtins} {S : BuiltinsSpec B}.

Lemma sentiment_section (chart_title : string) (df : DataFrame) :
  StreamlitApp.is_dataset df = true -> present "sentiment" df = true ->
  exists t l,
    StreamlitApp.sentiment_counts df = Ok t
    /\ StreamlitApp.generate_insights chart_title t "pie_sentiment" = Ok l.
Proof.
  intros Hds Hp. destruct (is_dataset_inv df Hds) as (Hget & _).
  assert (Hs := Hget "sentiment"). specialize (Hs ltac:(simpl; tauto)).
  destruct (count_frame_ok "sentiment" df _ eq_refl Hs) as (T & HT & _).
  destruct (insights_pie_sentiment_ok T _ (value_counts_present _ Hp))
    as (a & b & c & H).
  eexists _, _. split; [exact HT|exact H].
Qed.

Lemma media_type_section (chart_title : string) (df : DataFrame) :
  StreamlitApp.is_dataset df = true -> present "media_type" df = true ->
  exists t l,
    StreamlitApp.media_type_counts df = Ok t
    /\ StreamlitApp.generate_insights chart_title t "pie_media_type" = Ok l.
Proof.
  intros Hds Hp. destruct (is_dataset_inv df Hds) as (Hget & _).
  assert (Hs := Hget "media_type"). specialize (Hs ltac:(simpl; tauto)).
  destruct (count_frame_ok "media_type" df _ eq_refl Hs) as (T & HT & _).
  destruct (insights_pie_media_type_ok T _ (value_counts_present _ Hp))
    as (l & H & _).
  eexists _, _. split; [exact HT|exact H].
Qed.

Lemma dataset_sums (df : DataFrame) (key : string) :
  StreamlitApp.is_dataset df = true ->
  In key StreamlitApp.required ->
  present key df = true ->
  exists keys engagements s,
    getitem df key = Ok keys
    /\ getitem df "engagements" = Ok engagements
    /\ groupby_sum keys engagements = Ok s
    /\ forallb is_num (map snd s) = true
    /\ s <> []
    /\ keys = map (row_lookup key (columns df)) (rows df).
Proof.
  intros Hds Hkey Hp.
  destruct (dataset_groupby df key Hds Hkey) as (keys & eng & s & Hk & He & Hs & Hn).
  exists keys, eng, s.
  assert (E : keys = map (row_lookup key (columns df)) (rows df)).
  { rewrite (proj1 (is_dataset_inv df Hds) key Hkey) in Hk.
    now apply Ok_inj in Hk. }
  repeat split; try assumption.
  apply (groupby_present df key keys eng s Hk He Hs). now rewrite E.
Qed.

Lemma trend_section (chart_title : string) (df : DataFrame) :
  StreamlitApp.is_dataset df = true -> present "date" df = true ->
  exists t l,
    StreamlitApp.df_engagements_daily df = Ok t
    /\ StreamlitApp.generate_insights chart_title t "line_engagement" = Ok l.
Proof.
  intros Hds Hp.
  destruct (dataset_sums df "date" Hds) as (keys & eng & s & Hk & He & Hs & Hn & Hne & E);
    [simpl; tauto|exact Hp|].
  unfold StreamlitApp.df_engagements_daily. rewrite Hk, He. cbn [bind].
  rewrite Hs. cbn [bind].
  destruct (insights_line_engagement_ok s Hne Hn) as (a & b & c & H).
  - apply (groupby_sum_keys_time keys eng s Hs). rewrite E.
    exact (proj1 (proj2 (is_dataset_inv df Hds))).
  - eexists _, _. split; [reflexivity|exact H].
Qed.

Lemma platform_section (chart_title : string) (df : DataFrame) :
  StreamlitApp.is_dataset df = true -> present "platform" df = true ->
  exists t l,
    StreamlitApp.platform_engagements df = Ok t
    /\ StreamlitApp.generate_insights chart_title t "bar_platform" = Ok l.
Proof.
  intros Hds Hp.
  destruct (dataset_sums df "platform" Hds) as (keys & eng & s & Hk & He & Hs & Hn & Hne & E);
    [simpl; tauto|exact Hp|].
  unfold StreamlitApp.platform_engagements. rewrite Hk, He. cbn [bind].
  rewrite Hs. cbn [bind].
  destruct (sort_values_desc_num s Hn) as (s' & Hs'). rewrite Hs'. cbn [bind].
  destruct (sort_values_desc_inv s s' Hs') as [Hperm _].
  destruct (insights_bar_platform_ok s') as (l & H & _).
  - intros E'. subst s'. apply Permutation_sym, Permutation_nil in Hperm.
    congruence.
  - exact (all_num_perm s s' Hperm Hn).
  - eexists _, _. split; [reflexivity|exact H].
Qed.

Lemma location_section (chart_title : string) (df : DataFrame) :
  StreamlitApp.is_dataset df = true -> present "location" df = true ->
  exists t l,
    StreamlitApp.location_engagements df = Ok t
    /\ StreamlitApp.generate_insights chart_title t "bar_location" = Ok l.
Proof.
  intros Hds Hp.
  destruct (dataset_sums df "location" Hds) as (keys & eng & s & Hk & He & Hs & Hn & Hne & E);
    [simpl; tauto|exact Hp|].
  unfold StreamlitApp.location_engagements. rewrite Hk, He. cbn [bind].
  rewrite Hs. cbn [bind].
  destruct (sort_values_desc_num s Hn) as (s' & Hs'). rewrite Hs'. cbn [bind].
  destruct (sort_values_desc_inv s s' Hs') as [Hperm _].
  destruct (insights_bar_location_ok (head 5 s')) as (l & H & _).
  - intros E'. destruct s' as [|p s']; [|discriminate].
    apply Permutation_sym, Permutation_nil in Hperm. congruence.
  - apply all_num_firstn. exact (all_num_perm s s' Hperm Hn).
  - eexists _, _. split; [reflexivity|exact H].
Qed.


End Run.

Section RunWithoutSentiment.
Context {B : Builtins}.

(** X10: The script on an upload that cleans to a Dataset without a single
    sentiment, a file with a header line only for one (streamlit_app.py,
    lines 76 to 96): the sentiment table has no row, its chart is drawn all
    the same, and the run ends with an IndexError raised by the first
    sentence of the insights, before any sentence is written and before the
    other four charts. *)
Theorem main_fails_without_sentiment (raw df : DataFrame) :
  StreamlitApp.clean_data raw = Ok df ->
  StreamlitApp.is_dataset df = true ->
  present "sentiment" df = false ->
  exists t,
    StreamlitApp.sentiment_counts df = Ok t
    /\ rows t = []
    /\ StreamlitApp.main (Some raw)
       = ([ StreamlitApp.st_sidebar_success "File uploaded successfully!";
            StreamlitApp.st_header "1. Sentiment Breakdown";
            StreamlitApp.st_plotly_chart
              (StreamlitApp.px_pie t "sentiment" "count" "Sentiment Breakdown");
            StreamlitApp.st_markdown "---";
            StreamlitApp.st_subheader "Insights:" ],
          StreamlitApp.Fail IndexError).
Proof.
  intros Hclean Hds Hp. destruct (is_dataset_inv df Hds) as (Hget & _).
  assert (Hs := Hget "sentiment"). specialize (Hs ltac:(simpl; tauto)).
  destruct (count_frame_ok "sentiment" df _ eq_refl Hs) as (T & HT & _).
  rewrite (value_counts_absent _ Hp) in HT.
  eexists. split; [exact HT|]. split; [reflexivity|].
  unfold StreamlitApp.main.
  apply runs_emit. eapply runs_lift; [exact Hclean|]. cbv beta.
  rewrite (is_dataset_has_required df Hds). cbn [negb]. rewrite seq_ret.
  apply runs_emit. eapply runs_lift; [exact HT|]. cbv beta.
  apply runs_emit.
  rewrite (show_insights_raise "Sentiment Breakdown" _ "pie_sentiment" IndexError);
    reflexivity.
Qed.

End RunWithoutSentiment.

(** ** The cleaning lines of app.py *)

Lemma lower_char_period (c : ascii) :
  Ascii.eqb (lower_char c) "." = Ascii.eqb c ".".
Proof. destruct c as [[] [] [] [] [] [] [] []]; reflexivity. Qed.

Lemma free_of_lower_period (s : string) :
  free_of "." (lower s) = free_of "." s.
Proof.
  induction s as [|c s IH]; simpl; [reflexivity|].
  now rewrite lower_char_period, IH.
Qed.

Lemma free_of_lstrip (c : ascii) (s : string) :
  free_of c s = true -> free_of c (lstrip s) = true.
Proof.
  induction s as [|d s IH]; simpl; [reflexivity|]. intros H.
  destruct (isspace d); [|exact H].
  apply andb_prop in H as [_ H]. now apply IH.
Qed.

Lemma free_of_rstrip (c : ascii) (s : string) :
  free_of c s = true -> free_of c (rstrip s) = true.
Proof.
  induction s as [|d s IH]; simpl; [reflexivity|]. intros H.
  apply andb_prop in H as [Hd H]. specialize (IH H).
  destruct (rstrip s) as [|e r].
  - destruct (isspace d); simpl; [reflexivity|now rewrite Hd].
  - simpl in *. rewrite Hd. exact IH.
Qed.

Lemma replace_free (c : ascii) (new s : string) :
  free_of c s = true -> replace c new s = s.
Proof.
  induction s as [|d s IH]; simpl; [reflexivity|]. intros H.
  apply andb_prop in H as [Hd H]. apply negb_true_iff in Hd.
  now rewrite Hd, IH.
Qed.

Lemma normalize_labels_agree (s : string) :
  free_of "." s = true -> StreamlitApp.normalize_label s = App.normalize_label s.
Proof.
  intros H. unfold StreamlitApp.normalize_label, App.normalize_label.
  apply replace_free. apply free_of_replace_other; [reflexivity|].
  rewrite free_of_lower_period. unfold strip.
  now apply free_of_rstrip, free_of_lstrip.
Qed.

Section AppCleaning.
Context {B : Builtins}.

(** X11: The cleaning lines of app.py (lines 25 to 27) test for no column: they
    raise a KeyError on an upload without a date column, and on one with a
    date column and without an engagements column.  Where both columns are
    there once they return a frame, and it is the frame [clean_data] of
    streamlit_app.py returns when no label of the upload holds a period. *)
Theorem app_cleaning_needs_columns (raw : DataFrame) :
  let cols := map App.normalize_label (columns raw) in
  (~ In "date" cols -> App.data_cleaning raw = Raise KeyError)
  /\ (occurrences "date" cols = 1 -> ~ In "engagements" cols ->
      App.data_cleaning raw = Raise KeyError)
  /\ (occurrences "date" cols = 1 -> occurrences "engagements" cols = 1 ->
      exists df,
        App.data_cleaning raw = Ok df
        /\ columns df = cols
        /\ (forallb (free_of ".") (columns raw) = true ->
            StreamlitApp.clean_data raw = Ok df)).
Proof.
  intros cols.
  assert (Habsent : forall label, ~ In label cols -> occurrences label cols = 0).
  { intros label H. destruct (occurrences label cols) eqn:E; [reflexivity|].
    exfalso. apply H, contains_In, contains_occurrences. lia. }
  split; [|split].
  - intros H. unfold App.data_cleaning, getitem. cbn [columns].
    fold cols. now rewrite (Habsent _ H).
  - intros Hd He. unfold App.data_cleaning, getitem. cbn [columns map_column].
    fold cols. now rewrite Hd, (Habsent _ He).
  - intros Hd He. eexists. split; [|split].
    + unfold App.data_cleaning, getitem. cbn [columns map_column].
      fold cols. rewrite Hd, He. cbn [bind]. reflexivity.
    + reflexivity.
    + intros Hfree.
      assert (E : map StreamlitApp.normalize_label (columns raw) = cols).
      { apply map_ext_in. intros c Hc. apply normalize_labels_agree.
        exact (proj1 (forallb_forall _ _) Hfree c Hc). }
      unfold StreamlitApp.clean_data. cbn [columns]. rewrite E.
      assert (Hcd : contains "date" cols = true)
        by (apply contains_occurrences; lia).
      assert (Hce : contains "engagements" cols = true)
        by (apply contains_occurrences; lia).
      rewrite Hcd, Hd. cbn [bind columns map_column]. rewrite Hce. reflexivity.
Qed.

End AppCleaning.

(** ** The sentences of the sentiment template *)

Lemma occurs_same (k v : value) (s : list value) :
  value_eqb k v = true -> occurs k s = occurs v s.
Proof.
  intros H. unfold occurs. f_equal. apply filter_ext. intros c.
  destruct (value_eqb c k) eqn:E1, (value_eqb c v) eqn:E2; try reflexivity.
  - rewrite (value_eqb_trans c k v E1 H) in E2. discriminate.
  - rewrite value_eqb_sym in H.
    rewrite (value_eqb_trans c v k E2 H) in E1. discriminate.
Qed.

Lemma occurs_pos (v : value) (s : list value) :
  occurs v s <> 0 -> exists c, In c s /\ value_eqb c v = true.
Proof.
  unfold occurs. intros H.
  destruct (filter (fun c => value_eqb c v) s) as [|c l] eqn:E; [now elim H|].
  assert (Hc : In c (filter (fun c => value_eqb c v) s)) by (rewrite E; now left).
  apply filter_In in Hc. eauto.
Qed.

Lemma matching_counts_gen (s : list value) (v : value) (vc : list (value * nat)) :
  ForallOrdPairs (fun a b => value_eqb a b = false) (map fst vc) ->
  (forall k n, In (k, n) vc -> n = occurs k s) ->
  (exists p, In p vc /\ value_eqb (fst p) v = true) ->
  total_count (filter (fun p => value_eqb (fst p) v) vc) = occurs v s.
Proof.
  induction vc as [|[k n] vc IH]; intros Hd Hn (p & Hp & E).
  - destruct Hp.
  - inversion Hd as [|? ? Hk Hd']; subst. cbn [filter fst].
    destruct (value_eqb k v) eqn:Ek.
    + assert (Hnone : filter (fun p => value_eqb (fst p) v) vc = []).
      { destruct (filter (fun p => value_eqb (fst p) v) vc) as [|q l] eqn:Ef;
          [reflexivity|].
        assert (Hq : In q (filter (fun p => value_eqb (fst p) v) vc))
          by (rewrite Ef; now left).
        apply filter_In in Hq as [Hq Eq].
        pose proof (proj1 (Forall_forall _ _) Hk (fst q) (in_map fst _ _ Hq)) as Hf.
        simpl in Hf. rewrite value_eqb_sym in Eq.
        rewrite (value_eqb_trans k v (fst q) Ek Eq) in Hf. discriminate. }
      rewrite Hnone. cbn [total_count fold_right snd].
      rewrite (Hn k n (or_introl eq_refl)), (occurs_same k v s Ek). lia.
    + apply IH; [exact Hd'|intros; apply Hn; now right|].
      destruct Hp as [<-|Hp]; [simpl in E; congruence|eauto].
Qed.

Lemma matching_counts (s : list value) (v : value) :
  total_count (filter (fun p => value_eqb (fst p) v) (value_counts s))
  = occurs v s.
Proof.
  destruct (value_counts_rows s) as (_ & Hd & Hin & Hall).
  destruct (Nat.eq_dec (occurs v s) 0) as [E|E].
  - rewrite E.
    destruct (filter (fun p => value_eqb (fst p) v) (value_counts s))
      as [|[k n] l] eqn:Ef; [reflexivity|].
    assert (Hq : In (k, n) (filter (fun p => value_eqb (fst p) v) (value_counts s)))
      by (rewrite Ef; now left).
    apply filter_In in Hq as [Hq Eq]. simpl in Eq.
    destruct (Hin k n Hq) as (_ & H1 & Hlen).
    fold (occurs k s) in Hlen. rewrite (occurs_same k v s Eq) in Hlen. lia.
  - destruct (occurs_pos v s E) as (c & Hc & Ec).
    apply matching_counts_gen; [exact Hd| |].
    + intros k n Hkn. now destruct (Hin k n Hkn) as (_ & _ & ->).
    + destruct (Hall c Hc (value_eqb_notna c v Ec)) as (p & Hp & Ep).
      exists p. split; [exact Hp|]. exact (value_eqb_trans _ _ _ Ep Ec).
Qed.

Lemma value_counts_top (s : list value) (top : value) (n : nat)
  (vc : list (value * nat)) :
  value_counts s = (top, n) :: vc ->
  isna top = false /\ n = occurs top s /\ forall v, occurs v s <= occurs top s.
Proof.
  intros E. destruct (value_counts_rows s) as (Hs & _ & Hin & Hall).
  rewrite E in Hs, Hin, Hall.
  destruct (Hin top n (or_introl eq_refl)) as (Hna & _ & Hn).
  fold (occurs top s) in Hn. split; [exact Hna|]. split; [exact Hn|].
  intros v. destruct (Nat.eq_dec (occurs v s) 0) as [E0|E0]; [lia|].
  destruct (occurs_pos v s E0) as (c & Hc & Ec).
  destruct (Hall c Hc (value_eqb_notna c v Ec)) as ([k m] & Hp & Ep).
  simpl in Ep. pose proof (value_eqb_trans _ _ _ Ep Ec) as Ekv.
  destruct (Hin k m Hp) as (_ & _ & Hm). fold (occurs k s) in Hm.
  rewrite (occurs_same k v s Ekv) in Hm. rewrite <- Hm, <- Hn.
  destruct Hp as [Hp|Hp]; [injection Hp as _ <-; lia|].
  apply StronglySorted_inv in Hs as [_ Hs].
  exact (proj1 (Forall_forall _ _) Hs (k, m) Hp).
Qed.

Section SentimentSentences.
Context {B : Builtins} {S : BuiltinsSpec B}.

Lemma sentiment_percent_val (T total : Q) (vc : list (value * nat))
  (name : string) :
  (0 < total)%Q ->
  exists q,
    StreamlitApp.sentiment_percent
      {| columns := ["sentiment"; "count"; "percentage"];
         rows := count_rows T vc |} (Num total) name = Ok (Num q)
    /\ (q == inject_Z (Z.of_nat (total_count
                 (filter (fun p => value_eqb (fst p) (Str name)) vc)))
             / total * 100)%Q.
Proof.
  intros Hpos. unfold StreamlitApp.sentiment_percent. cbn [gt_zero bind].
  assert (Hgt : negb (Qle_bool total 0) = true).
  { apply negb_true_iff. destruct (Qle_bool total 0) eqn:E; [|reflexivity].
    apply Qle_bool_iff in E. exfalso. exact (Qlt_not_le _ _ Hpos E). }
  rewrite Hgt. unfold StreamlitApp.select_eq.
  destruct (count_table_columns "sentiment" T vc eq_refl eq_refl) as (Hs & _ & _).
  rewrite Hs. cbn [bind columns rows]. rewrite filter_count_rows.
  destruct (count_table_columns "sentiment" T
              (filter (fun p => value_eqb (fst p) (Str name)) vc) eq_refl eq_refl)
    as (_ & Hc & _).
  rewrite Hc. cbn [bind].
  destruct (Series_sum_num _ (all_num_counts
              (filter (fun p => value_eqb (fst p) (Str name)) vc)))
    as (q & Hq & Eq).
  rewrite Hq. cbn [bind percent_of]. eexists. split; [reflexivity|].
  now rewrite Eq, qsum_counts.
Qed.


End SentimentSentences.

(** ** The sentences of the platform, location and media-type templates *)

Section BarSentences.
Context {B : Builtins} {S : BuiltinsSpec B}.

Lemma ranking (df : DataFrame) (key : string) :
  StreamlitApp.is_dataset df = true ->
  In key StreamlitApp.required ->
  present key df = true ->
  exists keys engagements s top q1 rest,
    getitem df key = Ok keys
    /\ getitem df "engagements" = Ok engagements
    /\ groupby_sum keys engagements = Ok s
    /\ sort_values_desc s = Ok ((top, Num q1) :: rest)
    /\ forallb is_num (map snd ((top, Num q1) :: rest)) = true
    /\ (forall p, In p rest -> (qval (snd p) <= q1)%Q)
    /\ (qsum (map snd ((top, Num q1) :: rest))
        == qsum (map snd (keyed (combine keys engagements))))%Q
    /\ (forall k, In k keys -> isna k = false ->
          exists p, In p ((top, Num q1) :: rest) /\ value_eqb (fst p) k = true).
Proof.
  intros Hds Hkey Hp.
  destruct (dataset_sums df key Hds Hkey Hp)
    as (keys & eng & s & Hk & He & Hs & Hn & Hne & E).
  destruct (groupby_sum_num keys eng) as (s0 & Hs0 & _ & Hsum).
  { destruct (is_dataset_inv df Hds) as (Hget & _ & Hnum).
    rewrite (Hget "engagements") in He by (simpl; tauto).
    apply Ok_inj in He. now subst eng. }
  rewrite Hs in Hs0. apply Ok_inj in Hs0. subst s0.
  destruct (sort_values_desc_num s Hn) as (s' & Hs').
  destruct (sort_values_desc_inv s s' Hs') as [Hperm Hsorted].
  pose proof (all_num_perm s s' Hperm Hn) as Hn'.
  pose proof (sorted_sums_strongly s' Hn' Hsorted) as Hstrong.
  destruct s' as [|[top v] rest].
  { apply Permutation_sym, Permutation_nil in Hperm. congruence. }
  destruct (all_num_nth ((top, v) :: rest) 0 (top, v) Hn' eq_refl) as (q1 & Eq).
  simpl in Eq. subst v.
  exists keys, eng, s, top, q1, rest.
  split; [exact Hk|]. split; [exact He|]. split; [exact Hs|].
  split; [exact Hs'|]. split; [exact Hn'|]. split; [|split].
  - apply StronglySorted_inv in Hstrong as [_ Hall].
    intros p Hin. exact (proj1 (Forall_forall _ _) Hall p Hin).
  - rewrite <- Hsum. apply qsum_perm, Permutation_map, Permutation_sym, Hperm.
  - intros k Hin Hna.
    destruct (groupby_table df key keys eng s Hk He Hs) as (_ & _ & Hall).
    destruct (Hall k Hin Hna) as (p & Hp' & Ep). exists p.
    split; [|exact Ep]. exact (Permutation_in _ Hperm Hp').
Qed.




End BarSentences.

(** ** The further properties on the scenario *)





Lemma count_tables_witness :
  exists t,
    StreamlitApp.sentiment_counts Scenario.cleaned = Ok t
    /\ count_table "sentiment" Scenario.cleaned t.
Proof.
  eexists. split; [reflexivity|].
  apply (proj1 (count_tables Scenario.cleaned)). reflexivity.
Defined.

Lemma app_filters_keep_witness :
  exists f first last,
    App.filtered_df Scenario.cleaned [Str "FB"] [] [] []
      [1709251200000000000; 1709337600000000000]%Z = Ok f
    /\ nth_error [1709251200000000000; 1709337600000000000]%Z 0 = Some first
    /\ nth_error [1709251200000000000; 1709337600000000000]%Z 1 = Some last
    /\ columns f = columns Scenario.cleaned
    /\ rows f = filter (kept (columns Scenario.cleaned) [Str "FB"] [] [] []
                             first last)
                       (rows Scenario.cleaned).
Proof.
  eexists.
  destruct (app_filters_keep Scenario.cleaned _ [Str "FB"] [] [] []
              [1709251200000000000; 1709337600000000000]%Z eq_refl)
    as (first & last & H0 & H1 & Hc & Hr & _).
  exists first, last. repeat split; assumption.
Defined.

Lemma app_filters_on_dataset_witness :
  App.filtered_df Scenario.cleaned [] [] [] [] [1709251200000000000%Z]
  = Raise IndexError
  /\ exists f,
       App.filtered_df Scenario.cleaned [] [] [] []
         [1709251200000000000; 1709337600000000000]%Z = Ok f
       /\ StreamlitApp.is_dataset f = true.
Proof.
  split.
  - apply (proj1 (app_filters_on_dataset Scenario.cleaned [] [] [] []
                    [1709251200000000000%Z] eq_refl)). simpl. lia.
  - apply (proj2 (app_filters_on_dataset Scenario.cleaned [] [] [] []
                    [1709251200000000000; 1709337600000000000]%Z eq_refl)).
    simpl. lia.
Defined.



Lemma main_fails_without_sentiment_witness :
  exists t,
    StreamlitApp.sentiment_counts Scenario.empty = Ok t
    /\ rows t = []
    /\ StreamlitApp.main (B := Idealised.builtins) (Some header_only)
       = ([ StreamlitApp.st_sidebar_success "File uploaded successfully!";
            StreamlitApp.st_header "1. Sentiment Breakdown";
            StreamlitApp.st_plotly_chart
              (StreamlitApp.px_pie t "sentiment" "count" "Sentiment Breakdown");
            StreamlitApp.st_markdown "---";
            StreamlitApp.st_subheader "Insights:" ],
          StreamlitApp.Fail IndexError).
Proof.
  exact (main_fails_without_sentiment (B := Idealised.builtins)
           header_only Scenario.empty eq_refl eq_refl eq_refl).
Defined.

Lemma app_cleaning_needs_columns_witness :
  App.data_cleaning (B := Idealised.builtins)
    {| columns := ["Platform"; "Engagements"]; rows := [] |} = Raise KeyError
  /\ exists df,
       App.data_cleaning (B := Idealised.builtins) Scenario.raw = Ok df
       /\ columns df = map App.normalize_label (columns Scenario.raw)
       /\ (forallb (free_of ".") (columns Scenario.raw) = true ->
           StreamlitApp.clean_data (B := Idealised.builtins) Scenario.raw = Ok df).
Proof.
  split.
  - apply (proj1 (app_cleaning_needs_columns (B := Idealised.builtins)
                    {| columns := ["Platform"; "Engagements"]; rows := [] |})).
    simpl. intros [H|[H|[]]]; discriminate.
  - exact (proj2 (proj2 (app_cleaning_needs_columns (B := Idealised.builtins)
                           Scenario.raw)) eq_refl eq_refl).
Defined.




